(** * KafkaOS: a shallow embedding of the verification and mandate engine

    The development follows the Python modules of the repository:
    [kos_config], [kos_utility], [kos_bureaucracy], [kos_core], [kos_auth],
    [kos_fs], [kos_proc], [kos_status], [kos_shutdown], [kos_rejection].

    Python strings are modelled as [string] (sequences of 8-bit characters;
    characters outside ASCII are left alone by [lower], [strip] and
    [isdigit]).  Dictionaries built by [parse_args] are [gmap string ArgVal].
    Effects (the global [os_state] dictionary, standard input, the clocks,
    the random generator, printed output, [sys.exit] and exceptions) are
    threaded through a small state-and-outcome monad [M]. *)

From Stdlib Require Import ZArith Zdivisibility QArith Lia Ascii String DecimalString.
From stdpp Require Import gmap strings list.

Local Open Scope string_scope.
Local Open Scope list_scope.
Local Open Scope Z_scope.

(** ** Python string operations used by the sources *)

Module PyStr.

(** [s.startswith(p)] *)
Fixpoint startswith (p s : string) : bool :=
  match p with
  | EmptyString => true
  | String a p' =>
      match s with
      | EmptyString => false
      | String b s' => Ascii.eqb a b && startswith p' s'
      end
  end.

(** [s[n:]] *)
Fixpoint drop (n : nat) (s : string) : string :=
  match n, s with
  | O, _ => s
  | S _, EmptyString => EmptyString
  | S m, String _ t => drop m t
  end.

(** [s[:n]] *)
Fixpoint take (n : nat) (s : string) : string :=
  match n, s with
  | O, _ => EmptyString
  | S _, EmptyString => EmptyString
  | S m, String c t => String c (take m t)
  end.

(** [c in s] for a one-character needle *)
Fixpoint contains (c : ascii) (s : string) : bool :=
  match s with
  | EmptyString => false
  | String d t => if Ascii.eqb c d then true else contains c t
  end.

(** [s.split(c, 1)] for a separator that occurs in [s]: the text before
    the first occurrence and the text after it. *)
Fixpoint split_once (c : ascii) (s : string) : string * string :=
  match s with
  | EmptyString => (EmptyString, EmptyString)
  | String d t =>
      if Ascii.eqb c d then (EmptyString, t)
      else let '(a, b) := split_once c t in (String d a, b)
  end.

(** [s.split(c)]: every field between separators, empty ones included. *)
Fixpoint split_on (c : ascii) (s : string) : list string :=
  match s with
  | EmptyString => [EmptyString]
  | String d t =>
      if Ascii.eqb c d then EmptyString :: split_on c t
      else match split_on c t with
           | f :: fs => String d f :: fs
           | [] => [String d EmptyString]
           end
  end.

(** the characters [str.isspace] accepts in the ASCII range *)
Definition is_space (c : ascii) : bool :=
  let n := nat_of_ascii c in
  ((9 <=? n) && (n <=? 13) || (28 <=? n) && (n <=? 32))%nat.

Fixpoint lstrip (s : string) : string :=
  match s with
  | String c t => if is_space c then lstrip t else s
  | EmptyString => EmptyString
  end.

(** [rstrip] keeps a character when it is not a space or when something
    that is kept follows it. *)
Fixpoint rstrip (s : string) : string :=
  match s with
  | EmptyString => EmptyString
  | String c t =>
      match rstrip t with
      | EmptyString => if is_space c then EmptyString else String c EmptyString
      | r => String c r
      end
  end.

(** [s.strip()] *)
Definition strip (s : string) : string := rstrip (lstrip s).

(** [s.split()]: maximal runs of non-space characters. *)
Fixpoint split_ws_go (cur : option string) (s : string) : list string :=
  match s with
  | EmptyString =>
      match cur with Some w => [String.rev w] | None => [] end
  | String c t =>
      if is_space c then
        match cur with
        | Some w => String.rev w :: split_ws_go None t
        | None => split_ws_go None t
        end
      else
        split_ws_go (Some (String c (default EmptyString cur))) t
  end.
Definition split_ws (s : string) : list string := split_ws_go None s.

Definition lower_char (c : ascii) : ascii :=
  let n := nat_of_ascii c in
  if ((65 <=? n) && (n <=? 90))%nat then ascii_of_nat (n + 32) else c.

(** [s.lower()] *)
Fixpoint lower (s : string) : string :=
  match s with
  | EmptyString => EmptyString
  | String c t => String (lower_char c) (lower t)
  end.

Definition is_digit_char (c : ascii) : bool :=
  let n := nat_of_ascii c in ((48 <=? n) && (n <=? 57))%nat.

Fixpoint all_digits (s : string) : bool :=
  match s with
  | EmptyString => true
  | String c t => is_digit_char c && all_digits t
  end.

(** [s.isdigit()]: false on the empty string. *)
Definition isdigit (s : string) : bool :=
  match s with EmptyString => false | _ => all_digits s end.

(** [sep.join(l)] *)
Fixpoint join (sep : string) (l : list string) : string :=
  match l with
  | [] => EmptyString
  | [x] => x
  | x :: r => x +:+ sep +:+ join sep r
  end.

(** [s.upper()] on ASCII letters *)
Definition upper_char (c : ascii) : ascii :=
  let n := nat_of_ascii c in
  if ((97 <=? n) && (n <=? 122))%nat then ascii_of_nat (n - 32) else c.
Fixpoint upper (s : string) : string :=
  match s with
  | EmptyString => EmptyString
  | String c t => String (upper_char c) (upper t)
  end.

(** decimal rendering of an integer, as [str(n)] *)
Definition of_Z (z : Z) : string := NilZero.string_of_int (Z.to_int z).

(** [bool(s)]: a string is true when it is not empty *)
Definition nonempty (s : string) : bool :=
  match s with EmptyString => false | _ => true end.

(** [s.isascii()]: every character is below 128.  On such strings
    [is_space], [lower_char] and [is_digit_char] are what [str.isspace],
    [str.lower] and [str.isdigit] are; above, Python knows more white space,
    letters and digits than this module does. *)
Fixpoint isascii (s : string) : bool :=
  match s with
  | EmptyString => true
  | String c t => (nat_of_ascii c <? 128)%nat && isascii t
  end.

End PyStr.

(** ** kos_config.py *)

Module kos_config.
Definition OS_NAME := "KafkaOS (Kernel v0.9m-Modular)".
Definition OS_VERSION := "Build 20250415-MESA-RC4 (Compliance Level: Delta-Fragmented)".
Definition NODE_ID := "KOS-NODE-AZMESA-MOD-01".
Definition CURRENT_LOCATION := "Mesa, Arizona Operations Sector".

Definition TIME_LIMIT_SECONDS : Z := 180.
Definition TIME_LIMIT_MANDATE := "KOS Temporal Mandate TM-CORE-SESS-MOD-79C".

Definition MINIMUM_ID_LENGTH : Z := 5.
Definition CONFIRMATION_PHRASE := "I_ACKNOWLEDGE_AND_COMPLY_WITH_ALL_PROTOCOLS".
Definition STANDARD_PURPOSE_CODE_FS := "FS-QUERY-7701".
Definition STANDARD_PURPOSE_CODE_PROC := "PROC-EXEC-8804".
Definition SECURE_COMM_PURPOSE_CODE := "SEC-DATA-9901".
Definition STATUS_PURPOSE_CODE := "SYS-HEALTH-0101".
Definition SHUTDOWN_AUTH_CODE_BASE := "HALT_SYS_MOD_".

Definition BASE_MSG_DELAY_MS : Z := 200.
Definition BASE_INPUT_PROC_DELAY_MS : Z := 400.
Definition BASE_CHECK_DELAY_SHORT_MS : Z := 800.
Definition BASE_CHECK_DELAY_MEDIUM_MS : Z := 1300.
Definition BASE_CHECK_DELAY_LONG_MS : Z := 2000.
Definition BASE_FORWARDING_DELAY_MS : Z := 750.

Definition LOCKOUT_PRIME_MINUTE_FILESYSTEM_DAY : Z := 1.
Definition LOCKOUT_RANDOM_FAILURE_CHANCE : Q := 5 # 100.
Definition HIGH_FRICTION_REVIEW_THRESHOLD : Z := 5.
End kos_config.

(** ** Argument dictionaries and [parse_args] (kos_core.py) *)

(** A value stored by [parse_args]: [True] or a string. *)
Inductive ArgVal : Type :=
| ArgTrue
| ArgStr (s : string).

(** [for char in arg[1:]: args[char] = True] *)
Fixpoint set_flags (chars : string) (args : gmap string ArgVal) : gmap string ArgVal :=
  match chars with
  | EmptyString => args
  | String c t => set_flags t (<[String c EmptyString := ArgTrue]> args)
  end.

(** The [while i < len(arg_list)] loop of [parse_args], from index [i] on:
    [arg_list] is the part of the list not yet read. *)
Fixpoint parse_loop (arg_list : list string) (args : gmap string ArgVal)
    (positional : list string) : gmap string ArgVal * list string :=
  match arg_list with
  | [] => (args, positional)
  | arg :: rest =>
      if PyStr.startswith "--" arg then
        if PyStr.contains "=" arg then
          let '(key, value) := PyStr.split_once "=" arg in
          parse_loop rest (<[PyStr.drop 2 key := ArgStr value]> args) positional
        else
          let key := PyStr.drop 2 arg in
          match rest with
          | next :: rest' =>
              if negb (PyStr.startswith "-" next)
              then parse_loop rest' (<[key := ArgStr next]> args) positional
              else parse_loop rest (<[key := ArgTrue]> args) positional
          | [] => parse_loop rest (<[key := ArgTrue]> args) positional
          end
      else if PyStr.startswith "-" arg then
        parse_loop rest (set_flags (PyStr.drop 1 arg) args) positional
      else
        parse_loop rest args (positional ++ [arg])
  end.

Definition parse_args (arg_list : list string) : gmap string ArgVal * list string :=
  parse_loop arg_list ∅ [].

(** *** The dictionary and the list inside a formatted string

    [f"{args_dict}"] shows the keys in the order of their first assignment;
    [assigned_keys] follows the loop of [parse_args] for the keys it
    assigns, in order. *)

Fixpoint flag_keys (chars : string) : list string :=
  match chars with
  | EmptyString => []
  | String c t => String c EmptyString :: flag_keys t
  end.

Fixpoint assigned_keys (arg_list : list string) : list string :=
  match arg_list with
  | [] => []
  | arg :: rest =>
      if PyStr.startswith "--" arg then
        if PyStr.contains "=" arg then
          PyStr.drop 2 (PyStr.split_once "=" arg).1 :: assigned_keys rest
        else
          match rest with
          | next :: rest' =>
              if negb (PyStr.startswith "-" next)
              then PyStr.drop 2 arg :: assigned_keys rest'
              else PyStr.drop 2 arg :: assigned_keys rest
          | [] => PyStr.drop 2 arg :: assigned_keys rest
          end
      else if PyStr.startswith "-" arg then
        flag_keys (PyStr.drop 1 arg) ++ assigned_keys rest
      else
        assigned_keys rest
  end.

(** The keys of a list without those in [seen] and without repetitions, each
    at its first place. *)
Fixpoint first_occurrences (seen keys : list string) : list string :=
  match keys with
  | [] => []
  | k :: rest =>
      if bool_decide (k ∈ seen) then first_occurrences seen rest
      else k :: first_occurrences (k :: seen) rest
  end.

Definition DOUBLE_QUOTE : ascii := ascii_of_nat 34.
Definition BACKSLASH : ascii := ascii_of_nat 92.

Definition hex_digit (n : nat) : ascii :=
  ascii_of_nat (if (n <? 10)%nat then 48 + n else 87 + n).

(** One character inside [repr(s)], for a string of ASCII characters. *)
Definition repr_char (quote c : ascii) : string :=
  let n := nat_of_ascii c in
  if Ascii.eqb c quote || (n =? 92)%nat then String BACKSLASH (String c EmptyString)
  else if (n =? 9)%nat then String BACKSLASH "t"
  else if (n =? 10)%nat then String BACKSLASH "n"
  else if (n =? 13)%nat then String BACKSLASH "r"
  else if (n <? 32)%nat || (n =? 127)%nat then
    String BACKSLASH
      (String "x" (String (hex_digit (n / 16)) (String (hex_digit (n mod 16)) EmptyString)))
  else String c EmptyString.

Fixpoint repr_chars (quote : ascii) (s : string) : string :=
  match s with
  | EmptyString => EmptyString
  | String c t => repr_char quote c +:+ repr_chars quote t
  end.

(** [repr(s)]: in single quotes, unless [s] holds a single quote and no
    double quote. *)
Definition repr_str (s : string) : string :=
  let quote := if PyStr.contains "'" s && negb (PyStr.contains DOUBLE_QUOTE s)
               then DOUBLE_QUOTE else "'"%char in
  String quote (repr_chars quote s +:+ String quote EmptyString).

Definition repr_val (v : ArgVal) : string :=
  match v with
  | ArgTrue => "True"
  | ArgStr s => repr_str s
  end.

(** [f"{l}"] for a list of strings *)
Definition repr_list (l : list string) : string :=
  "[" +:+ PyStr.join ", " (map repr_str l) +:+ "]".

(** [f"{d}"] for the dictionary read from [arg_list] *)
Definition repr_dict (arg_list : list string) (d : gmap string ArgVal) : string :=
  "{" +:+ PyStr.join ", "
            (omap (fun k => v ← d !! k; Some (repr_str k +:+ ": " +:+ repr_val v))
                  (first_occurrences [] (assigned_keys arg_list)))
      +:+ "}".

(** [d.get(k)]: [None] stands for Python's [None]. *)
Definition dict_get (d : gmap string ArgVal) (k : string) : option ArgVal := d !! k.

(** Python truth value of what [dict.get] returns. *)
Definition truthy (v : option ArgVal) : bool :=
  match v with
  | None => false
  | Some ArgTrue => true
  | Some (ArgStr s) => PyStr.nonempty s
  end.

(** [a or b] *)
Definition py_or (a b : option ArgVal) : option ArgVal :=
  if truthy a then a else b.

(** [v == s] for a string [s]: [True] and [None] equal no string. *)
Definition eq_str (v : option ArgVal) (s : string) : bool :=
  match v with
  | Some (ArgStr t) => String.eqb t s
  | _ => false
  end.

(** [args_dict.get('p') or args_dict.get('purpose')], as the handlers of
    kls, kexec and kstatus compute it. *)
Definition purpose_code_of (args_dict : gmap string ArgVal) : option ArgVal :=
  py_or (dict_get args_dict "p") (dict_get args_dict "purpose").

(** The key a token starting with [--] writes. *)
Definition long_key (arg : string) : option string :=
  if PyStr.startswith "--" arg then
    if PyStr.contains "=" arg
    then Some (PyStr.drop 2 (fst (PyStr.split_once "=" arg)))
    else Some (PyStr.drop 2 arg)
  else None.

(** ** The world the program runs in *)

(** Severity tags passed to [log_system_message]. *)
Inductive Level : Type :=
| DEBUG | INFO | WARN | ERROR | SECURITY | FATAL | SYSTEM | CMD.

(** What a run leaves behind, in order.  [EForward] marks the increment of
    [pending_reviews] inside [simulate_forwarding] and [EFriction] marks a
    call of [apply_procedural_friction]; the other events are the output
    and the delays of the program.  Log lines are recorded without their
    time stamp. *)
Inductive Event : Type :=
| ELog (level : Level) (message : string)
| EPrint (text : string)
| EPrompt (prompt : string)
| ESleep (base_delay_ms : Z)
| EForward (entity_key context_ref detail : string)
| EFriction (reason : string).

(** The [os_state] dictionary of kos_core.py.  [session_start_time] is [0]
    until a login stores a reading of [time.monotonic()]; readings are
    rational numbers of seconds (floating-point rounding is not modelled).
    The entry [utils.check_time_limit] is assigned once, at import time, and
    is a parameter of the handlers below. *)
Record OsState : Type := mkOsState {
  user_id : option string;
  is_authenticated : bool;
  session_start_time : Q;
  pending_reviews : Z;
  current_directory : string;
  last_command_ref : option string
}.


(** Python exceptions met in a run, all of them subclasses of [Exception]:
    those the program itself comes to raise, and whatever else a call of the
    library raises, kept with the name of its class ([OSError],
    [ValueError], ...; not [EOFError], the one class below [Exception] that
    an [except] clause of the program names). *)
Inductive PyExc : Type :=
| TypeError (message : string)
| UnicodeDecodeError (message : string)
| IndentationError (message : string)
| OtherException (class_name message : string).

(** [str(e)] *)
Definition exc_str (e : PyExc) : string :=
  match e with
  | TypeError m => m
  | UnicodeDecodeError m => m
  | IndentationError m => m
  | OtherException _ m => m
  end.

(** What [input()] meets on standard input: a line, the end of the input
    ([EOFError]), an interrupt ([KeyboardInterrupt]), or a failure of the
    call itself, which then raises another exception:
    [UnicodeDecodeError] on bytes it cannot decode, [OSError] on a read
    error, [ValueError] or [RuntimeError] on a stream that is closed or
    lost. *)
Inductive Stdin : Type :=
| Line (text : string)
| Eof
| Interrupt
| InputError (e : PyExc).

(** [datetime.datetime.now()], the fields the program reads. *)
Record WallTime : Type := mkWallTime {
  weekday : Z;
  minute : Z;
  second : Z
}.

(** Successive answers of a source outside the program. *)
Definition Stream (A : Type) : Type := nat -> A.
Definition stream_hd {A} (s : Stream A) : A := s O.
Definition stream_tl {A} (s : Stream A) : Stream A := fun n => s (S n).

Record World : Type := mkWorld {
  os_state : OsState;
  stdin : list Stdin;               (* at its end [input()] raises EOFError *)
  monotonic : Stream Q;             (* time.monotonic() *)
  wall_clock : Stream WallTime;     (* datetime.datetime.now() *)
  random_draws : Stream Q;          (* random.random(), in [0, 1) *)
  random_ints : Stream Z;           (* random.choice / random.randint *)
  uuids : Stream string             (* str(uuid.uuid4()).upper() *)
}.


(** How a call ends: it returns, an exception escapes, or [sys.exit(status)]
    raises [SystemExit], which is not an [Exception]. *)
Inductive Outcome (A : Type) : Type :=
| Returned (a : A)
| Raised (e : PyExc)
| Exited (status : Z).
Arguments Returned {A} a.
Arguments Raised {A} e.
Arguments Exited {A} status.

Record Run (A : Type) : Type := mkRun {
  outcome : Outcome A;
  world : World;
  emitted : list Event
}.
Arguments mkRun {A} outcome world emitted.
Arguments outcome {A} r.
Arguments world {A} r.
Arguments emitted {A} r.

Definition M (A : Type) : Type := World -> Run A.

Definition ret {A} (a : A) : M A := fun w => mkRun (Returned a) w [].

Definition bind {A B} (m : M A) (k : A -> M B) : M B := fun w =>
  let r := m w in
  match outcome r with
  | Returned a =>
      let r' := k a (world r) in
      mkRun (outcome r') (world r') (emitted r ++ emitted r')
  | Raised e => mkRun (Raised e) (world r) (emitted r)
  | Exited c => mkRun (Exited c) (world r) (emitted r)
  end.

Declare Scope kos_scope.
Delimit Scope kos_scope with kos.
Notation "x <- m ;; k" := (bind m (fun x => k))
  (at level 100, m at next level, right associativity) : kos_scope.
Notation "m ;; k" := (bind m (fun _ => k))
  (at level 100, right associativity) : kos_scope.
Local Open Scope kos_scope.

Definition raise {A} (e : PyExc) : M A := fun w => mkRun (Raised e) w [].

(** [sys.exit(status)] *)
Definition sys_exit {A} (status : Z) : M A := fun w => mkRun (Exited status) w [].

(** [try: body  except Exception as e: handler(e)] *)
Definition try_except {A} (body : M A) (handler : PyExc -> M A) : M A := fun w =>
  let r := body w in
  match outcome r with
  | Raised e =>
      let r' := handler e (world r) in
      mkRun (outcome r') (world r') (emitted r ++ emitted r')
  | _ => r
  end.

Definition emit (e : Event) : M unit := fun w => mkRun (Returned tt) w [e].

Definition get_state : M OsState := fun w => mkRun (Returned (os_state w)) w [].

Definition modify_state (f : OsState -> OsState) : M unit := fun w =>
  mkRun (Returned tt)
    (mkWorld (f (os_state w)) (stdin w) (monotonic w) (wall_clock w)
             (random_draws w) (random_ints w) (uuids w)) [].

(** [time.monotonic()] *)
Definition time_monotonic : M Q := fun w =>
  mkRun (Returned (stream_hd (monotonic w)))
    (mkWorld (os_state w) (stdin w) (stream_tl (monotonic w)) (wall_clock w)
             (random_draws w) (random_ints w) (uuids w)) [].

(** [datetime.datetime.now()] *)
Definition datetime_now : M WallTime := fun w =>
  mkRun (Returned (stream_hd (wall_clock w)))
    (mkWorld (os_state w) (stdin w) (monotonic w) (stream_tl (wall_clock w))
             (random_draws w) (random_ints w) (uuids w)) [].

(** [random.random()] *)
Definition random_random : M Q := fun w =>
  mkRun (Returned (stream_hd (random_draws w)))
    (mkWorld (os_state w) (stdin w) (monotonic w) (wall_clock w)
             (stream_tl (random_draws w)) (random_ints w) (uuids w)) [].

(** an integer the generator picks in [lo, hi], as [random.randint(lo, hi)] *)
Definition random_randint (lo hi : Z) : M Z := fun w =>
  mkRun (Returned (lo + stream_hd (random_ints w) mod (hi - lo + 1)))
    (mkWorld (os_state w) (stdin w) (monotonic w) (wall_clock w)
             (random_draws w) (stream_tl (random_ints w)) (uuids w)) [].

(** [random.choice(l)] for a list that is not empty *)
Definition random_choice (l : list string) : M string :=
  i <- random_randint 0 (Z.of_nat (length l) - 1);;
  ret (nth (Z.to_nat i) l EmptyString).

(** reads one item of standard input *)
Definition read_stdin : M Stdin := fun w =>
  match stdin w with
  | [] => mkRun (Returned Eof) w []
  | x :: rest =>
      mkRun (Returned x)
        (mkWorld (os_state w) rest (monotonic w) (wall_clock w)
                 (random_draws w) (random_ints w) (uuids w)) []
  end.

(** [a < b] on rationals, as a boolean *)
Definition Qltb (a b : Q) : bool := negb (Qle_bool b a).

(** A positional argument handed to [check_time_limit]: the stored start
    time or a label. *)
Inductive PyArg : Type :=
| PNum (q : Q)
| PStr (s : string).

(** The callable found under [os_state['utils']['check_time_limit']], applied
    to the positional arguments of the call. *)
Definition CheckTime : Type := list PyArg -> M unit.

(** The [get_input_func] handed to the handlers. *)
Definition InputFunc : Type := string -> M string.

(** ** kos_utility.py *)

Module kos_utility.

Definition pseudo_uuid : M string := fun w =>
  mkRun (Returned (stream_hd (uuids w)))
    (mkWorld (os_state w) (stdin w) (monotonic w) (wall_clock w)
             (random_draws w) (random_ints w) (stream_tl (uuids w))) [].

(** [time.sleep(random_delay(base_delay_ms))]: the delay is recorded by
    its base. *)
Definition sleep_random (base_delay_ms : Z) : M unit := emit (ESleep base_delay_ms).

(** The text of a time stamp is not modelled. *)
Definition get_current_timestamp : string := "<timestamp>".

End kos_utility.

(** ** kos_bureaucracy.py *)

Module kos_bureaucracy.

Definition REVIEW_ENTITIES : gmap string string :=
  list_to_map
    [ ("BOOT", "System Initialization Audit Log (SIAL)");
      ("AUTH", "Pluggable Authentication Module Verifier (PAMV)");
      ("CMD_INTENT", "Command Intent Review Unit (CIRU)");
      ("CMD_EXEC", "Execution Result Log Monitor (ERLM)");
      ("FS_ACCESS", "Filesystem Access Control Monitor (FACM)");
      ("PROC_LAUNCH", "Process Execution Authorization Daemon (PEAD)");
      ("STATUS_QUERY", "System Health Monitoring Log (SHML)");
      ("SHUTDOWN", "System Termination Oversight Protocol (STOP)");
      ("COMPLIANCE", "Regulatory Compliance Check Subsystem (RCCS)");
      ("ARBITRARY_LOCKOUT", "Operational Mandate Enforcement Unit (OMEU)");
      ("RE_AUTH", "Secondary Authentication Verification Log (SAVL)");
      ("PURPOSE_VALIDATION", "Justification Code Audit Service (JCAS)") ].

Definition log_system_message (message : string) (level : Level) : M unit :=
  emit (ELog level message);;
  kos_utility.sleep_random kos_config.BASE_MSG_DELAY_MS.

Definition perform_simulated_check (check_name : string) (base_duration_ms : Z)
    : M (bool * string) :=
  log_system_message ("Subsystem Check: Initiating " +:+ check_name +:+ "...") INFO;;
  kos_utility.sleep_random base_duration_ms;;
  u <- kos_utility.pseudo_uuid;;
  let verification_code := PyStr.upper (PyStr.take 3 check_name) +:+ "-" +:+ PyStr.take 6 u in
  log_system_message ("Subsystem Check: " +:+ check_name +:+ " completed. Status: OK. Ref: "
                      +:+ verification_code) INFO;;
  ret (true, verification_code).

Definition simulate_forwarding (entity_key context_ref detail : string) : M unit :=
  let reviewer := default "Default Audit Sink" (REVIEW_ENTITIES !! entity_key) in
  u <- kos_utility.pseudo_uuid;;
  let forward_id := "KOS-FWD-" +:+ entity_key +:+ "-" +:+ PyStr.take 8 u in
  log_system_message ("AUDIT: Forwarding " +:+ detail +:+ " (Ref: " +:+ context_ref
                      +:+ ") to '" +:+ reviewer +:+ "'. ID: " +:+ forward_id) INFO;;
  emit (EForward entity_key context_ref detail);;
  modify_state (fun s =>
    mkOsState (user_id s) (is_authenticated s) (session_start_time s)
              (pending_reviews s + 1) (current_directory s) (last_command_ref s));;
  kos_utility.sleep_random kos_config.BASE_FORWARDING_DELAY_MS;;
  s <- get_state;;
  log_system_message ("AUDIT: Ack received from '" +:+ reviewer +:+ "'. Pending Reviews: "
                      +:+ PyStr.of_Z (pending_reviews s)) INFO.

Definition apply_procedural_friction (reason : string) : M unit :=
  emit (EFriction reason);;
  s <- get_state;;
  if kos_config.HIGH_FRICTION_REVIEW_THRESHOLD <? pending_reviews s then
    let delay_ms := kos_config.BASE_CHECK_DELAY_SHORT_MS in
    log_system_message ("Applying procedural friction due to high audit backlog ("
                        +:+ PyStr.of_Z (pending_reviews s) +:+ "). Reason: " +:+ reason +:+ ".") WARN;;
    kos_utility.sleep_random delay_ms
  else ret tt.

(** [range(lo, hi)] *)
Definition range (lo hi : Z) : list Z :=
  map (fun k => lo + Z.of_nat k) (seq 0 (Z.to_nat (hi - lo))).

(** The [for i in range(...)] loop of rule 1: [false] as soon as a
    candidate divides the minute. *)
Fixpoint trial_division (minute : Z) (candidates : list Z) : bool :=
  match candidates with
  | [] => true
  | i :: rest => if minute mod i =? 0 then false else trial_division minute rest
  end.

(** The value of [is_prime] after the test of rule 1.  [int(minute**0.5)]
    is the integer square root for every minute of an hour. *)
Definition minute_is_prime (minute : Z) : bool :=
  if minute <? 2 then false
  else trial_division minute (range 2 (Z.sqrt minute + 1)).

Definition check_operational_mandate (required_clearance : string) : M bool :=
  now <- datetime_now;;
  let minute := minute now in
  let day_of_week := weekday now in
  s <- get_state;;
  let pending := pending_reviews s in
  log_system_message ("Mandate Check: Verifying operational allowances for clearance '"
                      +:+ required_clearance +:+ "'...") DEBUG;;
  apply_procedural_friction "Mandate Compliance Check";;
  let rule_3_and_pass : M bool :=
    r <- random_random;;
    if Qltb r kos_config.LOCKOUT_RANDOM_FAILURE_CHANCE then
      u <- kos_utility.pseudo_uuid;;
      log_system_message ("Operation Denied: Random compliance spot-check failed (Ref: SPOT-"
                          +:+ PyStr.take 4 u +:+ "). Please retry command.") ERROR;;
      simulate_forwarding "ARBITRARY_LOCKOUT" "SPOTCHECK-FAIL" "Operational Denial Event";;
      ret false
    else
      log_system_message ("Operational mandate check passed for clearance '"
                          +:+ required_clearance +:+ "'.") DEBUG;;
      ret true in
  let rule_2_on : M bool :=
    (* [pending > 10 and random.random() < 0.2]: no draw unless pending > 10 *)
    locked <- (if 10 <? pending then r <- random_random;; ret (Qltb r (2 # 10))
               else ret false);;
    if locked then
      log_system_message ("Operation Denied: System temporarily locked for critical operations due to excessive audit backlog ("
                          +:+ PyStr.of_Z pending +:+ "). Mandate AUDIT-BACKLOG-LOCK.") ERROR;;
      simulate_forwarding "ARBITRARY_LOCKOUT" ("BACKLOG-" +:+ PyStr.of_Z pending)
                          "Operational Denial Event";;
      ret false
    else rule_3_and_pass in
  if String.eqb required_clearance "FILESYSTEM"
     && (day_of_week =? kos_config.LOCKOUT_PRIME_MINUTE_FILESYSTEM_DAY) then
    if minute_is_prime minute then
      log_system_message ("Operation Denied: Filesystem access temporarily restricted during prime minute ("
                          +:+ PyStr.of_Z minute +:+ ") on specified day (" +:+ PyStr.of_Z day_of_week
                          +:+ "). Directive FS-TUE-PRIME.") ERROR;;
      simulate_forwarding "ARBITRARY_LOCKOUT" ("FS-PRIME-" +:+ PyStr.of_Z minute)
                          "Operational Denial Event";;
      ret false
    else rule_2_on
  else rule_2_on.

Section Verification.
(** [os_state['utils']['check_time_limit']] *)
Variable check_time_limit : CheckTime.

Definition verify_action_intent (command_name : string) (get_input_func : InputFunc)
    (requires_purpose : bool) (purpose_code_expected : option string)
    (requires_reauth : bool) : M bool :=
  log_system_message ("PROC_VERIFY: Initiating Intent Verification Protocol for '"
                      +:+ command_name +:+ "'.") INFO;;
  s <- get_state;;
  check_time_limit [PNum (session_start_time s);
                    PStr ("Intent Verification for " +:+ command_name)];;
  apply_procedural_friction "Intent Verification Start";;
  (* 1. Confirmation Phrase *)
  confirm <- get_input_func ("Verify intent for '" +:+ command_name +:+ "'. Type EXACTLY '"
                             +:+ kos_config.CONFIRMATION_PHRASE +:+ "': ");;
  if negb (String.eqb confirm kos_config.CONFIRMATION_PHRASE) then
    log_system_message "PROC_VERIFY: Failed - Incorrect or incomplete confirmation phrase." ERROR;;
    ret false
  else
  log_system_message "PROC_VERIFY: Confirmation phrase validated." INFO;;
  perform_simulated_check "Intent Confirmation Logging" kos_config.BASE_CHECK_DELAY_SHORT_MS;;
  let completion : M bool :=
    (* 4. Final Friction Check *)
    apply_procedural_friction "Intent Verification Complete";;
    log_system_message ("PROC_VERIFY: Intent Verification Protocol for '" +:+ command_name
                        +:+ "' completed successfully.") INFO;;
    u <- kos_utility.pseudo_uuid;;
    simulate_forwarding "CMD_INTENT" (command_name +:+ "-" +:+ PyStr.take 4 u)
                        "Command Intent Verification Complete";;
    ret true in
  let re_authentication : M bool :=
    (* 3. Re-Authentication (If required) *)
    s <- get_state;;
    if requires_reauth && is_authenticated s then
      check_time_limit [PNum (session_start_time s);
                        PStr ("Re-authentication for " +:+ command_name)];;
      log_system_message "PROC_VERIFY: Secondary authentication challenge required via PAMV." WARN;;
      re_auth_id <- get_input_func ("Re-enter primary User ID ('"
                                    +:+ default "None" (user_id s)
                                    +:+ "') to confirm identity: ");;
      s <- get_state;;
      if negb (bool_decide (Some re_auth_id = user_id s)) then
        log_system_message "PROC_VERIFY: Failed - Secondary authentication identity mismatch." ERROR;;
        simulate_forwarding "RE_AUTH" (command_name +:+ "-FAIL") "Re-Authentication Failure";;
        ret false
      else
        log_system_message "PROC_VERIFY: Secondary authentication successful." INFO;;
        perform_simulated_check "Re-authentication PAM Credential Check"
                                kos_config.BASE_CHECK_DELAY_MEDIUM_MS;;
        simulate_forwarding "RE_AUTH" (command_name +:+ "-OK") "Re-Authentication Success";;
        completion
    else completion in
  (* 2. Purpose Code (If required) *)
  if requires_purpose then
    s <- get_state;;
    check_time_limit [PNum (session_start_time s);
                      PStr ("Purpose Code for " +:+ command_name)];;
    log_system_message ("PROC_VERIFY: Validating provided Purpose Code '"
                        +:+ (match purpose_code_expected with
                             | Some c => if PyStr.nonempty c then c else "N/A"
                             | None => "N/A" end)
                        +:+ "' against JCAS.") INFO;;
    r <- perform_simulated_check "Purpose Code Validation Against Mandate Matrix"
                                 kos_config.BASE_CHECK_DELAY_MEDIUM_MS;;
    let '(success, check_code) := r in
    if negb success then
      log_system_message "PROC_VERIFY: Failed - Purpose code validation failed." ERROR;;
      ret false
    else
      log_system_message ("PROC_VERIFY: Purpose Code validation successful (Ref: "
                          +:+ check_code +:+ ").") INFO;;
      simulate_forwarding "PURPOSE_VALIDATION"
        (command_name +:+ "-" +:+ default "None" purpose_code_expected) "Purpose Code Audit";;
      re_authentication
  else re_authentication.
End Verification.

End kos_bureaucracy.

(** ** kos_core.py, first part: state updates and the time limit *)

Definition set_user_id (v : option string) (s : OsState) : OsState :=
  mkOsState v (is_authenticated s) (session_start_time s) (pending_reviews s)
            (current_directory s) (last_command_ref s).
Definition set_is_authenticated (v : bool) (s : OsState) : OsState :=
  mkOsState (user_id s) v (session_start_time s) (pending_reviews s)
            (current_directory s) (last_command_ref s).
Definition set_session_start_time (v : Q) (s : OsState) : OsState :=
  mkOsState (user_id s) (is_authenticated s) v (pending_reviews s)
            (current_directory s) (last_command_ref s).
Definition set_last_command_ref (v : option string) (s : OsState) : OsState :=
  mkOsState (user_id s) (is_authenticated s) (session_start_time s) (pending_reviews s)
            (current_directory s) v.

(** The [os_state] literal of kos_core.py. *)
Definition initial_os_state : OsState :=
  mkOsState None false 0%Q 0 "/home/user" None.

(** How an argument shows inside a formatted message. *)
Definition render_arg (a : PyArg) : string :=
  match a with
  | PStr s => s
  | PNum _ => "<number>"
  end.

(** The body of [def check_time_limit(step_name="Operational Phase")].
    Numbers of seconds are not rendered in the messages. *)
Definition check_time_limit (step_name : PyArg) : M unit :=
  s <- get_state;;
  if Qeq_bool (session_start_time s) 0 then ret tt (* Timer not started *)
  else
    now <- time_monotonic;;
    let elapsed_time := (now - session_start_time s)%Q in
    (if Qltb (inject_Z kos_config.TIME_LIMIT_SECONDS * (8 # 10)) elapsed_time then
       kos_bureaucracy.log_system_message
         ("Temporal constraint check (" +:+ render_arg step_name +:+ "). Remaining: <s>.") WARN
     else
       kos_bureaucracy.log_system_message
         ("Temporal constraint check (" +:+ render_arg step_name +:+ "). Elapsed: <s>.") DEBUG);;
    if Qltb (inject_Z kos_config.TIME_LIMIT_SECONDS) elapsed_time then
      kos_bureaucracy.log_system_message
        ("FATAL ERROR: Session quantum (" +:+ PyStr.of_Z kos_config.TIME_LIMIT_SECONDS
         +:+ "s) depleted (<s> elapsed).") FATAL;;
      kos_bureaucracy.log_system_message
        ("Violation logged against " +:+ kos_config.TIME_LIMIT_MANDATE +:+ ". Session terminated.") FATAL;;
      emit (EPrint ("*** KAFKAOS SESSION TIMEOUT (" +:+ kos_config.TIME_LIMIT_MANDATE
                    +:+ ") - CONNECTION TERMINATED ***"));;
      sys_exit 2
    else ret tt.

(** A positional call of [check_time_limit]: the function has one parameter,
    with a default; Python refuses a call with more positional arguments
    before the body runs. *)
Definition call_check_time_limit : CheckTime := fun args =>
  match args with
  | [] => check_time_limit (PStr "Operational Phase")
  | [step_name] => check_time_limit step_name
  | _ :: _ :: _ =>
      raise (TypeError ("check_time_limit() takes from 0 to 1 positional arguments but "
                        +:+ PyStr.of_Z (Z.of_nat (length args)) +:+ " were given"))
  end.

(** ** kos_shutdown.py *)

Module kos_shutdown.

(** [str(v)] of the value [is_forced] holds *)
Definition render_val (v : option ArgVal) : string :=
  match v with
  | None => "None"
  | Some ArgTrue => "True"
  | Some (ArgStr s) => s
  end.

(** [f"{n:02d}"] *)
Definition two_digits (n : Z) : string :=
  if (0 <=? n) && (n <? 10) then "0" +:+ PyStr.of_Z n else PyStr.of_Z n.

Section Handler.
Variable check_time : CheckTime.

(** [get_input_func] is [None] by default; calling [None] is a
    [TypeError]. *)
Definition call_input_func (get_input_func : option InputFunc) : InputFunc :=
  match get_input_func with
  | Some f => f
  | None => fun _ => raise (TypeError "'NoneType' object is not callable")
  end.

Definition handle_shutdown (args_dict : gmap string ArgVal) (positional_args : list string)
    (get_input_func : option InputFunc) (forced : bool) : M unit :=
  kos_bureaucracy.log_system_message "System Halt Sequence Initiated." WARN;;
  let is_forced : option ArgVal :=
    if forced then Some ArgTrue
    else py_or (dict_get args_dict "force") (dict_get args_dict "f") in
  s <- get_state;;
  if negb (is_authenticated s) && negb (truthy is_forced) then
    kos_bureaucracy.log_system_message
      "Shutdown requires authentication ('klogin') or '--force' / '-f' flag." ERROR
  else
  let halt : M unit :=
    kos_bureaucracy.log_system_message "Performing final compliance checks before system halt..." INFO;;
    kos_bureaucracy.perform_simulated_check "Pre-Shutdown Compliance Verification"
                                            kos_config.BASE_CHECK_DELAY_MEDIUM_MS;;
    kos_bureaucracy.log_system_message "Flushing critical audit logs to secure persistent storage..." INFO;;
    kos_bureaucracy.perform_simulated_check "Audit Log Synchronization"
                                            kos_config.BASE_CHECK_DELAY_LONG_MS;;
    kos_bureaucracy.simulate_forwarding "SHUTDOWN" ("Forced=" +:+ render_val is_forced)
                                        "System Halt Event";;
    kos_bureaucracy.log_system_message
      ("KafkaOS is halting NOW. Reason: "
       +:+ (if truthy is_forced then "Forced Override" else "Authorized Operator Command")
       +:+ ".") WARN;;
    emit (EPrint ("*** KAFKAOS SYSTEM HALT INITIATED (" +:+ kos_utility.get_current_timestamp
                  +:+ ") ***"));;
    modify_state (set_is_authenticated false);; (* Log out state before exit *)
    sys_exit 0 in
  if negb (truthy is_forced) then
    (* Check time BEFORE verification *)
    check_time [PNum (session_start_time s); PStr "System Shutdown Sequence"];;
    now <- datetime_now;;
    let code_suffix := two_digits (minute now) +:+ PyStr.of_Z (second now mod 10) in
    let expected_code := kos_config.SHUTDOWN_AUTH_CODE_BASE +:+ code_suffix in
    let provided_code := dict_get args_dict "auth-code" in
    ok <- kos_bureaucracy.verify_action_intent check_time "khalt (authenticated)"
            (call_input_func get_input_func) false None true;;
    if negb ok then
      kos_bureaucracy.log_system_message "Shutdown aborted due to failed intent verification." WARN
    else if negb (eq_str provided_code expected_code) then
      kos_bureaucracy.log_system_message
        ("Shutdown authorization failed: Incorrect or missing '--auth-code'. Expected '"
         +:+ expected_code +:+ "'.") ERROR
    else
      kos_bureaucracy.log_system_message "Shutdown authorization code validated." INFO;;
      halt
  else halt.
End Handler.

End kos_shutdown.

(** ** kos_core.py: [get_user_input] *)

Definition get_user_input (prompt_override : option string) : M string :=
  s <- get_state;;
  let default_prompt :=
    let user_part := (match user_id s with
                      | Some u => if PyStr.nonempty u then u else "unauthenticated"
                      | None => "unauthenticated" end) +:+ "@azmesa" in
    let cwd_part := current_directory s in
    let pending_part :=
      if 0 <? pending_reviews s then "{REV:" +:+ PyStr.of_Z (pending_reviews s) +:+ "}" else "" in
    "[" +:+ user_part +:+ " " +:+ cwd_part +:+ pending_part +:+ "]$ " in
  let prompt := match prompt_override with
                | Some p => if PyStr.nonempty p then " > " +:+ p +:+ ": " else default_prompt
                | None => default_prompt
                end in
  emit (EPrompt prompt);;
  x <- read_stdin;;
  match x with
  | Line user_input =>
      kos_bureaucracy.log_system_message
        ("Input detected: '" +:+ PyStr.take 40 user_input
         +:+ (if (40 <? String.length user_input)%nat then "..." else "") +:+ "'. Parsing...") DEBUG;;
      kos_utility.sleep_random kos_config.BASE_INPUT_PROC_DELAY_MS;;
      ret (PyStr.strip user_input)
  | Eof =>
      kos_bureaucracy.log_system_message "EOF detected. Initiating emergency halt." FATAL;;
      kos_shutdown.handle_shutdown call_check_time_limit ∅ [] None true;;
      (* a forced shutdown always exits: nothing is returned here *)
      ret ""
  | Interrupt =>
      emit (EPrint "");;
      kos_bureaucracy.log_system_message
        "Keyboard interrupt (SIGINT) received. Use 'khalt' or 'exit'." WARN;;
      ret ""
  | InputError e =>
      (* neither [except] clause catches it *)
      raise e
  end.

(** ** kos_auth.py *)

Module kos_auth.
Section Handlers.
Variable check_time : CheckTime.

Definition handle_login (args_dict : gmap string ArgVal) (positional_args : list string)
    (get_input_func : InputFunc) : M unit :=
  let log := kos_bureaucracy.log_system_message in
  log "Authentication sequence initiated via klogin." INFO;;
  s <- get_state;;
  if is_authenticated s then
    log "User already authenticated. Use 'klogout' first." WARN
  else
  check_time [PNum (session_start_time s); PStr "Authentication"];;
  temp_user_id <- get_input_func "Username: ";;
  if negb (PyStr.nonempty temp_user_id) then
    log "Authentication failed: Null username provided." ERROR
  else
  get_input_func ("Password for " +:+ temp_user_id +:+ ": ");; (* Simulate password *)
  log "Performing credential validation via PAMV..." INFO;;
  r <- kos_bureaucracy.perform_simulated_check "PAM Credential Check"
                                               kos_config.BASE_CHECK_DELAY_LONG_MS;;
  let '(success, check_code) := r in
  if success then
    s <- get_state;;
    check_time [PNum (session_start_time s); PStr "Authentication - MFA Check"];;
    mfa_code <- get_input_func "Enter 6-digit MFA Token (Ref: Directive MFA-KOS-2A): ";;
    if negb (PyStr.isdigit mfa_code) || negb (String.length mfa_code =? 6)%nat then
      log "Authentication failed: Invalid MFA token format." ERROR
    else
    log "MFA token format validated. Verifying..." INFO;;
    r <- kos_bureaucracy.perform_simulated_check "MFA Token Verification"
                                                 kos_config.BASE_CHECK_DELAY_MEDIUM_MS;;
    let '(mfa_success, mfa_check_code) := r in
    if mfa_success then
      modify_state (set_user_id (Some temp_user_id));;
      modify_state (set_is_authenticated true);;
      t <- time_monotonic;;
      modify_state (set_session_start_time t);; (* Start timer on successful auth *)
      log ("User '" +:+ temp_user_id +:+ "' authenticated successfully via klogin. Session timer initiated ("
           +:+ PyStr.of_Z kos_config.TIME_LIMIT_SECONDS +:+ "s limit).") SECURITY;;
      kos_bureaucracy.simulate_forwarding "AUTH" temp_user_id
                                          "Successful Authentication Event (klogin)"
    else
      log ("Authentication failed: MFA Token validation failure (Ref: " +:+ mfa_check_code +:+ ").") ERROR
  else
    log ("Authentication failed: Primary credential validation failed (PAM Ref: "
         +:+ check_code +:+ ").") ERROR.

Definition handle_logout (args_dict : gmap string ArgVal) (positional_args : list string)
    (get_input_func : InputFunc) : M unit :=
  let log := kos_bureaucracy.log_system_message in
  s <- get_state;;
  if negb (is_authenticated s) then
    log "No active session found to terminate." WARN
  else
  let user := default "None" (user_id s) in
  log ("Initiating logout sequence for user '" +:+ user +:+ "'.") INFO;;
  confirm <- get_input_func "Confirm logout? Type 'TERMINATE_SESSION': ";;
  if negb (String.eqb confirm "TERMINATE_SESSION") then
    log "Logout aborted by user." WARN
  else
  kos_bureaucracy.perform_simulated_check "Session Teardown and Credential Purge"
                                          kos_config.BASE_CHECK_DELAY_SHORT_MS;;
  kos_bureaucracy.simulate_forwarding "AUTH" user "User Logout Event (klogout)";;
  log ("User '" +:+ user +:+ "' session terminated.") INFO;;
  modify_state (set_user_id None);;
  modify_state (set_is_authenticated false);;
  modify_state (set_session_start_time 0%Q). (* Reset timer *)
End Handlers.
End kos_auth.

(** ** kos_fs.py *)

Module kos_fs.
Section Handler.
Variable check_time : CheckTime.

Definition handle_ls (args_dict : gmap string ArgVal) (positional_args : list string)
    (get_input_func : InputFunc) : M unit :=
  let log := kos_bureaucracy.log_system_message in
  s <- get_state;;
  if negb (is_authenticated s) then
    log "Operation requires authentication. Use 'klogin'." ERROR
  else
  check_time [PNum (session_start_time s); PStr "Filesystem Operation (kls)"];;
  (* Arbitrary operational check *)
  allowed <- kos_bureaucracy.check_operational_mandate "FILESYSTEM";;
  if negb allowed then
    log "Filesystem operation blocked by current operational mandate." WARN
  else
  log "Parsing 'kls' command." INFO;;
  s <- get_state;;
  let target_dir := match positional_args with
                    | d :: _ => d
                    | [] => current_directory s
                    end in
  (* Conditional argument requirement based on time *)
  now <- datetime_now;;
  let expected_mode := if minute now mod 2 =? 0 then "audit" else "standard" in
  let provided_mode := dict_get args_dict "view-mode" in
  if negb (eq_str provided_mode expected_mode) then
    log ("Procedural error: Required '--view-mode=" +:+ expected_mode
         +:+ "' for current temporal context (Minute: " +:+ PyStr.of_Z (minute now)
         +:+ "). Command rejected.") ERROR
  else
  (* Check for mandatory purpose code via -p or --purpose *)
  let purpose_code := purpose_code_of args_dict in
  if negb (eq_str purpose_code kos_config.STANDARD_PURPOSE_CODE_FS) then
    log ("Procedural error: Requires '-p " +:+ kos_config.STANDARD_PURPOSE_CODE_FS
         +:+ "' or '--purpose=" +:+ kos_config.STANDARD_PURPOSE_CODE_FS
         +:+ "'. Command rejected.") ERROR
  else
  (* Verification Step *)
  ok <- kos_bureaucracy.verify_action_intent check_time
          ("kls " +:+ target_dir +:+ " --view-mode=" +:+ expected_mode) get_input_func
          true (Some kos_config.STANDARD_PURPOSE_CODE_FS) false;;
  if negb ok then
    log "Command aborted due to failed intent verification." WARN
  else
  log ("Querying directory manifest for '" +:+ target_dir +:+ "' (Mode: "
       +:+ expected_mode +:+ ")...") INFO;;
  r <- kos_bureaucracy.perform_simulated_check "Filesystem Index Scan & ACL Check"
                                               kos_config.BASE_CHECK_DELAY_MEDIUM_MS;;
  let '(success, check_code) := r in
  if success then
    emit (EPrint ("Directory Listing: " +:+ target_dir +:+ " (Mode: " +:+ expected_mode
                  +:+ ", Ref: " +:+ check_code +:+ ")"));;
    emit (EPrint "Permissions  Owner       Group       Size      Modified           Name                     KafkaRef");;
    emit (EPrint "-rw-r--r--  SysAdmin    SysAuditor  10248   2025-04-10 11:30   report-Q1-final.doc      FS-DOC-001");;
    emit (EPrint "-rw-------  SysAdmin    SysAuditor  512340  2025-04-15 09:15   compliance_audit.log     FS-LOG-44B");;
    emit (EPrint "-rwxr-xr-x  SysAdmin    SysOperator 15360   2025-03-01 16:00   secure_comm_client.app   FS-APP-901");;
    emit (EPrint "-r--------  SysAdmin    SecReviewer 8192    2025-04-14 18:05   data_packet_MSG-XYZ789   FS-DATA-XYZ");;
    (if String.eqb expected_mode "audit" then
       emit (EPrint ("-rw-------  SysAdmin    SysAuditor   980    " +:+ kos_utility.get_current_timestamp
                     +:+ "   .kls_audit_trail         FS-AUD-KLS"))
     else ret tt);;
    log "Directory manifest query completed." INFO;;
    kos_bureaucracy.simulate_forwarding "FS_ACCESS"
      ("kls:" +:+ target_dir +:+ ":" +:+ expected_mode) "Directory List Event"
  else
    log ("Directory manifest query failed for '" +:+ target_dir
         +:+ "'. Check permissions or path.") ERROR.
End Handler.
End kos_fs.

(** ** kos_status.py *)

Module kos_status.
Section Handler.
Variable check_time : CheckTime.

Definition handle_status (args_dict : gmap string ArgVal) (positional_args : list string)
    (get_input_func : InputFunc) : M unit :=
  let log := kos_bureaucracy.log_system_message in
  s <- get_state;;
  if negb (is_authenticated s) then
    log "Operation requires authentication. Use 'klogin'." ERROR
  else
  check_time [PNum (session_start_time s); PStr "System Status Query"];;
  allowed <- kos_bureaucracy.check_operational_mandate "SYSTEM_INFO";;
  if negb allowed then
    log "System status query blocked by current operational mandate." WARN
  else
  (* Mandatory flags and purpose code *)
  let compliance_flag := py_or (dict_get args_dict "compliance-check") (dict_get args_dict "c") in
  let purpose_code := purpose_code_of args_dict in
  if negb (truthy compliance_flag) then
    log "Procedural error: 'kstatus' requires '--compliance-check' or '-c' flag." ERROR
  else if negb (eq_str purpose_code kos_config.STATUS_PURPOSE_CODE) then
    log ("Procedural error: Requires '-p " +:+ kos_config.STATUS_PURPOSE_CODE
         +:+ "' or '--purpose=" +:+ kos_config.STATUS_PURPOSE_CODE +:+ "'.") ERROR
  else
  ok <- kos_bureaucracy.verify_action_intent check_time "kstatus -c" get_input_func
          true (Some kos_config.STATUS_PURPOSE_CODE) false;;
  if negb ok then
    log "Command aborted due to failed intent verification." WARN
  else
  log "Initiating System Status Verification Protocol..." INFO;;
  r <- kos_bureaucracy.perform_simulated_check "Core System Module Health & Compliance Scan"
                                               kos_config.BASE_CHECK_DELAY_MEDIUM_MS;;
  let '(success, check_code) := r in
  if success then
    kos_bureaucracy.apply_procedural_friction "Status Report Generation";;
    s <- get_state;;
    emit (EPrint "--- KafkaOS System Status Report ---");;
    emit (EPrint ("  Node ID          : " +:+ kos_config.NODE_ID));;
    emit (EPrint ("  Location         : " +:+ kos_config.CURRENT_LOCATION));;
    emit (EPrint ("  Version          : " +:+ kos_config.OS_VERSION));;
    emit (EPrint "  Kernel Status    : Nominal");;
    emit (EPrint ("  Auth Status      : " +:+ (if is_authenticated s then "ACTIVE" else "INACTIVE")
                  +:+ " (User: " +:+ default "None" (user_id s) +:+ ")"));;
    emit (EPrint ("  Audit Backlog    : " +:+ PyStr.of_Z (pending_reviews s) +:+ " items"));;
    (if Qeq_bool (session_start_time s) 0 then ret tt
     else (_ <- time_monotonic;; ret tt));;
    emit (EPrint ("  Session Uptime   : <s> / " +:+ PyStr.of_Z kos_config.TIME_LIMIT_SECONDS
                  +:+ "s (Mandate: " +:+ kos_config.TIME_LIMIT_MANDATE +:+ ")"));;
    emit (EPrint ("  Compliance Check : Passed (Ref: " +:+ check_code +:+ ")"));;
    log "System Status Report generated successfully." INFO;;
    kos_bureaucracy.simulate_forwarding "STATUS_QUERY" check_code "System Status Query (-c)"
  else
    log "System Status check failed during compliance scan." ERROR.
End Handler.
End kos_status.

(** ** kos_proc.py *)

Module kos_proc.
Section Handler.
Variable check_time : CheckTime.

Definition handle_exec (args_dict : gmap string ArgVal) (positional_args : list string)
    (get_input_func : InputFunc) : M unit :=
  let log := kos_bureaucracy.log_system_message in
  s <- get_state;;
  if negb (is_authenticated s) then
    log "Operation requires authentication. Use 'klogin'." ERROR
  else
  check_time [PNum (session_start_time s); PStr "Process Execution (kexec)"];;
  allowed <- kos_bureaucracy.check_operational_mandate "PROCESS_EXEC";;
  if negb allowed then
    log "Process execution blocked by current operational mandate." WARN
  else
  match positional_args with
  | [] => log "Command error: Program path/name required for 'kexec' or './'." ERROR
  | program_path :: exec_args =>
  let program_name := List.last (PyStr.split_on "/" program_path) EmptyString in
  log ("Parsing 'kexec' command for '" +:+ program_path +:+ "'.") INFO;;
  (* Check for mandatory purpose code *)
  let purpose_code := purpose_code_of args_dict in
  if negb (truthy purpose_code) then
    log "Procedural error: Execution requires purpose code via '-p <CODE>' or '--purpose=<CODE>'." ERROR
  else
  (* Determine expected purpose based on program *)
  let is_secure_comm := String.eqb program_name "secure_comm_client.app" in
  let expected_purpose := if is_secure_comm then kos_config.SECURE_COMM_PURPOSE_CODE
                          else kos_config.STANDARD_PURPOSE_CODE_PROC in
  if negb (eq_str purpose_code expected_purpose) then
    log ("Procedural error: Incorrect purpose code '" +:+ kos_shutdown.render_val purpose_code
         +:+ "'. Expected '" +:+ expected_purpose +:+ "' for '" +:+ program_name +:+ "'.") ERROR
  else
  (* Special check for secure comm client arguments *)
  let packet_id := if is_secure_comm then dict_get args_dict "packet-id" else None in
  if is_secure_comm && negb (truthy packet_id) then
    log ("Procedural error: Running '" +:+ program_name +:+ "' requires '--packet-id=<MSG_ID>'.") ERROR
  else
  (* Verification Step (requires re-auth for execution) *)
  ok <- kos_bureaucracy.verify_action_intent check_time ("kexec " +:+ program_path)
          get_input_func true (Some expected_purpose) true;;
  if negb ok then
    log "Command aborted due to failed intent verification." WARN
  else
  log ("PEAD: Authorizing execution request for '" +:+ program_path +:+ "' (Purpose: "
       +:+ kos_shutdown.render_val purpose_code +:+ ")...") INFO;;
  r <- kos_bureaucracy.perform_simulated_check
         ("Process Launch & Resource Allocation Check for " +:+ program_name)
         kos_config.BASE_CHECK_DELAY_LONG_MS;;
  let '(success, check_code) := r in
  if success then
    pid <- random_randint 1000 9999;;
    log ("Program '" +:+ program_name +:+ "' launched successfully. PID: " +:+ PyStr.of_Z pid
         +:+ ". Ref: " +:+ check_code) INFO;;
    kos_bureaucracy.simulate_forwarding "PROC_LAUNCH"
      ("kexec:" +:+ program_name +:+ ":PID=" +:+ PyStr.of_Z pid) "Process Launch Event";;
    kos_utility.sleep_random kos_config.BASE_CHECK_DELAY_SHORT_MS;; (* Simulate run time *)
    (if is_secure_comm then
       log ("Secure Client (" +:+ PyStr.of_Z pid +:+ "): Attempting to access secure data packet '"
            +:+ kos_shutdown.render_val packet_id +:+ "'...") INFO;;
       kos_utility.sleep_random kos_config.BASE_CHECK_DELAY_MEDIUM_MS;;
       emit (EPrint ("--- Secure Comm Client (PID: " +:+ PyStr.of_Z pid +:+ ", Ref: "
                     +:+ check_code +:+ ") ---"));;
       emit (EPrint ("  Accessing Data Packet: " +:+ kos_shutdown.render_val packet_id));;
       emit (EPrint "  Subject: URGENT: Compliance Sub-Directive 481-C(ii) Reconciliation");;
       emit (EPrint "  Content: [ENCRYPTED CONTENT DISPLAYED - Refer to KOS-SDVP-1 for details]");;
       emit (EPrint ("  Timestamp: " +:+ kos_utility.get_current_timestamp));;
       emit (EPrint "------------------------------------------------------------------");;
       log ("Secure Client (" +:+ PyStr.of_Z pid +:+ "): Data packet '"
            +:+ kos_shutdown.render_val packet_id +:+ "' access logged.") INFO
     else
       emit (EPrint ("--- Program Output (PID: " +:+ PyStr.of_Z pid +:+ ", Name: "
                     +:+ program_name +:+ ") ---"));;
       emit (EPrint ("  Simulated execution with args: [" +:+ PyStr.join ", " exec_args +:+ "]"));;
       emit (EPrint "  Status: Execution completed nominally.");;
       u <- kos_utility.pseudo_uuid;;
       emit (EPrint ("  Output Stream Ref: " +:+ PyStr.take 8 u));;
       emit (EPrint "----------------------------------------------------------"));;
    log ("Program '" +:+ program_name +:+ "' (PID: " +:+ PyStr.of_Z pid
         +:+ ") execution sequence finished.") INFO;;
    kos_bureaucracy.simulate_forwarding "CMD_EXEC"
      ("kexec:" +:+ program_name +:+ ":PID=" +:+ PyStr.of_Z pid +:+ ":OK")
      "Process Execution Result"
  else
    log ("PEAD: Failed to launch program '" +:+ program_name
         +:+ "'. Authorization denied. Ref: " +:+ check_code) ERROR;;
    kos_bureaucracy.simulate_forwarding "CMD_EXEC" ("kexec:" +:+ program_name +:+ ":FAIL")
                                        "Process Execution Result"
  end.
End Handler.
End kos_proc.

(** ** kos_rejection.py

    In the source text of [handle_rejected_command] the block that follows
    the loop (from the comment [# 3. Final Accusation and Reporting] to the
    closing comment) stands in the middle of the call
    [kos_utility.sleep_random(...)] that ends the [if cycle < ...] branch, and
    the [else] of that branch follows it.  The file as it stands is not a
    Python module: [kos_rejection_text] below holds its layout and
    [import_kos_rejection] what an import of it gives.  The definitions of
    this module are the protocol that text was displaced from: the
    statements in the order their indentation gives, the [if]/[else] closing
    the loop body and the final block following the loop.  No run of the
    program reaches them. *)

Module kos_rejection.

Definition REJECTION_REASONS : list string :=
  [ "Command execution conflicts with Temporal Mandate subsection 4(gamma).";
    "Insufficient Justification Quotient (JQ) for requested operation.";
    "Potential resource contention flagged by Predictive Allocation Subsystem (PAS).";
    "Command signature deviates from registered KOS-native secure execution profile.";
    "Pending Compliance Audit prohibits non-KafkaOS native commands at this time.";
    "Operation deemed 'Non-Essential' under Resource Conservation Directive RC-9.";
    "Command string contains patterns identified as 'Anomalous User Behavior'.";
    "Cross-referencing with User Profile Mandate UPM-11b revealed non-compliance." ].

Definition MAX_VERIFICATION_CYCLES : Z := 3.

(** [for x in l: body(x)] for a body without [break] *)
Fixpoint for_each {A} (l : list A) (body : A -> M unit) : M unit :=
  match l with
  | [] => ret tt
  | x :: rest => body x;; for_each rest body
  end.

Section Handler.
Variable check_time : CheckTime.

(** One pass of the [for cycle in range(MAX_VERIFICATION_CYCLES)] loop. *)
Definition verification_cycle (original_command_line : string)
    (get_input_func : InputFunc) (cycle : Z) : M unit :=
  let log := kos_bureaucracy.log_system_message in
  let n := PyStr.of_Z (cycle + 1) in
  log ("Verification Cycle " +:+ n +:+ " of " +:+ PyStr.of_Z MAX_VERIFICATION_CYCLES
       +:+ " commencing.") INFO;;
  s <- get_state;;
  check_time [PNum (session_start_time s); PStr ("Circular Verification Cycle " +:+ n)];;
  (* Step A: Demand Re-confirmation (Pointless) *)
  reconfirm <- get_input_func ("Cycle " +:+ n +:+ ": Re-enter the exact command line attempted ('"
                               +:+ PyStr.take 20 original_command_line
                               +:+ "...') for log correlation: ");;
  (if negb (String.eqb reconfirm original_command_line) then
     log "Verification Failed: Discrepancy in command line re-confirmation. Potential obfuscation detected." ERROR;;
     log "Logging discrepancy. Continuing verification under elevated scrutiny." WARN
   else
     log "Command line re-confirmation logged for correlation." INFO;;
     _ <- kos_bureaucracy.perform_simulated_check "Log Correlation Subroutine"
                                                  kos_config.BASE_CHECK_DELAY_SHORT_MS;;
     ret tt);;
  (* Step B: Demand Impossible Justification *)
  justification <- get_input_func ("Cycle " +:+ n
    +:+ ": Provide Level Gamma Justification Code (Format: GJC-XXXX-YYYY): ");;
  (if negb (PyStr.startswith "GJC-" justification)
      || negb (length (PyStr.split_on "-" justification) =? 3)%nat then
     log "Verification Failed: Invalid Level Gamma Justification Code format." ERROR
   else
     log "Justification Code format accepted. Validating against CAAM..." INFO;;
     kos_utility.sleep_random kos_config.BASE_CHECK_DELAY_MEDIUM_MS;;
     log "Verification Failed: Provided Justification Code not found in Command Allowable Actions Matrix (CAAM) for this context." ERROR);;
  (* Step C: Accuse and Loop *)
  log ("Discrepancy detected during Verification Cycle " +:+ n
       +:+ ". User intent remains unverified.") WARN;;
  kos_bureaucracy.apply_procedural_friction ("Verification Cycle " +:+ n +:+ " Failure");;
  if cycle <? MAX_VERIFICATION_CYCLES - 1 then
    log "Re-initiating verification cycle due to persistent inconsistencies." WARN;;
    kos_utility.sleep_random kos_config.BASE_CHECK_DELAY_SHORT_MS
  else
    log "Maximum verification cycles reached." WARN.

Definition handle_rejected_command (command_name : string)
    (args_dict : gmap string ArgVal) (positional_args : list string)
    (get_input_func : InputFunc) : M unit :=
  let log := kos_bureaucracy.log_system_message in
  log ("Detected non-native command attempt: '" +:+ command_name
       +:+ "'. Initiating Rejection Protocol RP-LNX-1.") WARN;;
  s <- get_state;;
  check_time [PNum (session_start_time s); PStr "Non-Native Command Rejection"];;
  (* 1. Initial Arbitrary Rejection *)
  reason <- random_choice REJECTION_REASONS;;
  u <- kos_utility.pseudo_uuid;;
  log ("COMMAND REJECTED: " +:+ reason +:+ " (Ref: REJ-" +:+ PyStr.take 6 u +:+ ")") ERROR;;
  kos_bureaucracy.apply_procedural_friction "Non-Native Command Handling";;
  (* 2. Initiate Circular Verification *)
  log "Initiating Mandatory Verification Cycle VMC-Circular-01 to clarify user intent." WARN;;
  let original_command_line := command_name +:+ " " +:+ PyStr.join " " positional_args in
  for_each (kos_bureaucracy.range 0 MAX_VERIFICATION_CYCLES)
           (verification_cycle original_command_line get_input_func);;
  (* 3. Final Accusation and Reporting *)
  log "CIRCULAR VERIFICATION FAILED." FATAL;;
  log "User input consistently failed validation protocols across multiple cycles." SECURITY;;
  log "Analysis suggests patterns inconsistent with standard operational procedures." SECURITY;;
  log "User veracity assessment: NEGATIVE. Subject exhibits patterns indicative of untruthfulness or intentional obfuscation." SECURITY;;
  emit (EPrint ("*** KAFKAOS SECURITY ALERT: Verification Failure for command '" +:+ command_name
                +:+ "'. Suspected misrepresentation. ***"));;
  u <- kos_utility.pseudo_uuid;;
  emit (EPrint ("*** Your actions have been logged and reported to Security Incident Reporting. Reference: SIR-"
                +:+ PyStr.take 8 u +:+ " ***"));;
  s <- get_state;;
  kos_bureaucracy.simulate_forwarding "SECURITY_INCIDENT_REPORTING (SIR)"
    ("CMD:" +:+ command_name +:+ ":VERIF_FAIL")
    ("Failed Circular Verification for Non-Native Command '" +:+ command_name
     +:+ "' - User '" +:+ default "None" (user_id s) +:+ "'");;
  log "Non-native command execution definitively denied." ERROR.
  (* The command does not execute. Control returns to the main loop. *)
End Handler.
End kos_rejection.

(** ** kos_rejection.py as a text: its block structure

    The interpreter compiles a module before it runs a statement of it.  Of
    every logical line (blank lines, comment lines and the continuation
    lines of a bracket left out) the block structure takes the column of the
    first character and whether the line ends with a colon. *)

Record LogicalLine : Type := mkLogicalLine {
  line_number : nat;
  indentation : nat;
  opens_block : bool
}.

Inductive LayoutError : Type :=
| UnexpectedIndent (line : nat)        (* deeper, after a line that opens no block *)
| ExpectedIndentedBlock (line : nat)   (* not deeper, after a line that opens one *)
| UnindentMismatch (line : nat).       (* back to a column that no open block has *)

(** The indentation stack after a line at column [col] that is not deeper
    than its top: the levels above are closed, and [col] has to be one of
    the stack. *)
Fixpoint dedent_to (col : nat) (stack : list nat) : option (list nat) :=
  match stack with
  | [] => None
  | top :: below =>
      if (col =? top)%nat then Some stack
      else if (top <? col)%nat then None
      else dedent_to col below
  end.

(** The first error of the block structure, if any.  [stack] holds the
    columns of the open blocks, the innermost first; [opened] tells whether
    the line before ended with a colon. *)
Fixpoint check_blocks (stack : list nat) (opened : bool) (lines : list LogicalLine)
    : option LayoutError :=
  match lines with
  | [] => None
  | l :: rest =>
      if (hd 0%nat stack <? indentation l)%nat then
        if opened then check_blocks (indentation l :: stack) (opens_block l) rest
        else Some (UnexpectedIndent (line_number l))
      else if opened then Some (ExpectedIndentedBlock (line_number l))
      else
        match dedent_to (indentation l) stack with
        | Some stack' => check_blocks stack' (opens_block l) rest
        | None => Some (UnindentMismatch (line_number l))
        end
  end.

(** The logical lines of src/kos_rejection.py: line number, column, colon. *)
Definition kos_rejection_text : list LogicalLine :=
  map (fun l => mkLogicalLine l.1.1 l.1.2 l.2)
    [ (4, 0, false); (5, 0, false); (6, 0, false); (7, 0, false);   (* imports *)
      (10, 0, false);                      (* KNOWN_REJECTED_COMMANDS = { ... } *)
      (19, 0, false);                      (* REJECTION_REASONS = [ ... ] *)
      (31, 0, false);                      (* MAX_VERIFICATION_CYCLES = 3 *)
      (33, 0, true);                       (* def handle_rejected_command(...): *)
      (34, 4, false); (35, 4, false); (36, 4, false); (37, 4, false); (38, 4, false);
      (40, 4, false); (41, 4, false); (44, 4, false); (45, 4, false); (46, 4, false);
      (49, 4, false); (50, 4, false);
      (52, 4, true);                       (* for cycle in range(...): *)
      (53, 8, false); (54, 8, false); (57, 8, false);
      (58, 8, true);                       (* if reconfirm != ...: *)
      (59, 12, false); (61, 12, false);
      (62, 8, true);                       (* else: *)
      (63, 12, false); (64, 12, false);
      (67, 8, false);
      (68, 8, true);                       (* if not justification.startswith(...) ...: *)
      (69, 12, false);
      (71, 8, true);                       (* else: *)
      (73, 12, false); (74, 12, false); (75, 12, false);
      (78, 8, false); (79, 8, false);
      (80, 8, true);                       (* if cycle < MAX_VERIFICATION_CYCLES - 1: *)
      (81, 12, false);
      (82, 12, false);                     (* kos_ *)
      (84, 4, false); (85, 4, false); (86, 4, false); (87, 4, false); (88, 4, false);
      (89, 4, false); (90, 4, false); (91, 4, false);   (* the final block *)
      (93, 8, true);                       (* else: *)
      (94, 12, false) ]%nat.

(** [str(e)] of the [IndentationError] the compiler raises. *)
Definition layout_error_message (e : LayoutError) : string :=
  match e with
  | UnexpectedIndent n =>
      "unexpected indent (kos_rejection.py, line " +:+ PyStr.of_Z (Z.of_nat n) +:+ ")"
  | ExpectedIndentedBlock n =>
      "expected an indented block (kos_rejection.py, line " +:+ PyStr.of_Z (Z.of_nat n) +:+ ")"
  | UnindentMismatch n =>
      "unindent does not match any outer indentation level (kos_rejection.py, line "
      +:+ PyStr.of_Z (Z.of_nat n) +:+ ")"
  end.

(** [import kos_rejection]: the error of the compiler, or the module with
    its function. *)
Definition import_kos_rejection
    : LayoutError
      + (CheckTime -> string -> gmap string ArgVal -> list string -> InputFunc -> M unit) :=
  match check_blocks [0%nat] false kos_rejection_text with
  | Some e => inl e
  | None => inr kos_rejection.handle_rejected_command
  end.

(** [import kos_rejection] followed by
    [kos_rejection.handle_rejected_command(os_state, command_name, args_dict,
    positional_args, get_input_func)]. *)
Definition call_handle_rejected_command (check_time : CheckTime) (command_name : string)
    (args_dict : gmap string ArgVal) (positional_args : list string)
    (get_input_func : InputFunc) : M unit :=
  match import_kos_rejection with
  | inl e => raise (IndentationError (layout_error_message e))
  | inr handle_rejected_command =>
      handle_rejected_command check_time command_name args_dict positional_args get_input_func
  end.

(** ** kos_core.py: help, the command table, the command loop, the boot *)

Definition print_help : M unit :=
  emit (EPrint "--- KafkaOS Simulated Command Help ---");;
  emit (EPrint "  klogin                  - Initiate user authentication sequence.");;
  emit (EPrint "  klogout                 - Terminate current user session.");;
  emit (EPrint "  kls | ls [path] --view-mode=<mode> -p <purpose_code>");;
  emit (EPrint "                          - List directory contents. Mode ('standard'/'audit') depends on current minute.");;
  emit (EPrint ("                            Requires purpose code: " +:+ kos_config.STANDARD_PURPOSE_CODE_FS));;
  emit (EPrint "  kexec | ./<prog> [args...] -p <purpose_code> [--packet-id=<id>]");;
  emit (EPrint "                          - Execute a program simulation.");;
  emit (EPrint ("                            Requires standard purpose: " +:+ kos_config.STANDARD_PURPOSE_CODE_PROC));;
  emit (EPrint ("                            Secure client purpose: " +:+ kos_config.SECURE_COMM_PURPOSE_CODE
                +:+ " (requires --packet-id)"));;
  emit (EPrint ("  kstatus -c | --compliance-check -p " +:+ kos_config.STATUS_PURPOSE_CODE));;
  emit (EPrint "                          - Display system status (mandatory flags/purpose).");;
  emit (EPrint "  khalt | shutdown [--force | -f] [--auth-code=<CODE>]");;
  emit (EPrint "                          - Initiate system halt (requires time-sensitive auth code unless forced).");;
  emit (EPrint "  exit                    - Alias for shutdown.");;
  emit (EPrint "  help                    - Display this message.");;
  emit (EPrint "--------------------------------------").

(** What the command table holds: a handler defined with a
    [get_input_func] parameter, or the three-parameter lambda of [help]. *)
Inductive Callable : Type :=
| Handler (h : gmap string ArgVal -> list string -> InputFunc -> M unit)
| Lambda3 (f : gmap string ArgVal -> list string -> M unit).

(** [command_handler(os_state, args_dict, positional_args,
    get_input_func=get_user_input)]: the lambda has no parameter of that
    name. *)
Definition call_handler (c : Callable) (args_dict : gmap string ArgVal)
    (positional_args : list string) (get_input_func : InputFunc) : M unit :=
  match c with
  | Handler h => h args_dict positional_args get_input_func
  | Lambda3 _ => raise (TypeError "<lambda>() got an unexpected keyword argument 'get_input_func'")
  end.

Definition COMMANDS : gmap string Callable :=
  let shutdown := Handler (fun ad pa gif =>
                    kos_shutdown.handle_shutdown call_check_time_limit ad pa (Some gif) false) in
  list_to_map
    [ ("klogin", Handler (kos_auth.handle_login call_check_time_limit));
      ("klogout", Handler kos_auth.handle_logout);
      ("kls", Handler (kos_fs.handle_ls call_check_time_limit));
      ("ls", Handler (kos_fs.handle_ls call_check_time_limit));
      ("kexec", Handler (kos_proc.handle_exec call_check_time_limit));
      ("./", Handler (kos_proc.handle_exec call_check_time_limit));
      ("kstatus", Handler (kos_status.handle_status call_check_time_limit));
      ("khalt", shutdown);
      ("shutdown", shutdown);
      ("exit", shutdown);
      ("help", Lambda3 (fun _ _ => print_help)) ].

(** The commands the pre-command mandate check leaves alone. *)
Definition MANDATE_EXEMPT : list string := ["klogin"; "help"; "exit"; "shutdown"; "khalt"].

(** The body of the [while True] loop after a line that is not empty was
    read. *)
Definition dispatch (full_command_line : string) : M unit :=
  let parts := PyStr.split_ws full_command_line in
  let command_name_raw := hd EmptyString parts in
  let command_args_raw := tl parts in
  let '(command_handler, parsed) :=
    (* Handle ./program syntax before lowercasing command *)
    if PyStr.startswith "./" command_name_raw
    then (COMMANDS !! "./", parse_args parts)
    else (COMMANDS !! PyStr.lower command_name_raw, parse_args command_args_raw) in
  let '(args_dict, positional_args) := parsed in
  (* the list [parse_args] read, for the order of the keys in the log line *)
  let arg_list := if PyStr.startswith "./" command_name_raw then parts else command_args_raw in
  u <- kos_utility.pseudo_uuid;;
  modify_state (set_last_command_ref (Some ("CMD-" +:+ PyStr.take 6 u)));;
  kos_bureaucracy.log_system_message
    ("Processing command: '" +:+ command_name_raw +:+ "', Args: "
     +:+ repr_dict arg_list args_dict +:+ ", Positional: " +:+ repr_list positional_args
     +:+ ", Ref: CMD-" +:+ PyStr.take 6 u) CMD;;
  (* Pre-command arbitrary check *)
  blocked <-
    (match command_handler with
     | Some _ =>
         if negb (bool_decide (command_name_raw ∈ MANDATE_EXEMPT)) then
           allowed <- kos_bureaucracy.check_operational_mandate "STANDARD";;
           if negb allowed then
             kos_bureaucracy.log_system_message
               ("Command '" +:+ command_name_raw +:+ "' blocked by operational mandate.") WARN;;
             ret true
           else ret false
         else ret false
     | None => ret false
     end);;
  if (blocked : bool) then ret tt (* continue: skip command execution *)
  else
    match command_handler with
    | Some h =>
        try_except
          (call_handler h args_dict positional_args (fun p => get_user_input (Some p));;
           s <- get_state;;
           kos_bureaucracy.log_system_message
             ("Command '" +:+ command_name_raw +:+ "' processing complete (Ref: "
              +:+ default "None" (last_command_ref s) +:+ ").") CMD)
          (fun e =>
             kos_bureaucracy.log_system_message
               ("Runtime error during execution of '" +:+ command_name_raw +:+ "': "
                +:+ exc_str e) ERROR;;
             emit (EPrint ("*** Error executing command '" +:+ command_name_raw
                           +:+ "'. Consult system logs. ***")))
    | None =>
        if negb (bool_decide (command_name_raw ∈ ["help"])) then
          kos_bureaucracy.log_system_message
            ("Unknown command: '" +:+ command_name_raw +:+ "'. Command ignored. Type 'help'.") ERROR
        else ret tt
    end.

(** One pass of the [while True] loop of [command_loop]. *)
Definition command_loop_body : M unit :=
  call_check_time_limit [PStr "Idle State"];; (* Check time limit periodically *)
  full_command_line <- get_user_input None;;
  if negb (PyStr.nonempty full_command_line) then ret tt (* continue *)
  else dispatch full_command_line.

(** [command_loop], observed for [fuel] passes: the loop itself has no exit
    other than [sys.exit] and an escaping exception. *)
Fixpoint command_loop (fuel : nat) : M unit :=
  match fuel with
  | O => ret tt
  | S n => command_loop_body;; command_loop n
  end.

Definition initialize_system : M unit :=
  let log := kos_bureaucracy.log_system_message in
  let check := kos_bureaucracy.perform_simulated_check in
  emit (EPrint "======================================================================");;
  emit (EPrint ("Booting " +:+ kos_config.OS_NAME +:+ "..."));;
  emit (EPrint ("Node Identifier: " +:+ kos_config.NODE_ID));;
  emit (EPrint ("Operational Sector: " +:+ kos_config.CURRENT_LOCATION));;
  emit (EPrint ("System Timestamp: " +:+ kos_utility.get_current_timestamp));;
  emit (EPrint ("Kernel Build: " +:+ kos_config.OS_VERSION));;
  emit (EPrint "======================================================================");;
  log "Boot sequence started." SYSTEM;;
  check "Core Kernel Module Integrity Verification" kos_config.BASE_CHECK_DELAY_MEDIUM_MS;;
  log "Loading Module: kos_auth (Authentication Services)..." INFO;;
  kos_utility.sleep_random kos_config.BASE_CHECK_DELAY_SHORT_MS;;
  log "Loading Module: kos_fs (Filesystem Interface Layer)..." INFO;;
  kos_utility.sleep_random kos_config.BASE_CHECK_DELAY_SHORT_MS;;
  log "Loading Module: kos_proc (Process Execution Subsystem)..." INFO;;
  kos_utility.sleep_random kos_config.BASE_CHECK_DELAY_SHORT_MS;;
  log "Loading Module: kos_status (System Health Monitor)..." INFO;;
  kos_utility.sleep_random kos_config.BASE_CHECK_DELAY_SHORT_MS;;
  log "Loading Module: kos_shutdown (Termination Control)..." INFO;;
  kos_utility.sleep_random kos_config.BASE_CHECK_DELAY_SHORT_MS;;
  log "Loading Module: kos_bureaucracy (Compliance & Oversight Engine)..." INFO;;
  kos_utility.sleep_random kos_config.BASE_CHECK_DELAY_MEDIUM_MS;;
  check "Initializing Audit & Compliance Subsystems (RCCS)" kos_config.BASE_CHECK_DELAY_SHORT_MS;;
  check "Final Compliance Scan against Mandate Delta-Fragmented" kos_config.BASE_CHECK_DELAY_LONG_MS;;
  log ("Applying session temporal constraints via " +:+ kos_config.TIME_LIMIT_MANDATE) INFO;;
  kos_bureaucracy.simulate_forwarding "BOOT" kos_config.OS_VERSION "System Boot Event";;
  log "System boot sequence complete. Awaiting user authentication." SYSTEM;;
  emit (EPrint "======================================================================");;
  emit (EPrint ("Welcome to " +:+ kos_config.OS_NAME +:+ " on " +:+ kos_config.NODE_ID +:+ "."));;
  emit (EPrint ("System time: " +:+ kos_utility.get_current_timestamp +:+ ". Location: "
                +:+ kos_config.CURRENT_LOCATION +:+ "."));;
  emit (EPrint ("NOTICE: Session duration limited to " +:+ PyStr.of_Z kos_config.TIME_LIMIT_SECONDS
                +:+ "s (" +:+ kos_config.TIME_LIMIT_MANDATE +:+ ")."));;
  emit (EPrint "Type 'klogin' to authenticate or 'help' for commands.");;
  emit (EPrint "======================================================================").

(** ** Observations on runs *)

(** The entity keys of the forwarding events of a trace, in order. *)
Definition forward_keys (evs : list Event) : list string :=
  omap (fun e => match e with EForward k _ _ => Some k | _ => None end) evs.

(** The reasons of the calls of [apply_procedural_friction], in order. *)
Definition friction_reasons (evs : list Event) : list string :=
  omap (fun e => match e with EFriction r => Some r | _ => None end) evs.

(** The printed lines of a trace, in order. *)
Definition printed (evs : list Event) : list string :=
  omap (fun e => match e with EPrint t => Some t | _ => None end) evs.

(** The prompts shown by [input()], in order. *)
Definition prompts (evs : list Event) : list string :=
  omap (fun e => match e with EPrompt p => Some p | _ => None end) evs.

(** The messages logged at a level, in order. *)
Definition logged (lvl : Level) (evs : list Event) : list string :=
  omap (fun e => match e with
                 | ELog l m => match l, lvl with
                               | DEBUG, DEBUG | INFO, INFO | WARN, WARN | ERROR, ERROR
                               | SECURITY, SECURITY | FATAL, FATAL | SYSTEM, SYSTEM
                               | CMD, CMD => Some m
                               | _, _ => None
                               end
                 | _ => None
                 end) evs.

(** The terminal event of the circular rejection protocol. *)
Definition SECURITY_INCIDENT : string := "SECURITY_INCIDENT_REPORTING (SIR)".

(** [authenticated] is true exactly when an identity is stored. *)
Definition auth_invariant (s : OsState) : Prop :=
  is_authenticated s = true <-> is_Some (user_id s).

Definition backlog (w : World) : Z := pending_reviews (os_state w).

(** A computation that never lowers the backlog. *)
Definition nondecreasing {A} (m : M A) : Prop :=
  forall w, backlog w <= backlog (world (m w)).

(** Worlds for examples: every source outside the program gives the same
    answer each time. *)
Definition const_stream {A} (a : A) : Stream A := fun _ => a.

Definition world_of (s : OsState) (lines : list Stdin) (now : Q) (wall : WallTime)
    (draw : Q) : World :=
  mkWorld s lines (const_stream now) (const_stream wall) (const_stream draw)
          (const_stream 0) (const_stream "0F8FAD5B-D9CB-469F-A165-70867728950E").

(** A session of user alice, opened at second 1 of the monotonic clock. *)
Definition alice_session : OsState :=
  mkOsState (Some "alice") true 1%Q 1 "/home/user" None.

(** A run with events put in front of it. *)
Definition prepend {A} (evs : list Event) (r : Run A) : Run A :=
  mkRun (outcome r) (world r) (evs ++ emitted r).

Definition with_os_state (s : OsState) (w : World) : World :=
  mkWorld s (stdin w) (monotonic w) (wall_clock w) (random_draws w) (random_ints w) (uuids w).

(** The world after one more identifier was drawn. *)
Definition next_uuid (w : World) : World := world (kos_utility.pseudo_uuid w).

(** The events of [perform_simulated_check]. *)
Definition check_events (check_name : string) (base_duration_ms : Z) (u : string) : list Event :=
  [ ELog INFO ("Subsystem Check: Initiating " +:+ check_name +:+ "...");
    ESleep kos_config.BASE_MSG_DELAY_MS;
    ESleep base_duration_ms;
    ELog INFO ("Subsystem Check: " +:+ check_name +:+ " completed. Status: OK. Ref: "
               +:+ (PyStr.upper (PyStr.take 3 check_name) +:+ "-" +:+ PyStr.take 6 u));
    ESleep kos_config.BASE_MSG_DELAY_MS ].

(** The events of [simulate_forwarding] when the backlog was [pending]. *)
Definition forwarding_events (entity_key context_ref detail u : string) (pending : Z)
    : list Event :=
  let reviewer := default "Default Audit Sink" (kos_bureaucracy.REVIEW_ENTITIES !! entity_key) in
  [ ELog INFO ("AUDIT: Forwarding " +:+ detail +:+ " (Ref: " +:+ context_ref
               +:+ ") to '" +:+ reviewer +:+ "'. ID: "
               +:+ ("KOS-FWD-" +:+ entity_key +:+ "-" +:+ PyStr.take 8 u));
    ESleep kos_config.BASE_MSG_DELAY_MS;
    EForward entity_key context_ref detail;
    ESleep kos_config.BASE_FORWARDING_DELAY_MS;
    ELog INFO ("AUDIT: Ack received from '" +:+ reviewer +:+ "'. Pending Reviews: "
               +:+ PyStr.of_Z (pending + 1));
    ESleep kos_config.BASE_MSG_DELAY_MS ].

(** [pending_reviews] raised by one. *)
Definition forwarded (s : OsState) : OsState :=
  mkOsState (user_id s) (is_authenticated s) (session_start_time s)
            (pending_reviews s + 1) (current_directory s) (last_command_ref s).

(** The events of [apply_procedural_friction] when the backlog is [pending]. *)
Definition friction_events (reason : string) (pending : Z) : list Event :=
  EFriction reason ::
  if kos_config.HIGH_FRICTION_REVIEW_THRESHOLD <? pending then
    [ ELog WARN ("Applying procedural friction due to high audit backlog ("
                 +:+ PyStr.of_Z pending +:+ "). Reason: " +:+ reason +:+ ".");
      ESleep kos_config.BASE_MSG_DELAY_MS;
      ESleep kos_config.BASE_CHECK_DELAY_SHORT_MS ]
  else [].

(** What a mandate check can do to a world: deny after one forwarding event
    tagged [ARBITRARY_LOCKOUT], or allow without any. *)
Definition denies_or_allows (w : World) (r : Run bool) : Prop :=
  (outcome r = Returned false
   /\ forward_keys (emitted r) = ["ARBITRARY_LOCKOUT"]
   /\ os_state (world r) = forwarded (os_state w))
  \/ (outcome r = Returned true
      /\ forward_keys (emitted r) = []
      /\ os_state (world r) = os_state w).

(** The operations of the engine, as the program runs them: with the timer
    of kos_core.py and with [get_user_input] as the input function. *)
Inductive EngineOp : Type :=
| OpForward (entity_key context_ref detail : string)
| OpFriction (reason : string)
| OpMandate (required_clearance : string)
| OpCheckTime (args : list PyArg)
| OpVerify (command_name : string) (requires_purpose : bool)
           (purpose_code_expected : option string) (requires_reauth : bool)
| OpLogin (args_dict : gmap string ArgVal) (positional_args : list string)
| OpLogout (args_dict : gmap string ArgVal) (positional_args : list string)
| OpLs (args_dict : gmap string ArgVal) (positional_args : list string)
| OpExec (args_dict : gmap string ArgVal) (positional_args : list string)
| OpStatus (args_dict : gmap string ArgVal) (positional_args : list string)
| OpShutdown (args_dict : gmap string ArgVal) (positional_args : list string) (forced : bool)
| OpRejected (command_name : string) (args_dict : gmap string ArgVal)
             (positional_args : list string)
| OpCommand (full_command_line : string)
| OpLoopPass
| OpBoot.

Definition input_func : InputFunc := fun prompt => get_user_input (Some prompt).

Definition run_op (op : EngineOp) : M unit :=
  match op with
  | OpForward k c d => kos_bureaucracy.simulate_forwarding k c d
  | OpFriction reason => kos_bureaucracy.apply_procedural_friction reason
  | OpMandate clearance => _ <- kos_bureaucracy.check_operational_mandate clearance;; ret tt
  | OpCheckTime args => call_check_time_limit args
  | OpVerify name rp pc rr =>
      _ <- kos_bureaucracy.verify_action_intent call_check_time_limit name input_func rp pc rr;;
      ret tt
  | OpLogin ad pa => kos_auth.handle_login call_check_time_limit ad pa input_func
  | OpLogout ad pa => kos_auth.handle_logout ad pa input_func
  | OpLs ad pa => kos_fs.handle_ls call_check_time_limit ad pa input_func
  | OpExec ad pa => kos_proc.handle_exec call_check_time_limit ad pa input_func
  | OpStatus ad pa => kos_status.handle_status call_check_time_limit ad pa input_func
  | OpShutdown ad pa forced =>
      kos_shutdown.handle_shutdown call_check_time_limit ad pa (Some input_func) forced
  | OpRejected name ad pa =>
      kos_rejection.handle_rejected_command call_check_time_limit name ad pa input_func
  | OpCommand line => dispatch line
  | OpLoopPass => command_loop_body
  | OpBoot => initialize_system
  end.

(** A sequence of operations, each started in the world the one before it
    left; nothing runs after an exit or an escaping exception. *)
Definition run_ops (ops : list EngineOp) : M unit := kos_rejection.for_each ops run_op.

Definition with_stdin (lines : list Stdin) (w : World) : World :=
  mkWorld (os_state w) lines (monotonic w) (wall_clock w) (random_draws w) (random_ints w)
          (uuids w).

(** The prompt [get_user_input] shows in state [s]. *)
Definition prompt_text (prompt_override : option string) (s : OsState) : string :=
  let default_prompt :=
    "[" +:+ ((match user_id s with
              | Some u => if PyStr.nonempty u then u else "unauthenticated"
              | None => "unauthenticated" end) +:+ "@azmesa")
        +:+ " " +:+ current_directory s
        +:+ (if 0 <? pending_reviews s then "{REV:" +:+ PyStr.of_Z (pending_reviews s) +:+ "}"
             else "")
        +:+ "]$ " in
  match prompt_override with
  | Some p => if PyStr.nonempty p then " > " +:+ p +:+ ": " else default_prompt
  | None => default_prompt
  end.

(** The events of [get_user_input] when a line is read. *)
Definition input_events (prompt_override : option string) (s : OsState) (text : string)
    : list Event :=
  [ EPrompt (prompt_text prompt_override s);
    ELog DEBUG ("Input detected: '" +:+ PyStr.take 40 text
                +:+ (if (40 <? String.length text)%nat then "..." else "") +:+ "'. Parsing...");
    ESleep kos_config.BASE_MSG_DELAY_MS;
    ESleep kos_config.BASE_INPUT_PROC_DELAY_MS ].

(** The budget is spent: a session is open and more than the limit has
    elapsed at the next reading of the monotonic clock. *)
Definition budget_exhausted (w : World) : Prop :=
  Qeq_bool (session_start_time (os_state w)) 0 = false
  /\ (inject_Z kos_config.TIME_LIMIT_SECONDS
      < stream_hd (monotonic w) - session_start_time (os_state w))%Q.

Definition ARITY_ERROR : PyExc :=
  TypeError "check_time_limit() takes from 0 to 1 positional arguments but 2 were given".

(** A fresh state; the user is about to type a name, a password and a
    six-digit token. *)
Definition fresh_world : World :=
  world_of initial_os_state [Line "alice"; Line "correct horse"; Line "123456"]
           10 (mkWallTime 2 30 0) (1 # 2).

(** The same, with the command [klogin] typed first. *)
Definition klogin_world : World :=
  with_stdin (Line "klogin" :: stdin fresh_world) fresh_world.

(** A session of alice, opened at second 1, with [kls] typed at the prompt:
    the monotonic clock reads 100 at the idle check of the loop and 500 from
    then on, so that the budget runs out while the command is read. *)
Definition expiring_world : World :=
  mkWorld alice_session [Line "kls"]
          (fun n => match n with O => 100%Q | S _ => 500%Q end)
          (const_stream (mkWallTime 2 30 0)) (const_stream (1 # 2)) (const_stream 0)
          (const_stream "0F8FAD5B-D9CB-469F-A165-70867728950E").

(** The world in which the handler of [kls] is entered: after the idle check
    and the reading of the line. *)
Definition expired_world : World :=
  world ((call_check_time_limit [PStr "Idle State"];; get_user_input None) expiring_world).

(** The command line [foo bar] was refused; the user retypes it and gives a
    code of the required shape, three times. *)
Definition retyping_world : World :=
  world_of initial_os_state
    [Line "foo bar"; Line "GJC-1234-5678"; Line "foo bar"; Line "GJC-1234-5678";
     Line "foo bar"; Line "GJC-1234-5678"]
    10 (mkWallTime 2 30 0) (1 # 2).

(** The command [khalt --force] in a session of alice. *)
Definition forced_halt_run : Run unit :=
  kos_shutdown.handle_shutdown call_check_time_limit (parse_args ["--force"]).1 []
    (Some input_func) false (world_of alice_session [] 2 (mkWallTime 2 30 0) (1 # 2)).

(** A session of alice; a phrase that is not the confirmation phrase is
    waiting on standard input. *)
Definition wrong_phrase_world : World :=
  world_of alice_session [Line "I_DO_NOT_COMPLY"; Line "alice"] 2 (mkWallTime 2 30 0) (1 # 2).

(** The traces the circular rejection protocol would leave: its terminal
    security-incident event and its printed alert. *)
Definition rejection_protocol_ran (evs : list Event) : Prop :=
  SECURITY_INCIDENT ∈ forward_keys evs /\ printed evs <> [].

(** A fresh state; the user types [foo bar]. *)
Definition unknown_command_world : World :=
  world_of initial_os_state [Line "foo bar"] 10 (mkWallTime 2 30 0) (1 # 2).

(** A computation keeps the invariant unless it exits the process. *)
Definition keeps_auth_invariant {A} (m : M A) : Prop :=
  forall w, auth_invariant (os_state w) ->
    (exists c, outcome (m w) = Exited c) \/ auth_invariant (os_state (world (m w))).

(** A computation that does not write the state. *)
Definition reads_only {A} (m : M A) : Prop :=
  forall w, os_state (world (m w)) = os_state w.

(** ** main_kos.py *)

(** The line feed that opens some of the printed lines. *)
Definition line_feed : string := String "010"%char "".

(** How the process ends. *)
Inductive ProcessEnd : Type :=
| ExitStatus (status : Z)        (* the interpreter exits with this status *)
| Traceback (exception : string) (* an exception reaches the top level *)
| StillRunning.                  (* the command loop goes on after the passes observed *)

(** The script of main_kos.py, the command loop observed for [fuel]
    passes.  The module imports [sys], [kos_config], [kos_core] and
    [kos_bureaucracy]: the name [kos_utility], which the handler of
    [except Exception] uses, is not bound. *)
Definition main (fuel : nat) : M ProcessEnd := fun w =>
  let boot := initialize_system w in
  match outcome boot with
  | Raised e =>
      (* except Exception as e: print(...); sys.exit(10) *)
      prepend (emitted boot)
        ((emit (EPrint ("FATAL BOOT ERROR: " +:+ exc_str e));;
          ret (ExitStatus 10)) (world boot))
  | Exited c => mkRun (Returned (ExitStatus c)) (world boot) (emitted boot)
  | Returned _ =>
      let loop := command_loop fuel (world boot) in
      let finally := emit (EPrint (line_feed +:+ "KafkaOS session ended.")) in
      prepend (emitted boot ++ emitted loop)
        (match outcome loop with
         | Exited c =>
             (* except SystemExit as e: the script goes on to its end *)
             (kos_bureaucracy.log_system_message
                ("Session terminated with exit code " +:+ PyStr.of_Z c +:+ ".") SYSTEM;;
              finally;;
              ret (ExitStatus 0)) (world loop)
         | Raised e =>
             (* except Exception as e: the second [print] raises NameError *)
             (kos_bureaucracy.log_system_message
                ("UNHANDLED SYSTEM EXCEPTION in command loop: "
                 +:+ exc_str e) FATAL;;
              emit (EPrint (line_feed +:+ "*** A CRITICAL SYSTEM ERROR OCCURRED: "
                            +:+ exc_str e +:+ " ***"));;
              finally;;
              ret (Traceback "NameError: name 'kos_utility' is not defined")) (world loop)
         | Returned _ => ret StillRunning (world loop)
         end)
  end.

(** ** Further observations and notions *)

(** A token of the form [--key] without [=]: the next token decides what it holds. *)
Definition bare_long (arg : string) : bool :=
  PyStr.startswith "--" arg && negb (PyStr.contains "=" arg).

(** The last token of the list is a bare long option. *)
Definition ends_with_bare_long (l : list string) : bool :=
  match last l with
  | Some t => bare_long t
  | None => false
  end.

(** The delays of a trace, by their base, in order. *)
Definition sleeps (evs : list Event) : list Z :=
  omap (fun e => match e with ESleep d => Some d | _ => None end) evs.

(** The log lines of a trace with their levels, in order. *)
Definition logs (evs : list Event) : list (Level * string) :=
  omap (fun e => match e with ELog l m => Some (l, m) | _ => None end) evs.

(** The levels of the log lines of a trace, in order. *)
Definition log_levels (evs : list Event) : list Level := (logs evs).*1.

(** The context references of the forwarding events of a trace, in order. *)
Definition forward_refs (evs : list Event) : list string :=
  omap (fun e => match e with EForward _ c _ => Some c | _ => None end) evs.

(** The world with another monotonic clock. *)
Definition with_monotonic (clock : Stream Q) (w : World) : World :=
  mkWorld (os_state w) (stdin w) clock (wall_clock w) (random_draws w) (random_ints w)
          (uuids w).

(** What follows a step that ended with [o] in the world [w1]. *)
Definition continue {A B} (o : Outcome A) (k : A -> M B) (w1 : World) : Run B :=
  match o with
  | Returned a => k a w1
  | Raised e => mkRun (Raised e) w1 []
  | Exited c => mkRun (Exited c) w1 []
  end.

(** What follows the body of a [try] that ended with [o]. *)
Definition handle {A} (o : Outcome A) (handler : PyExc -> M A) (w1 : World) : Run A :=
  match o with
  | Raised e => handler e w1
  | _ => mkRun o w1 []
  end.

(** The distance from 144.0 to the next floating-point number. *)
Definition FLOAT_STEP_AT_WARNING : Q := 1 # (2 ^ 45).

(** The rules of [check_operational_mandate] as a decision: the context
    reference of the denial, or [None] when the operation is allowed.
    [draws] are the answers [random.random()] would give, in order. *)
Definition mandate_verdict (required_clearance : string) (now : WallTime) (pending : Z)
    (draws : Stream Q) : option string :=
  if String.eqb required_clearance "FILESYSTEM"
     && (weekday now =? kos_config.LOCKOUT_PRIME_MINUTE_FILESYSTEM_DAY)
     && kos_bureaucracy.minute_is_prime (minute now)
  then Some ("FS-PRIME-" +:+ PyStr.of_Z (minute now))
  else if (10 <? pending) && Qltb (draws 0%nat) (2 # 10)
  then Some ("BACKLOG-" +:+ PyStr.of_Z pending)
  else if Qltb (draws (if 10 <? pending then 1%nat else 0%nat))
               kos_config.LOCKOUT_RANDOM_FAILURE_CHANCE
  then Some "SPOTCHECK-FAIL"
  else None.

(** How many answers of [random.random()] the decision takes. *)
Definition mandate_draws (required_clearance : string) (now : WallTime) (pending : Z)
    (draws : Stream Q) : nat :=
  if String.eqb required_clearance "FILESYSTEM"
     && (weekday now =? kos_config.LOCKOUT_PRIME_MINUTE_FILESYSTEM_DAY)
     && kos_bureaucracy.minute_is_prime (minute now)
  then 0%nat
  else if 10 <? pending then (if Qltb (draws 0%nat) (2 # 10) then 1%nat else 2%nat)
  else 1%nat.

(** The handler the loop finds for the first token of a line. *)
Definition command_handler_of (command_name_raw : string) : option Callable :=
  if PyStr.startswith "./" command_name_raw then COMMANDS !! "./"
  else COMMANDS !! PyStr.lower command_name_raw.

(** The options and the positional arguments the loop hands to the handler:
    for the [./program] syntax the program path is parsed with the rest. *)
Definition command_arguments (line : string) : gmap string ArgVal * list string :=
  let parts := PyStr.split_ws line in
  if PyStr.startswith "./" (hd EmptyString parts) then parse_args parts
  else parse_args (tl parts).

(** The list of tokens the loop hands to [parse_args]. *)
Definition command_arg_list (line : string) : list string :=
  let parts := PyStr.split_ws line in
  if PyStr.startswith "./" (hd EmptyString parts) then parts else tl parts.

(** The reference the loop stores for a command. *)
Definition command_ref (w : World) : string := "CMD-" +:+ PyStr.take 6 (stream_hd (uuids w)).

(** Which exceptions a computation may let escape. *)
Inductive Escapes : Type :=
| Nothing           (* none *)
| InputErrors       (* the exception of a failing item of standard input *)
| Anything.

Definition lets_escape (mode : Escapes) (input : list Stdin) (e : PyExc) : Prop :=
  match mode with
  | Nothing => False
  | InputErrors => InputError e ∈ input
  | Anything => True
  end.

(** A computation started in a state that satisfies [I] ends in a state
    that satisfies [I]; it takes standard input from the front; when it
    exits, the status satisfies [E]; the exceptions it lets escape are those
    of [mode], for the input it started with. *)
Definition run_spec (I : OsState -> Prop) (E : Z -> Prop) (mode : Escapes) {A} (m : M A)
    : Prop :=
  forall w, I (os_state w) ->
    I (os_state (world (m w)))
    /\ stdin (world (m w)) `suffix_of` stdin w
    /\ match outcome (m w) with
       | Returned _ => True
       | Raised e => lets_escape mode (stdin w) e
       | Exited c => E c
       end.

(** No session is open: nobody is authenticated and the timer is off. *)
Definition no_session (s : OsState) : Prop :=
  is_authenticated s = false /\ user_id s = None /\ Qeq_bool (session_start_time s) 0 = true.

(** The process ends with status 0 or 2, or goes on. *)
Definition exit_statuses (c : Z) : Prop := c = 0 \/ c = 2.

(** The line the script logs when an exception escapes the loop. *)
Definition unhandled_exception_line (e : PyExc) : Level * string :=
  (FATAL, "UNHANDLED SYSTEM EXCEPTION in command loop: " +:+ exc_str e).

(** The backlog is the count of the forwardings: a computation raises it by
    the number of forwarding events it leaves. *)
Definition counts_forwardings {A} (m : M A) : Prop :=
  forall w, backlog (world (m w))
            = backlog w + Z.of_nat (length (forward_keys (emitted (m w)))).

(** A timer that takes the call of the handlers, with two arguments, and
    returns as long as the start of the session and the clock satisfy
    [within]: it may read the clock and log, it leaves a clock that still
    satisfies [within], and it touches nothing else. *)
Definition returns_while (within : Q -> Stream Q -> Prop) (check_time : CheckTime) : Prop :=
  forall start step_name w,
    within (session_start_time (os_state w)) (monotonic w) ->
    let r := check_time [start; step_name] w in
    outcome r = Returned tt
    /\ world r = with_monotonic (monotonic (world r)) w
    /\ within (session_start_time (os_state w)) (monotonic (world r))
    /\ forward_keys (emitted r) = []
    /\ forward_refs (emitted r) = []
    /\ prompts (emitted r) = []
    /\ printed (emitted r) = [].

(** Every coming reading of the clock is within the time limit. *)
Definition within_budget (start : Q) (clock : Stream Q) : Prop :=
  forall n, (clock n - start <= inject_Z kos_config.TIME_LIMIT_SECONDS)%Q.

(** [check_time_limit] as the handlers call it: with a first parameter for
    the start of the session, which the body does not use. *)
Definition two_parameter_timer : CheckTime := fun args =>
  match args with
  | [_; step_name] => check_time_limit step_name
  | _ => raise (TypeError "check_time_limit() takes 2 positional arguments")
  end.

(** A session of alice; the confirmation phrase and the name are waiting on
    standard input. *)
Definition complying_world : World :=
  world_of alice_session [Line kos_config.CONFIRMATION_PHRASE; Line "alice"] 2
           (mkWallTime 2 30 0) (1 # 2).

(** The key under which the loop looks a command up. *)
Definition command_key (command_name_raw : string) : string :=
  if PyStr.startswith "./" command_name_raw then "./" else PyStr.lower command_name_raw.

(** The log line of a handler that asks for a session. *)
Definition NO_SESSION : list Event :=
  [ELog ERROR "Operation requires authentication. Use 'klogin'.";
   ESleep kos_config.BASE_MSG_DELAY_MS].

(** * Properties *)

(** ** The string operations on examples *)

Example strip_ex : PyStr.strip "  kls  -p  x " = "kls  -p  x".
Proof. reflexivity. Qed.
Example split_ws_ex : PyStr.split_ws " kls  -p   FS-QUERY-7701 " = ["kls"; "-p"; "FS-QUERY-7701"].
Proof. reflexivity. Qed.
Example split_on_ex : PyStr.split_on "-" "GJC-1234-5678" = ["GJC"; "1234"; "5678"].
Proof. reflexivity. Qed.
Example split_once_ex : PyStr.split_once "=" "--view-mode=audit=x" = ("--view-mode", "audit=x").
Proof. reflexivity. Qed.
Example of_Z_ex : PyStr.of_Z 42 = "42".
Proof. reflexivity. Qed.
Example parse_args_documented_kls :
  parse_args ["/tmp"; "--view-mode=audit"; "-p"; "FS-QUERY-7701"]
  = (<["p" := ArgTrue]> (<["view-mode" := ArgStr "audit"]> ∅), ["/tmp"; "FS-QUERY-7701"]).
Proof. reflexivity. Qed.

(** ** Properties of [parse_args] *)

Section ParseArgs.
Implicit Types (args : gmap string ArgVal) (l positional : list string).

Lemma set_flags_keeps_true chars : forall args k,
  args !! k = Some ArgTrue -> set_flags chars args !! k = Some ArgTrue.
Proof.
  induction chars as [|c t IH]; intros args k Hk; simpl; [done|].
  apply IH. destruct (decide (String c EmptyString = k)) as [->|Hne].
  - by rewrite lookup_insert_eq.
  - by rewrite lookup_insert_ne.
Qed.

Lemma set_flags_sets chars : forall args c,
  PyStr.contains c chars = true -> set_flags chars args !! String c EmptyString = Some ArgTrue.
Proof.
  induction chars as [|d t IH]; intros args c Hc; simpl in *; [done|].
  destruct (Ascii.eqb c d) eqn:E.
  - apply Ascii.eqb_eq in E as ->. apply set_flags_keeps_true, lookup_insert_eq.
  - by apply IH.
Qed.

(** A token that starts with one dash is read alone. *)
Lemma parse_loop_short arg rest args positional :
  PyStr.startswith "-" arg = true -> PyStr.startswith "--" arg = false ->
  parse_loop (arg :: rest) args positional
  = parse_loop rest (set_flags (PyStr.drop 1 arg) args) positional.
Proof. intros H1 H2. cbn [parse_loop]. by rewrite H2, H1. Qed.

(** A token without a leading dash is positional. *)
Lemma parse_loop_positional arg rest args positional :
  PyStr.startswith "-" arg = false ->
  parse_loop (arg :: rest) args positional = parse_loop rest args (positional ++ [arg]).
Proof.
  intros H1. cbn [parse_loop].
  assert (PyStr.startswith "--" arg = false) as ->.
  { destruct arg as [|c arg']; [done|]. cbn [PyStr.startswith] in *.
    destruct (Ascii.eqb "-" c); [|done]. by destruct arg'. }
  by rewrite H1.
Qed.

(** The loop only ever appends to the positional list. *)
Lemma parse_loop_positional_grows n : forall l args positional,
  (length l <= n)%nat ->
  exists more, (parse_loop l args positional).2 = positional ++ more.
Proof.
  induction n as [|n IH]; intros l args positional Hn.
  - destruct l; [|simpl in Hn; lia]. exists []. simpl. by rewrite app_nil_r.
  - destruct l as [|arg rest]; [exists []; simpl; by rewrite app_nil_r|].
    simpl in Hn. cbn [parse_loop].
    destruct (PyStr.startswith "--" arg).
    + destruct (PyStr.contains "=" arg).
      * destruct (PyStr.split_once "=" arg). apply IH. lia.
      * destruct rest as [|next rest']; [apply IH; simpl; lia|].
        destruct (negb (PyStr.startswith "-" next)); apply IH; simpl in *; lia.
    + destruct (PyStr.startswith "-" arg); [apply IH; lia|].
      destruct (IH rest args (positional ++ [arg])) as [more Hm]; [lia|].
      exists (arg :: more). rewrite Hm. by rewrite <- app_assoc.
Qed.

(** Once [p] is [True] only a long option named [p] can change it. *)
Lemma parse_loop_keeps_p n : forall l args positional,
  (length l <= n)%nat ->
  args !! "p" = Some ArgTrue ->
  Forall (fun t => long_key t <> Some "p") l ->
  (parse_loop l args positional).1 !! "p" = Some ArgTrue.
Proof.
  induction n as [|n IH]; intros l args positional Hn Hp Hl.
  - destruct l; [done|simpl in Hn; lia].
  - destruct l as [|arg rest]; [done|].
    simpl in Hn. apply Forall_cons in Hl as [Harg Hrest].
    unfold long_key in Harg. cbn [parse_loop].
    destruct (PyStr.startswith "--" arg).
    + destruct (PyStr.contains "=" arg).
      * destruct (PyStr.split_once "=" arg) as [key value]. cbn [fst] in Harg.
        apply IH; [lia| |done]. rewrite lookup_insert_ne; [done|congruence].
      * assert (<[PyStr.drop 2 arg:=ArgTrue]> args !! "p" = Some ArgTrue) as Ht.
        { rewrite lookup_insert_ne; [done|congruence]. }
        destruct rest as [|next rest']; [by apply IH; [simpl; lia|..]|].
        destruct (negb (PyStr.startswith "-" next)).
        -- apply Forall_cons in Hrest as [_ Hrest'].
           apply IH; [simpl in *; lia| |done].
           rewrite lookup_insert_ne; [done|congruence].
        -- apply IH; [simpl in *; lia|done|done].
    + destruct (PyStr.startswith "-" arg).
      * apply IH; [lia| |done]. by apply set_flags_keeps_true.
      * apply IH; [lia|done|done].
Qed.

(** No token before it swallows a token that starts with a dash: the loop
    reaches it as the current token. *)
Lemma parse_loop_reaches_flag (P : gmap string ArgVal * list string -> Prop) flag rest :
  PyStr.startswith "-" flag = true ->
  (forall args' positional', P (parse_loop (flag :: rest) args' positional')) ->
  forall n before args positional,
    (length before <= n)%nat ->
    P (parse_loop (before ++ flag :: rest) args positional).
Proof.
  intros Hflag HP.
  induction n as [|n IH]; intros before args positional Hn.
  - destruct before; [apply HP|simpl in Hn; lia].
  - destruct before as [|arg before]; [apply HP|].
    simpl in Hn. rewrite <- app_comm_cons.
    cbn [parse_loop].
    destruct (PyStr.startswith "--" arg).
    + destruct (PyStr.contains "=" arg).
      * destruct (PyStr.split_once "=" arg). apply IH. lia.
      * destruct before as [|next before'].
        -- cbn [app]. rewrite Hflag. cbn [negb]. apply HP.
        -- rewrite <- app_comm_cons.
           destruct (negb (PyStr.startswith "-" next)).
           ++ apply IH. simpl in *; lia.
           ++ rewrite app_comm_cons. apply IH. simpl in *; lia.
    + destruct (PyStr.startswith "-" arg); apply IH; lia.
Qed.

Lemma purpose_poisoned_by_flag args : forall expected,
  args !! "p" = Some ArgTrue -> eq_str (purpose_code_of args) expected = false.
Proof. intros expected Hp. unfold purpose_code_of, dict_get, py_or. by rewrite Hp. Qed.

End ParseArgs.

(** C5.  A token that begins with a single dash (and not with two) sets each
    character after the dash to [True] and takes no value: the loop goes on
    with the very next token, which is positional when it does not start
    with a dash; and wherever such a token stands in the argument list, the
    loop reads it so (no token before it takes it as a value).  Hence, in an invocation that passes the purpose code as
    [-p CODE] (and names no long option [--p] afterwards), the key [p] holds
    [True], [CODE] is a positional argument, and the handlers' comparison of
    [args_dict.get('p') or args_dict.get('purpose')] with a purpose-code
    string is false whatever the expected string is. *)
Theorem C5_single_dash_flag_takes_no_value :
  (forall arg rest args positional,
     PyStr.startswith "-" arg = true -> PyStr.startswith "--" arg = false ->
     parse_loop (arg :: rest) args positional
       = parse_loop rest (set_flags (PyStr.drop 1 arg) args) positional
     /\ (forall c, PyStr.contains c (PyStr.drop 1 arg) = true ->
           set_flags (PyStr.drop 1 arg) args !! String c EmptyString = Some ArgTrue)
     /\ (forall next rest', rest = next :: rest' -> PyStr.startswith "-" next = false ->
           parse_loop (arg :: rest) args positional
           = parse_loop rest' (set_flags (PyStr.drop 1 arg) args) (positional ++ [next]))
     /\ (forall before, exists args' positional',
           parse_args (before ++ arg :: rest)
           = parse_loop rest (set_flags (PyStr.drop 1 arg) args') positional'))
  /\ (forall before code after,
        PyStr.startswith "-" code = false ->
        Forall (fun t => long_key t <> Some "p") after ->
        let r := parse_args (before ++ "-p" :: code :: after) in
        dict_get r.1 "p" = Some ArgTrue
        /\ code ∈ r.2
        /\ forall expected, eq_str (purpose_code_of r.1) expected = false).
Proof.
  split.
  - intros arg rest args positional H1 H2. split; [|split; [|split]].
    + by apply parse_loop_short.
    + intros c Hc. by apply set_flags_sets.
    + intros next rest' -> Hnext.
      rewrite parse_loop_short by done. by apply parse_loop_positional.
    + intros before. unfold parse_args.
      apply (parse_loop_reaches_flag
               (fun r => exists args' positional',
                    r = parse_loop rest (set_flags (PyStr.drop 1 arg) args') positional')
               arg rest H1) with (n := length before); [|lia].
      intros args' positional'. exists args', positional'. by apply parse_loop_short.
  - intros before code after Hcode Hafter r.
    assert (dict_get r.1 "p" = Some ArgTrue /\ code ∈ r.2) as [Hp Hin].
    { subst r. unfold parse_args.
      apply (parse_loop_reaches_flag
               (fun r => dict_get r.1 "p" = Some ArgTrue /\ code ∈ r.2)
               "-p" (code :: after) eq_refl) with (n := length before); [|lia].
      intros args' positional'.
      rewrite parse_loop_short by done.
      rewrite parse_loop_positional by done.
      split.
      - apply (parse_loop_keeps_p (length after)); [lia| |done].
        by apply (set_flags_sets (PyStr.drop 1 "-p") args' "p"%char).
      - destruct (parse_loop_positional_grows (length after) after
                    (set_flags (PyStr.drop 1 "-p") args') (positional' ++ [code]))
          as [more ->]; [lia|].
        set_solver. }
    split; [done|]. split; [done|].
    intros expected. by apply purpose_poisoned_by_flag.
Qed.

(** The documented invocation [kls /tmp --view-mode=audit -p FS-QUERY-7701]. *)
Lemma C5_documented_kls_witness :
  let r := parse_args (["/tmp"; "--view-mode=audit"] ++ "-p" :: "FS-QUERY-7701" :: []) in
  (parse_loop ("-p" :: ["FS-QUERY-7701"]) ∅ []
   = parse_loop [] (set_flags (PyStr.drop 1 "-p") ∅) ([] ++ ["FS-QUERY-7701"]))
  /\ dict_get r.1 "p" = Some ArgTrue
  /\ "FS-QUERY-7701" ∈ r.2
  /\ eq_str (purpose_code_of r.1) kos_config.STANDARD_PURPOSE_CODE_FS = false.
Proof.
  destruct C5_single_dash_flag_takes_no_value as [Hshort Hdoc].
  destruct (Hshort "-p" ["FS-QUERY-7701"] ∅ [] eq_refl eq_refl) as (_ & _ & Hnext & _).
  destruct (Hdoc ["/tmp"; "--view-mode=audit"] "FS-QUERY-7701" [] eq_refl (proj2 (Forall_nil _) I))
    as (Hp & Hin & Hcmp).
  split; [exact (Hnext "FS-QUERY-7701" [] eq_refl eq_refl)|].
  split; [exact Hp|]. split; [exact Hin|]. exact (Hcmp _).
Defined.

(** ** The primality test of mandate rule 1 *)

Section PrimeMinute.
Import kos_bureaucracy.

Lemma elem_of_range lo hi i : i ∈ range lo hi <-> lo <= i < hi.
Proof.
  unfold range. rewrite list_elem_of_fmap. split.
  - intros (k & -> & Hk). apply elem_of_seq in Hk. lia.
  - intros Hi. exists (Z.to_nat (i - lo)). split; [lia|].
    apply elem_of_seq. lia.
Qed.

Lemma trial_division_true minute candidates :
  trial_division minute candidates = true
  <-> forall i, i ∈ candidates -> minute mod i <> 0.
Proof.
  induction candidates as [|c cs IH]; simpl.
  - split; [intros _ i Hi; by apply elem_of_nil in Hi|done].
  - destruct (Z.eqb_spec (minute mod c) 0) as [E|E].
    + split; [done|]. intros H. exfalso. apply (H c); [left|done].
    + rewrite IH. split.
      * intros H i Hi. apply elem_of_cons in Hi as [->|Hi]; [done|by apply H].
      * intros H i Hi. apply H. by right.
Qed.

(** A proper divisor comes with a cofactor, and one of the two is at most
    the square root. *)
Lemma small_divisor m d :
  2 <= m -> 1 < d < m -> (d | m) ->
  exists i, 2 <= i <= Z.sqrt m /\ m mod i = 0.
Proof.
  intros Hm Hd [q Hq].
  assert (1 < q) as Hq1 by nia.
  pose proof (Z.sqrt_spec m ltac:(lia)) as [Hlo Hhi].
  destruct (Z_le_gt_dec d (Z.sqrt m)) as [Hle|Hgt].
  - exists d. split; [lia|]. apply Z.mod_divide; [lia|]. by exists q.
  - exists q. split.
    + split; [lia|]. destruct (Z_le_gt_dec q (Z.sqrt m)); [done|]. nia.
    + apply Z.mod_divide; [lia|]. exists d. lia.
Qed.

(** Trial division up to the square root decides primality. *)
Lemma minute_is_prime_correct m : minute_is_prime m = true <-> Z.prime m.
Proof.
  unfold minute_is_prime. destruct (Z.ltb_spec m 2) as [Hlt|Hge].
  - split; [done|]. intros Hp. apply Z.prime_ge_2 in Hp. lia.
  - rewrite trial_division_true. unfold Z.prime. split.
    + intros Hno. split; [lia|]. intros d Hd Hdiv.
      destruct (small_divisor m d Hge Hd Hdiv) as (i & Hi & Hmod).
      apply (Hno i); [|done]. apply elem_of_range. lia.
    + intros [_ Hno] i Hi Hmod. apply elem_of_range in Hi.
      assert (Z.sqrt m < m) by (apply Z.sqrt_lt_lin; lia).
      apply (Hno i); [lia|]. apply Z.mod_divide; [lia|done].
Qed.

End PrimeMinute.

(** ** Stepping through runs *)

Section Runs.
Context {A B : Type}.
Implicit Types (m : M A) (k : A -> M B) (w : World).

Lemma run_eta (r : Run A) : mkRun (outcome r) (world r) (emitted r) = r.
Proof. by destruct r. Qed.

Lemma prepend_nil (r : Run A) : prepend [] r = r.
Proof. by destruct r. Qed.

Lemma prepend_prepend evs evs' (r : Run A) :
  prepend evs (prepend evs' r) = prepend (evs ++ evs') r.
Proof. unfold prepend. simpl. by rewrite app_assoc. Qed.

Lemma bind_returned m k w a :
  outcome (m w) = Returned a ->
  bind m k w = prepend (emitted (m w)) (k a (world (m w))).
Proof. intros H. unfold bind, prepend. by rewrite H. Qed.

Lemma bind_raised m k w e :
  outcome (m w) = Raised e ->
  bind m k w = mkRun (Raised e) (world (m w)) (emitted (m w)).
Proof. intros H. unfold bind. by rewrite H. Qed.

Lemma bind_exited m k w c :
  outcome (m w) = Exited c ->
  bind m k w = mkRun (Exited c) (world (m w)) (emitted (m w)).
Proof. intros H. unfold bind. by rewrite H. Qed.

(** A step that returns [a], leaves the world [w'] and emits [evs]. *)
Lemma bind_step m k w a w' evs :
  m w = mkRun (Returned a) w' evs ->
  bind m k w = prepend evs (k a w').
Proof. intros H. unfold bind, prepend. by rewrite H. Qed.

End Runs.

Lemma bind_assoc {A B C} (m : M A) (f : A -> M B) (g : B -> M C) w :
  bind (bind m f) g w = bind m (fun x => bind (f x) g) w.
Proof.
  unfold bind. destruct (m w) as [[a|e|c] w1 evs1]; simpl; [|done|done].
  destruct (f a w1) as [[b|e|c] w2 evs2]; simpl; [|done|done].
  by rewrite app_assoc.
Qed.

Section Blocks.
Context {B : Type}.
Implicit Types (k : unit -> M B) (w : World).

Lemma log_run message level w :
  kos_bureaucracy.log_system_message message level w
  = mkRun (Returned tt) w [ELog level message; ESleep kos_config.BASE_MSG_DELAY_MS].
Proof. reflexivity. Qed.

Lemma friction_run reason w :
  kos_bureaucracy.apply_procedural_friction reason w
  = mkRun (Returned tt) w (friction_events reason (backlog w)).
Proof.
  unfold kos_bureaucracy.apply_procedural_friction, friction_events, backlog, bind.
  simpl. by destruct (_ <? _).
Qed.

Lemma check_run check_name base w :
  kos_bureaucracy.perform_simulated_check check_name base w
  = mkRun (Returned (true, PyStr.upper (PyStr.take 3 check_name) +:+ "-"
                           +:+ PyStr.take 6 (stream_hd (uuids w))))
          (next_uuid w) (check_events check_name base (stream_hd (uuids w))).
Proof. reflexivity. Qed.

Lemma forwarding_run entity_key context_ref detail w :
  kos_bureaucracy.simulate_forwarding entity_key context_ref detail w
  = mkRun (Returned tt) (with_os_state (forwarded (os_state w)) (next_uuid w))
          (forwarding_events entity_key context_ref detail (stream_hd (uuids w)) (backlog w)).
Proof. reflexivity. Qed.

Lemma bind_log message level k w :
  bind (kos_bureaucracy.log_system_message message level) k w
  = prepend [ELog level message; ESleep kos_config.BASE_MSG_DELAY_MS] (k tt w).
Proof. reflexivity. Qed.

Lemma bind_friction reason k w :
  bind (kos_bureaucracy.apply_procedural_friction reason) k w
  = prepend (friction_events reason (backlog w)) (k tt w).
Proof. apply bind_step, friction_run. Qed.

Lemma bind_forwarding entity_key context_ref detail k w :
  bind (kos_bureaucracy.simulate_forwarding entity_key context_ref detail) k w
  = prepend (forwarding_events entity_key context_ref detail (stream_hd (uuids w)) (backlog w))
            (k tt (with_os_state (forwarded (os_state w)) (next_uuid w))).
Proof. reflexivity. Qed.

End Blocks.

Lemma forward_keys_app l1 l2 : forward_keys (l1 ++ l2) = forward_keys l1 ++ forward_keys l2.
Proof. apply omap_app. Qed.

Lemma forward_keys_friction reason pending : forward_keys (friction_events reason pending) = [].
Proof. unfold friction_events. by destruct (_ <? _). Qed.

Lemma forward_keys_check name base u : forward_keys (check_events name base u) = [].
Proof. reflexivity. Qed.

Lemma forward_keys_forwarding key ctx detail u pending :
  forward_keys (forwarding_events key ctx detail u pending) = [key].
Proof. reflexivity. Qed.

Lemma prompts_app l1 l2 : prompts (l1 ++ l2) = prompts l1 ++ prompts l2.
Proof. apply omap_app. Qed.

Lemma prompts_friction reason pending : prompts (friction_events reason pending) = [].
Proof. unfold friction_events. by destruct (_ <? _). Qed.

Lemma prompts_check name base u : prompts (check_events name base u) = [].
Proof. reflexivity. Qed.

Lemma prompts_forwarding key ctx detail u pending :
  prompts (forwarding_events key ctx detail u pending) = [].
Proof. reflexivity. Qed.

Lemma friction_reasons_app l1 l2 :
  friction_reasons (l1 ++ l2) = friction_reasons l1 ++ friction_reasons l2.
Proof. apply omap_app. Qed.

Lemma friction_reasons_friction reason pending :
  friction_reasons (friction_events reason pending) = [reason].
Proof. unfold friction_events. by destruct (_ <? _). Qed.

Lemma friction_reasons_check name base u : friction_reasons (check_events name base u) = [].
Proof. reflexivity. Qed.

Lemma friction_reasons_forwarding key ctx detail u pending :
  friction_reasons (forwarding_events key ctx detail u pending) = [].
Proof. reflexivity. Qed.

Section Primitives.
Context {B : Type}.

Lemma bind_silent {A} (m : M A) (k : A -> M B) w a w' :
  m w = mkRun (Returned a) w' [] -> bind m k w = k a w'.
Proof. intros H. rewrite (bind_step _ _ _ _ _ _ H). apply prepend_nil. Qed.

Lemma bind_ret {A} (a : A) (k : A -> M B) w : bind (ret a) k w = k a w.
Proof. by apply bind_silent. Qed.

Lemma bind_get_state (k : OsState -> M B) w : bind get_state k w = k (os_state w) w.
Proof. by apply bind_silent. Qed.

Lemma bind_modify_state f (k : unit -> M B) w :
  bind (modify_state f) k w = k tt (with_os_state (f (os_state w)) w).
Proof. by apply bind_silent. Qed.

Lemma bind_datetime_now (k : WallTime -> M B) w :
  bind datetime_now k w = k (stream_hd (wall_clock w)) (world (datetime_now w)).
Proof. by apply bind_silent. Qed.

Lemma bind_time_monotonic (k : Q -> M B) w :
  bind time_monotonic k w = k (stream_hd (monotonic w)) (world (time_monotonic w)).
Proof. by apply bind_silent. Qed.

Lemma bind_random_random (k : Q -> M B) w :
  bind random_random k w = k (stream_hd (random_draws w)) (world (random_random w)).
Proof. by apply bind_silent. Qed.

Lemma bind_pseudo_uuid (k : string -> M B) w :
  bind kos_utility.pseudo_uuid k w = k (stream_hd (uuids w)) (next_uuid w).
Proof. by apply bind_silent. Qed.

Lemma bind_emit e (k : unit -> M B) w : bind (emit e) k w = prepend [e] (k tt w).
Proof. by apply bind_step. Qed.

Lemma bind_sleep_random d (k : unit -> M B) w :
  bind (kos_utility.sleep_random d) k w = prepend [ESleep d] (k tt w).
Proof. by apply bind_step. Qed.

Lemma bind_check name base (k : bool * string -> M B) w :
  bind (kos_bureaucracy.perform_simulated_check name base) k w
  = prepend (check_events name base (stream_hd (uuids w)))
      (k (true, PyStr.upper (PyStr.take 3 name) +:+ "-" +:+ PyStr.take 6 (stream_hd (uuids w)))
         (next_uuid w)).
Proof. apply bind_step, check_run. Qed.

Lemma bind_raise {A} e (k : A -> M B) w : bind (raise e) k w = mkRun (Raised e) w [].
Proof. reflexivity. Qed.

Lemma bind_sys_exit {A} c (k : A -> M B) w : bind (sys_exit c) k w = mkRun (Exited c) w [].
Proof. reflexivity. Qed.
End Primitives.

Lemma outcome_prepend {A} evs (r : Run A) : outcome (prepend evs r) = outcome r.
Proof. done. Qed.
Lemma world_prepend {A} evs (r : Run A) : world (prepend evs r) = world r.
Proof. done. Qed.
Lemma emitted_prepend {A} evs (r : Run A) : emitted (prepend evs r) = evs ++ emitted r.
Proof. done. Qed.

#[local] Opaque kos_bureaucracy.log_system_message kos_bureaucracy.apply_procedural_friction
  kos_bureaucracy.perform_simulated_check kos_bureaucracy.simulate_forwarding
  kos_bureaucracy.REVIEW_ENTITIES.

#[local] Opaque check_events forwarding_events friction_events.

(** One step of a run: the first [bind] of the goal is resolved by the
    equation of its first component; a test in the way is split. *)
Ltac run_step :=
  lazymatch goal with
  | |- context [bind ?m _ _] =>
      lazymatch m with
      | ret _ => rewrite bind_ret
      | get_state => rewrite bind_get_state
      | modify_state _ => rewrite bind_modify_state
      | datetime_now => rewrite bind_datetime_now
      | time_monotonic => rewrite bind_time_monotonic
      | random_random => rewrite bind_random_random
      | kos_utility.pseudo_uuid => rewrite bind_pseudo_uuid
      | emit _ => rewrite bind_emit
      | kos_utility.sleep_random _ => rewrite bind_sleep_random
      | kos_bureaucracy.log_system_message _ _ => rewrite bind_log
      | kos_bureaucracy.apply_procedural_friction _ => rewrite bind_friction
      | kos_bureaucracy.simulate_forwarding _ _ _ => rewrite bind_forwarding
      | kos_bureaucracy.perform_simulated_check _ _ => rewrite bind_check
      | raise _ => rewrite bind_raise
      | sys_exit _ => rewrite bind_sys_exit
      | bind _ _ => rewrite bind_assoc
      | (if ?c then _ else _) => destruct c eqn:?
      end
  | |- context [(if ?c then _ else _) ?w] =>
      lazymatch type of w with World => destruct c eqn:? end
  end.

(** Once its steps are rewritten a run is a record: its outcome, its last
    world and its events. *)
Lemma prepend_mkRun {A} evs (o : Outcome A) w evs' :
  prepend evs (mkRun o w evs') = mkRun o w (evs ++ evs').
Proof. reflexivity. Qed.

Lemma ret_run {A} (a : A) w : ret a w = mkRun (Returned a) w [].
Proof. reflexivity. Qed.

Lemma raise_run {A} e w : @raise A e w = mkRun (Raised e) w [].
Proof. reflexivity. Qed.

Lemma sys_exit_run {A} c w : @sys_exit A c w = mkRun (Exited c) w [].
Proof. reflexivity. Qed.

Lemma emit_run e w : emit e w = mkRun (Returned tt) w [e].
Proof. reflexivity. Qed.

Lemma sleep_run d w : kos_utility.sleep_random d w = mkRun (Returned tt) w [ESleep d].
Proof. reflexivity. Qed.

Lemma modify_state_run f w :
  modify_state f w = mkRun (Returned tt) (with_os_state (f (os_state w)) w) [].
Proof. reflexivity. Qed.

Ltac close_run :=
  rewrite ?ret_run, ?raise_run, ?sys_exit_run, ?log_run, ?friction_run, ?forwarding_run,
          ?check_run, ?emit_run, ?sleep_run, ?modify_state_run;
  rewrite ?prepend_mkRun.

(** The forwarding keys, the prompts and the friction calls of a closed
    run. *)
Ltac observe_run :=
  rewrite ?forward_keys_app, ?prompts_app, ?friction_reasons_app;
  rewrite ?forward_keys_friction, ?forward_keys_forwarding, ?forward_keys_check,
          ?prompts_friction, ?prompts_forwarding, ?prompts_check,
          ?friction_reasons_friction, ?friction_reasons_forwarding, ?friction_reasons_check;
  cbn [forward_keys prompts friction_reasons omap app].
Ltac forward_keys_run := observe_run.

(** The fields of the last world of a closed run. *)
Ltac world_run :=
  cbn [os_state with_os_state next_uuid forwarded pending_reviews backlog world
       datetime_now random_random time_monotonic kos_utility.pseudo_uuid
       stdin random_draws uuids monotonic wall_clock random_ints user_id is_authenticated
       session_start_time current_directory last_command_ref].

Lemma Qltb_true a b : Qltb a b = true <-> (a < b)%Q.
Proof.
  unfold Qltb. rewrite negb_true_iff, <- not_true_iff_false, Qle_bool_iff.
  split; [apply Qnot_le_lt|apply Qlt_not_le].
Qed.

Lemma Qltb_false a b : Qltb a b = false <-> (b <= a)%Q.
Proof. unfold Qltb. by rewrite negb_false_iff, Qle_bool_iff. Qed.

(** ** The operational mandate *)

Lemma mandate_denies_or_allows clearance w :
  denies_or_allows w (kos_bureaucracy.check_operational_mandate clearance w).
Proof.
  unfold kos_bureaucracy.check_operational_mandate. cbv zeta.
  repeat run_step; close_run; unfold denies_or_allows; cbn [outcome world emitted];
    forward_keys_run; world_run; auto.
Qed.

(** C10.  Whenever the mandate evaluator returns a denial, whatever rule
    produced it, the call has raised exactly one forwarding event, tagged
    [ARBITRARY_LOCKOUT], and the backlog is one higher than before. *)
Theorem C10_mandate_denial_forwards_once clearance w :
  let r := kos_bureaucracy.check_operational_mandate clearance w in
  outcome r = Returned false ->
  forward_keys (emitted r) = ["ARBITRARY_LOCKOUT"]
  /\ backlog (world r) = backlog w + 1.
Proof.
  intros r Hdeny. subst r.
  destruct (mandate_denies_or_allows clearance w) as [(_ & Hkeys & Hstate)|(Hallow & _)].
  - split; [done|]. unfold backlog. by rewrite Hstate.
  - congruence.
Qed.

(** An allowed operation forwards nothing and leaves the state alone. *)
Lemma mandate_allow_is_silent clearance w :
  let r := kos_bureaucracy.check_operational_mandate clearance w in
  outcome r = Returned true ->
  forward_keys (emitted r) = [] /\ os_state (world r) = os_state w.
Proof.
  intros r Hallow. subst r.
  destruct (mandate_denies_or_allows clearance w) as [(Hdeny & _)|(_ & Hkeys & Hstate)];
    [congruence|done].
Qed.

(** The mandate evaluator always returns a decision. *)
Lemma mandate_returns clearance w :
  exists allowed, outcome (kos_bureaucracy.check_operational_mandate clearance w) = Returned allowed.
Proof.
  destruct (mandate_denies_or_allows clearance w) as [(H & _)|(H & _)]; eauto.
Qed.

(** Rule 1 on its day, at a prime minute. *)
Lemma mandate_prime_minute w :
  weekday (stream_hd (wall_clock w)) = kos_config.LOCKOUT_PRIME_MINUTE_FILESYSTEM_DAY ->
  kos_bureaucracy.minute_is_prime (minute (stream_hd (wall_clock w))) = true ->
  let r := kos_bureaucracy.check_operational_mandate "FILESYSTEM" w in
  outcome r = Returned false
  /\ forward_keys (emitted r) = ["ARBITRARY_LOCKOUT"]
  /\ random_draws (world r) = random_draws w.
Proof.
  intros Hday Hprime.
  unfold kos_bureaucracy.check_operational_mandate. cbv zeta.
  do 4 run_step.
  rewrite Hday, Hprime, String.eqb_refl, Z.eqb_refl. cbn [andb].
  repeat run_step. close_run. cbn [outcome world emitted].
  forward_keys_run. world_run. done.
Qed.

(** Off rule 1 the decision is left to the draws: when no draw falls under
    either threshold the operation is allowed. *)
Lemma mandate_not_prime_minute w :
  kos_bureaucracy.minute_is_prime (minute (stream_hd (wall_clock w))) = false ->
  (forall n, (2 # 10 <= random_draws w n)%Q) ->
  let r := kos_bureaucracy.check_operational_mandate "FILESYSTEM" w in
  outcome r = Returned true /\ forward_keys (emitted r) = [].
Proof.
  intros Hprime Hdraws.
  assert (forall n, Qltb (random_draws w n) (2 # 10) = false) as H2.
  { intros n. by apply Qltb_false. }
  assert (forall n, Qltb (random_draws w n) kos_config.LOCKOUT_RANDOM_FAILURE_CHANCE = false) as H3.
  { intros n. apply Qltb_false. eapply Qle_trans; [|apply (Hdraws n)]. done. }
  unfold kos_bureaucracy.check_operational_mandate. cbv zeta.
  do 4 run_step.
  rewrite Hprime.
  repeat run_step; close_run; cbn [outcome world emitted]; forward_keys_run;
    repeat match goal with
           | H : Qltb _ _ = true |- _ =>
               revert H; world_run; unfold stream_hd, stream_tl; rewrite ?H2, ?H3; done
           end; done.
Qed.

(** At a minute that is not prime the clearance [FILESYSTEM] is judged as
    the clearance [STANDARD] is, to which rule 1 does not apply. *)
Lemma mandate_rule_1_off w :
  kos_bureaucracy.minute_is_prime (minute (stream_hd (wall_clock w))) = false ->
  let r := kos_bureaucracy.check_operational_mandate "FILESYSTEM" w in
  let r' := kos_bureaucracy.check_operational_mandate "STANDARD" w in
  outcome r = outcome r' /\ forward_keys (emitted r) = forward_keys (emitted r').
Proof.
  intros Hprime.
  unfold kos_bureaucracy.check_operational_mandate. cbv zeta.
  assert (forall (b : bool) (y : M bool), (if b then y else y) = y) as Hif by (by intros []).
  rewrite !bind_datetime_now, !bind_get_state, !bind_log, !bind_friction.
  rewrite Hprime. cbv iota. rewrite Hif. cbn [String.eqb Ascii.eqb Bool.eqb andb].
  repeat (run_step; try (match goal with
                         | H : _ = _ |- _ => rewrite ?H
                         end));
    close_run; cbn [outcome world emitted]; observe_run; done.
Qed.

(** C8.  The test of rule 1 is trial division by the candidates from 2 to
    the integer square root, and it decides primality: it is true exactly on
    the prime minutes, false below 2 and false at 4.  With clearance
    [FILESYSTEM] on the configured weekday a prime minute makes the evaluator
    deny, with one [ARBITRARY_LOCKOUT] event and without taking any random
    draw; at a minute that is not prime rule 1 does not fire, and the
    operation is allowed when no draw falls under a threshold, and in
    general decided as for a clearance to which rule 1 does not apply. *)
Theorem C8_prime_minute_rule :
  (forall m, kos_bureaucracy.minute_is_prime m
             = negb (m <? 2)
               && kos_bureaucracy.trial_division m (kos_bureaucracy.range 2 (Z.sqrt m + 1)))
  /\ (forall m, kos_bureaucracy.minute_is_prime m = true <-> Z.prime m)
  /\ (forall m, m < 2 -> kos_bureaucracy.minute_is_prime m = false)
  /\ kos_bureaucracy.minute_is_prime 4 = false
  /\ (forall w,
        weekday (stream_hd (wall_clock w)) = kos_config.LOCKOUT_PRIME_MINUTE_FILESYSTEM_DAY ->
        Z.prime (minute (stream_hd (wall_clock w))) ->
        let r := kos_bureaucracy.check_operational_mandate "FILESYSTEM" w in
        outcome r = Returned false
        /\ forward_keys (emitted r) = ["ARBITRARY_LOCKOUT"]
        /\ random_draws (world r) = random_draws w)
  /\ (forall w,
        weekday (stream_hd (wall_clock w)) = kos_config.LOCKOUT_PRIME_MINUTE_FILESYSTEM_DAY ->
        ~ Z.prime (minute (stream_hd (wall_clock w))) ->
        (forall n, (2 # 10 <= random_draws w n)%Q) ->
        let r := kos_bureaucracy.check_operational_mandate "FILESYSTEM" w in
        outcome r = Returned true /\ forward_keys (emitted r) = [])
  /\ (forall w,
        ~ Z.prime (minute (stream_hd (wall_clock w))) ->
        let r := kos_bureaucracy.check_operational_mandate "FILESYSTEM" w in
        let r' := kos_bureaucracy.check_operational_mandate "STANDARD" w in
        outcome r = outcome r' /\ forward_keys (emitted r) = forward_keys (emitted r')).
Proof.
  split; [|split; [|split; [|split; [|split; [|split]]]]].
  - intros m. unfold kos_bureaucracy.minute_is_prime. by destruct (m <? 2).
  - apply minute_is_prime_correct.
  - intros m Hm. unfold kos_bureaucracy.minute_is_prime.
    by destruct (Z.ltb_spec m 2); [|lia].
  - reflexivity.
  - intros w Hday Hprime. apply mandate_prime_minute; [done|].
    by apply minute_is_prime_correct.
  - intros w _ Hprime Hdraws. apply mandate_not_prime_minute; [|done].
    apply not_true_is_false. by rewrite minute_is_prime_correct.
  - intros w Hprime. apply mandate_rule_1_off.
    apply not_true_is_false. by rewrite minute_is_prime_correct.
Qed.

(** The spot-check rule denies a standard command when the draw is 0. *)
Lemma C10_spot_check_witness :
  let w := world_of initial_os_state [] 0 (mkWallTime 0 30 0) 0 in
  let r := kos_bureaucracy.check_operational_mandate "STANDARD" w in
  forward_keys (emitted r) = ["ARBITRARY_LOCKOUT"] /\ backlog (world r) = backlog w + 1.
Proof.
  apply (C10_mandate_denial_forwards_once "STANDARD"
           (world_of initial_os_state [] 0 (mkWallTime 0 30 0) 0)).
  vm_compute. reflexivity.
Defined.

(** Tuesday, minute 7 and minute 4; the draw 0 would fail every random rule,
    the draw 1/2 passes them. *)
Lemma C8_minute_7_and_4_witness :
  (let r := kos_bureaucracy.check_operational_mandate "FILESYSTEM"
              (world_of alice_session [] 2 (mkWallTime 1 7 0) 0) in
   outcome r = Returned false
   /\ forward_keys (emitted r) = ["ARBITRARY_LOCKOUT"]
   /\ random_draws (world r) = const_stream 0%Q)
  /\ (let r := kos_bureaucracy.check_operational_mandate "FILESYSTEM"
                 (world_of alice_session [] 2 (mkWallTime 1 4 0) (1 # 2)) in
      outcome r = Returned true /\ forward_keys (emitted r) = [])
  /\ kos_bureaucracy.minute_is_prime 1 = false.
Proof.
  destruct C8_prime_minute_rule as (_ & Hprime & Hlow & _ & Hdeny & Hpass & _).
  split; [|split].
  - apply (Hdeny (world_of alice_session [] 2 (mkWallTime 1 7 0) 0)).
    + reflexivity.
    + apply Hprime. vm_compute. reflexivity.
  - apply (Hpass (world_of alice_session [] 2 (mkWallTime 1 4 0) (1 # 2))).
    + reflexivity.
    + intros H. apply Hprime in H. vm_compute in H. discriminate.
    + intros n. vm_compute. discriminate.
  - apply Hlow. lia.
Defined.

(** ** The backlog never decreases *)

Section Nondecreasing.

Lemma nd_ret {A} (a : A) : nondecreasing (ret a).
Proof. intros w. reflexivity. Qed.

Lemma nd_bind {A B} (m : M A) (k : A -> M B) :
  nondecreasing m -> (forall a, nondecreasing (k a)) -> nondecreasing (bind m k).
Proof.
  intros Hm Hk w. unfold bind. specialize (Hm w).
  destruct (outcome (m w)) as [a|e|c]; simpl; [|done|done].
  specialize (Hk a (world (m w))). lia.
Qed.

Lemma nd_try_except {A} (m : M A) (h : PyExc -> M A) :
  nondecreasing m -> (forall e, nondecreasing (h e)) -> nondecreasing (try_except m h).
Proof.
  intros Hm Hh w. unfold try_except. specialize (Hm w).
  destruct (outcome (m w)) as [a|e|c]; simpl; [done| |done].
  specialize (Hh e (world (m w))). lia.
Qed.

Lemma nd_raise {A} e : nondecreasing (@raise A e).
Proof. intros w. reflexivity. Qed.

Lemma nd_sys_exit {A} c : nondecreasing (@sys_exit A c).
Proof. intros w. reflexivity. Qed.

Lemma nd_emit e : nondecreasing (emit e).
Proof. intros w. reflexivity. Qed.

Lemma nd_get_state : nondecreasing get_state.
Proof. intros w. reflexivity. Qed.

Lemma nd_modify_state f :
  (forall s, pending_reviews s <= pending_reviews (f s)) -> nondecreasing (modify_state f).
Proof. intros Hf w. apply Hf. Qed.

Lemma nd_time_monotonic : nondecreasing time_monotonic.
Proof. intros w. reflexivity. Qed.

Lemma nd_datetime_now : nondecreasing datetime_now.
Proof. intros w. reflexivity. Qed.

Lemma nd_random_random : nondecreasing random_random.
Proof. intros w. reflexivity. Qed.

Lemma nd_random_randint lo hi : nondecreasing (random_randint lo hi).
Proof. intros w. reflexivity. Qed.

Lemma nd_read_stdin : nondecreasing read_stdin.
Proof. intros w. unfold read_stdin. by destruct (stdin w). Qed.

Lemma nd_pseudo_uuid : nondecreasing kos_utility.pseudo_uuid.
Proof. intros w. reflexivity. Qed.

Lemma nd_sleep_random d : nondecreasing (kos_utility.sleep_random d).
Proof. intros w. reflexivity. Qed.

Lemma nd_log message level : nondecreasing (kos_bureaucracy.log_system_message message level).
Proof. intros w. by rewrite log_run. Qed.

Lemma nd_friction reason : nondecreasing (kos_bureaucracy.apply_procedural_friction reason).
Proof. intros w. by rewrite friction_run. Qed.

Lemma nd_check name base : nondecreasing (kos_bureaucracy.perform_simulated_check name base).
Proof. intros w. by rewrite check_run. Qed.

Lemma nd_forwarding key ctx detail :
  nondecreasing (kos_bureaucracy.simulate_forwarding key ctx detail).
Proof. intros w. rewrite forwarding_run. unfold backlog. simpl. lia. Qed.

End Nondecreasing.

Create HintDb nd discriminated.
#[local] Hint Resolve nd_ret nd_raise nd_sys_exit nd_emit nd_get_state nd_time_monotonic
  nd_datetime_now nd_random_random nd_random_randint nd_read_stdin nd_pseudo_uuid
  nd_sleep_random nd_log nd_friction nd_check nd_forwarding : nd.

(** The state updates of the handlers leave the backlog alone. *)
Lemma nd_set_user_id v : nondecreasing (modify_state (set_user_id v)).
Proof. by apply nd_modify_state. Qed.
Lemma nd_set_is_authenticated v : nondecreasing (modify_state (set_is_authenticated v)).
Proof. by apply nd_modify_state. Qed.
Lemma nd_set_session_start_time v : nondecreasing (modify_state (set_session_start_time v)).
Proof. by apply nd_modify_state. Qed.
Lemma nd_set_last_command_ref v : nondecreasing (modify_state (set_last_command_ref v)).
Proof. by apply nd_modify_state. Qed.
#[local] Hint Resolve nd_set_user_id nd_set_is_authenticated nd_set_session_start_time
  nd_set_last_command_ref : nd.

(** Follows the structure of a computation: sequences, tests, matches. *)
Ltac nd_step :=
  lazymatch goal with
  | |- nondecreasing (bind _ _) => apply nd_bind; [|intros]
  | |- nondecreasing (try_except _ _) => apply nd_try_except; [|intros]
  | |- nondecreasing (if ?c then _ else _) => destruct c
  | |- nondecreasing (let '(_, _) := ?r in _) => destruct r
  | |- nondecreasing (match ?x with _ => _ end) => destruct x
  | |- nondecreasing _ => solve [auto with nd]
  end.
Ltac nd := cbv zeta; repeat nd_step.

Lemma nd_mandate clearance : nondecreasing (kos_bureaucracy.check_operational_mandate clearance).
Proof. unfold kos_bureaucracy.check_operational_mandate. nd. Qed.

Lemma nd_check_time_limit step_name : nondecreasing (check_time_limit step_name).
Proof. unfold check_time_limit. nd. Qed.

Lemma nd_call_check_time_limit args : nondecreasing (call_check_time_limit args).
Proof.
  unfold call_check_time_limit.
  destruct args as [|a [|b args]]; auto using nd_check_time_limit with nd.
Qed.

Lemma nd_random_choice l : nondecreasing (random_choice l).
Proof. unfold random_choice. nd. Qed.

Lemma nd_for_each {A} (l : list A) (body : A -> M unit) :
  (forall x, nondecreasing (body x)) -> nondecreasing (kos_rejection.for_each l body).
Proof.
  intros Hbody. induction l as [|x l IH]; simpl.
  - apply nd_ret.
  - apply nd_bind; [apply Hbody|done].
Qed.

#[local] Hint Resolve nd_mandate nd_check_time_limit nd_call_check_time_limit
  nd_random_choice : nd.

(** The handlers, for any timer and any input function that leave the
    backlog alone. *)
Section HandlersNondecreasing.
Variable check_time : CheckTime.
Variable get_input_func : InputFunc.
Hypothesis nd_check_time : forall args, nondecreasing (check_time args).
Hypothesis nd_get_input_func : forall prompt, nondecreasing (get_input_func prompt).
Hint Resolve nd_check_time nd_get_input_func : nd.

Lemma nd_verify_action_intent name requires_purpose purpose requires_reauth :
  nondecreasing (kos_bureaucracy.verify_action_intent check_time name get_input_func
                   requires_purpose purpose requires_reauth).
Proof. unfold kos_bureaucracy.verify_action_intent. nd. Qed.
Hint Resolve nd_verify_action_intent : nd.

Lemma nd_handle_login args_dict positional_args :
  nondecreasing (kos_auth.handle_login check_time args_dict positional_args get_input_func).
Proof. unfold kos_auth.handle_login. nd. Qed.

Lemma nd_handle_logout args_dict positional_args :
  nondecreasing (kos_auth.handle_logout args_dict positional_args get_input_func).
Proof. unfold kos_auth.handle_logout. nd. Qed.

Lemma nd_handle_ls args_dict positional_args :
  nondecreasing (kos_fs.handle_ls check_time args_dict positional_args get_input_func).
Proof. unfold kos_fs.handle_ls. nd. Qed.

Lemma nd_handle_status args_dict positional_args :
  nondecreasing (kos_status.handle_status check_time args_dict positional_args get_input_func).
Proof. unfold kos_status.handle_status. nd. Qed.

Lemma nd_handle_exec args_dict positional_args :
  nondecreasing (kos_proc.handle_exec check_time args_dict positional_args get_input_func).
Proof. unfold kos_proc.handle_exec. nd. Qed.

Lemma nd_verification_cycle line cycle :
  nondecreasing (kos_rejection.verification_cycle check_time line get_input_func cycle).
Proof. unfold kos_rejection.verification_cycle. nd. Qed.

Lemma nd_handle_rejected_command name args_dict positional_args :
  nondecreasing (kos_rejection.handle_rejected_command check_time name args_dict
                   positional_args get_input_func).
Proof.
  unfold kos_rejection.handle_rejected_command. nd.
  apply nd_for_each, nd_verification_cycle.
Qed.

End HandlersNondecreasing.

Section ShutdownNondecreasing.
Variable check_time : CheckTime.
Hypothesis nd_check_time : forall args, nondecreasing (check_time args).
Hint Resolve nd_check_time : nd.

Lemma nd_call_input_func get_input_func prompt :
  (forall f, get_input_func = Some f -> forall p, nondecreasing (f p)) ->
  nondecreasing (kos_shutdown.call_input_func get_input_func prompt).
Proof.
  intros H. destruct get_input_func as [f|]; simpl; [by apply (H f)|auto with nd].
Qed.

Lemma nd_handle_shutdown args_dict positional_args get_input_func forced :
  (forall f, get_input_func = Some f -> forall p, nondecreasing (f p)) ->
  nondecreasing (kos_shutdown.handle_shutdown check_time args_dict positional_args
                   get_input_func forced).
Proof.
  intros H. unfold kos_shutdown.handle_shutdown. nd.
  apply nd_verify_action_intent; [done|]. intros p. by apply nd_call_input_func.
Qed.
End ShutdownNondecreasing.

Lemma nd_get_user_input prompt_override : nondecreasing (get_user_input prompt_override).
Proof.
  unfold get_user_input. nd.
  apply nd_handle_shutdown; [apply nd_call_check_time_limit|done].
Qed.

Lemma nd_print_help : nondecreasing print_help.
Proof. unfold print_help. nd. Qed.

Lemma nd_initialize_system : nondecreasing initialize_system.
Proof. unfold initialize_system. nd. Qed.

(** Every entry of the command table. *)
Lemma nd_call_handler key c args_dict positional_args :
  COMMANDS !! key = Some c ->
  nondecreasing (call_handler c args_dict positional_args (fun p => get_user_input (Some p))).
Proof.
  intros Hc. unfold COMMANDS in Hc. cbv zeta in Hc.
  apply elem_of_list_to_map_2 in Hc.
  pose proof nd_call_check_time_limit as Ht.
  assert (forall p, nondecreasing ((fun p => get_user_input (Some p)) p)) as Hi
    by (intros p; apply nd_get_user_input).
  repeat (apply elem_of_cons in Hc as [Hc|Hc];
          [injection Hc as _ ->; cbn [call_handler];
           lazymatch goal with
           | |- nondecreasing (kos_auth.handle_login _ _ _ _) => by apply nd_handle_login
           | |- nondecreasing (kos_auth.handle_logout _ _ _) => by apply nd_handle_logout
           | |- nondecreasing (kos_fs.handle_ls _ _ _ _) => by apply nd_handle_ls
           | |- nondecreasing (kos_proc.handle_exec _ _ _ _) => by apply nd_handle_exec
           | |- nondecreasing (kos_status.handle_status _ _ _ _) => by apply nd_handle_status
           | |- nondecreasing (kos_shutdown.handle_shutdown _ _ _ _ _) =>
               apply nd_handle_shutdown; [done|intros f [= <-]; done]
           | |- nondecreasing (raise _) => apply nd_raise
           end|]).
  by apply elem_of_nil in Hc.
Qed.

Lemma nd_dispatch line : nondecreasing (dispatch line).
Proof.
  unfold dispatch. cbv zeta.
  destruct (PyStr.startswith "./" _); destruct (parse_args _) as [args_dict positional_args].
  all: match goal with
       | |- context [match ?h with Some _ => _ | None => _ end] => destruct h as [c|] eqn:Hc
       end.
  all: nd.
  all: eauto using nd_call_handler.
Qed.

Lemma nd_command_loop_body : nondecreasing command_loop_body.
Proof. unfold command_loop_body. nd. all: auto using nd_get_user_input, nd_dispatch. Qed.

Lemma nd_command_loop fuel : nondecreasing (command_loop fuel).
Proof. induction fuel as [|n IH]; simpl; nd. apply nd_command_loop_body. Qed.

Lemma nd_input_func prompt : nondecreasing (input_func prompt).
Proof. apply nd_get_user_input. Qed.

Lemma nd_run_op op : nondecreasing (run_op op).
Proof.
  pose proof nd_call_check_time_limit as Ht.
  pose proof nd_input_func as Hi.
  destruct op; cbn [run_op].
  - apply nd_forwarding.
  - apply nd_friction.
  - nd.
  - apply nd_call_check_time_limit.
  - apply nd_bind; [by apply nd_verify_action_intent|intros; apply nd_ret].
  - by apply nd_handle_login.
  - by apply nd_handle_logout.
  - by apply nd_handle_ls.
  - by apply nd_handle_exec.
  - by apply nd_handle_status.
  - apply nd_handle_shutdown; [done|]. by intros f [= <-].
  - by apply nd_handle_rejected_command.
  - apply nd_dispatch.
  - apply nd_command_loop_body.
  - apply nd_initialize_system.
Qed.

(** C7.  A call of [simulate_forwarding] always returns and leaves the
    backlog exactly one higher; no operation of the engine lowers the
    backlog; so the backlog after any sequence of engine operations, and
    after any number of passes of the command loop, is at least the backlog
    before it. *)
Theorem C7_backlog_never_decreases :
  (forall entity_key context_ref detail w,
     let r := kos_bureaucracy.simulate_forwarding entity_key context_ref detail w in
     outcome r = Returned tt /\ backlog (world r) = backlog w + 1)
  /\ (forall op w, backlog w <= backlog (world (run_op op w)))
  /\ (forall ops w, backlog w <= backlog (world (run_ops ops w)))
  /\ (forall fuel w, backlog w <= backlog (world (command_loop fuel w))).
Proof.
  split; [|split; [|split]].
  - intros entity_key context_ref detail w. by rewrite forwarding_run.
  - apply nd_run_op.
  - intros ops. apply nd_for_each, nd_run_op.
  - apply nd_command_loop.
Qed.

(** ** Reading a line *)

Lemma bind_read_stdin {B} (k : Stdin -> M B) w x rest :
  stdin w = x :: rest -> bind read_stdin k w = k x (with_stdin rest w).
Proof.
  intros H. apply bind_silent. unfold read_stdin. by rewrite H.
Qed.

Lemma get_user_input_line prompt_override w text rest :
  stdin w = Line text :: rest ->
  get_user_input prompt_override w
  = mkRun (Returned (PyStr.strip text)) (with_stdin rest w)
          (input_events prompt_override (os_state w) text).
Proof.
  intros Hin. unfold get_user_input. cbv zeta.
  do 2 run_step. rewrite (bind_read_stdin _ _ _ _ Hin).
  repeat run_step. close_run. reflexivity.
Qed.

Lemma bind_input_line {B} prompt (k : string -> M B) w text rest :
  stdin w = Line text :: rest ->
  bind (input_func prompt) k w
  = prepend (input_events (Some prompt) (os_state w) text)
            (k (PyStr.strip text) (with_stdin rest w)).
Proof. intros Hin. apply bind_step. by apply get_user_input_line. Qed.

Lemma forward_keys_input po s text : forward_keys (input_events po s text) = [].
Proof. reflexivity. Qed.

(** ** The time limit *)

Lemma check_time_limit_timer_off step_name w :
  Qeq_bool (session_start_time (os_state w)) 0 = true ->
  check_time_limit step_name w = mkRun (Returned tt) w [].
Proof.
  intros H. unfold check_time_limit. run_step. by rewrite H.
Qed.

(** [check_time_limit], entered with the budget spent, exits with status 2. *)
Lemma check_time_limit_exits step_name w :
  budget_exhausted w ->
  outcome (check_time_limit step_name w) = Exited 2
  /\ os_state (world (check_time_limit step_name w)) = os_state w.
Proof.
  intros [Hon Hover]. apply Qltb_true in Hover.
  unfold check_time_limit. cbv zeta. run_step. rewrite Hon. run_step.
  rewrite Hover. repeat run_step; close_run; done.
Qed.

(** Whatever is put after a call that exits does not run, and the handler
    of [except Exception] does not see the exit. *)
Lemma exit_propagates {A B} (m : M A) (k : A -> M B) w c :
  outcome (m w) = Exited c -> bind m k w = mkRun (Exited c) (world (m w)) (emitted (m w)).
Proof. apply bind_exited. Qed.

Lemma exit_not_caught {A} (m : M A) (h : PyExc -> M A) w c :
  outcome (m w) = Exited c -> try_except m h w = m w.
Proof. intros H. unfold try_except. by rewrite H. Qed.

(** A call with two positional arguments never enters the function. *)
Lemma call_check_time_limit_two_arguments a b w :
  call_check_time_limit [a; b] w
  = mkRun (Raised (TypeError
      "check_time_limit() takes from 0 to 1 positional arguments but 2 were given")) w [].
Proof. reflexivity. Qed.

Lemma bind_call_two_arguments {B} a b (k : unit -> M B) w :
  bind (call_check_time_limit [a; b]) k w
  = mkRun (Raised (TypeError
      "check_time_limit() takes from 0 to 1 positional arguments but 2 were given")) w [].
Proof. reflexivity. Qed.

(** ** What the call sites of the timer do

    Every handler reads the timer from [os_state['utils']] and calls it with
    the stored start time and a label.  The function kos_core.py stores there
    takes the label only. *)

(** The intent verification raises before its confirmation step, whatever
    it is asked to verify. *)
Lemma verify_action_intent_raises name get_input_func rp pc rr w :
  kos_bureaucracy.verify_action_intent call_check_time_limit name get_input_func rp pc rr w
  = mkRun (Raised ARITY_ERROR) w
      [ELog INFO ("PROC_VERIFY: Initiating Intent Verification Protocol for '" +:+ name +:+ "'.");
       ESleep kos_config.BASE_MSG_DELAY_MS].
Proof.
  unfold kos_bureaucracy.verify_action_intent. cbv zeta.
  do 2 run_step. rewrite bind_call_two_arguments. by close_run.
Qed.

(** [klogin] without an open session raises before it asks for a name. *)
Lemma handle_login_raises args_dict positional_args get_input_func w :
  is_authenticated (os_state w) = false ->
  kos_auth.handle_login call_check_time_limit args_dict positional_args get_input_func w
  = mkRun (Raised ARITY_ERROR) w
      [ELog INFO "Authentication sequence initiated via klogin.";
       ESleep kos_config.BASE_MSG_DELAY_MS].
Proof.
  intros Hauth. unfold kos_auth.handle_login. cbv zeta.
  do 2 run_step. rewrite Hauth. rewrite bind_call_two_arguments. by close_run.
Qed.

(** [kls] in an open session raises at its budget check. *)
Lemma handle_ls_raises args_dict positional_args get_input_func w :
  is_authenticated (os_state w) = true ->
  kos_fs.handle_ls call_check_time_limit args_dict positional_args get_input_func w
  = mkRun (Raised ARITY_ERROR) w [].
Proof.
  intros Hauth. unfold kos_fs.handle_ls. cbv zeta.
  run_step. rewrite Hauth. cbn [negb]. by rewrite bind_call_two_arguments.
Qed.

Lemma handle_exec_raises args_dict positional_args get_input_func w :
  is_authenticated (os_state w) = true ->
  kos_proc.handle_exec call_check_time_limit args_dict positional_args get_input_func w
  = mkRun (Raised ARITY_ERROR) w [].
Proof.
  intros Hauth. unfold kos_proc.handle_exec. cbv zeta.
  run_step. rewrite Hauth. cbn [negb]. by rewrite bind_call_two_arguments.
Qed.

Lemma handle_status_raises args_dict positional_args get_input_func w :
  is_authenticated (os_state w) = true ->
  kos_status.handle_status call_check_time_limit args_dict positional_args get_input_func w
  = mkRun (Raised ARITY_ERROR) w [].
Proof.
  intros Hauth. unfold kos_status.handle_status. cbv zeta.
  run_step. rewrite Hauth. cbn [negb]. by rewrite bind_call_two_arguments.
Qed.

(** The rejection protocol raises before its first cycle. *)
Lemma handle_rejected_command_raises name args_dict positional_args get_input_func w :
  kos_rejection.handle_rejected_command call_check_time_limit name args_dict positional_args
    get_input_func w
  = mkRun (Raised ARITY_ERROR) w
      [ELog WARN ("Detected non-native command attempt: '" +:+ name
                  +:+ "'. Initiating Rejection Protocol RP-LNX-1.");
       ESleep kos_config.BASE_MSG_DELAY_MS].
Proof.
  unfold kos_rejection.handle_rejected_command. cbv zeta.
  do 2 run_step. rewrite bind_call_two_arguments. by close_run.
Qed.

(** A shutdown that is not forced, in an open session, raises at its budget
    check. *)
Lemma handle_shutdown_unforced_raises args_dict positional_args get_input_func w :
  is_authenticated (os_state w) = true ->
  truthy (py_or (dict_get args_dict "force") (dict_get args_dict "f")) = false ->
  kos_shutdown.handle_shutdown call_check_time_limit args_dict positional_args
    get_input_func false w
  = mkRun (Raised ARITY_ERROR) w
      [ELog WARN "System Halt Sequence Initiated."; ESleep kos_config.BASE_MSG_DELAY_MS].
Proof.
  intros Hauth Hforce. unfold kos_shutdown.handle_shutdown. cbv zeta.
  do 2 run_step. rewrite Hauth, Hforce. cbn [negb andb].
  rewrite bind_call_two_arguments. by close_run.
Qed.

(** A forced shutdown always exits with status 0; it clears the
    authentication flag and nothing else of the session. *)
Lemma handle_shutdown_forced_exits args_dict positional_args get_input_func (forced : bool) w :
  truthy (if forced then Some ArgTrue
          else py_or (dict_get args_dict "force") (dict_get args_dict "f")) = true ->
  let r := kos_shutdown.handle_shutdown call_check_time_limit args_dict positional_args
             get_input_func forced w in
  outcome r = Exited 0
  /\ os_state (world r) = set_is_authenticated false (forwarded (os_state w))
  /\ forward_keys (emitted r) = ["SHUTDOWN"].
Proof.
  intros Hforce. unfold kos_shutdown.handle_shutdown. cbv zeta.
  do 2 run_step. rewrite Hforce. rewrite andb_false_r. cbn [negb].
  repeat run_step. close_run. cbn [outcome world emitted].
  forward_keys_run. world_run. done.
Qed.

(** ** Scenarios *)

(** Closes a conjunction of equations between computed values. *)
Ltac by_evaluation :=
  vm_compute; repeat match goal with |- _ /\ _ => split end; reflexivity.

(** C1.  On a fresh state, with the name [alice], a password and the token
    [123456] waiting on standard input, [handle_login] raises a [TypeError]
    at its first budget check, before it asks for the name: nothing is read,
    the state is the initial one (not authenticated, no user, timer off) and
    no [AUTH] event is forwarded.  Typed at the prompt, [klogin] ends in the
    loop's error handler with the same state. *)
Theorem C1_fresh_login_raises :
  (let r := kos_auth.handle_login call_check_time_limit ∅ [] input_func fresh_world in
   outcome r = Raised ARITY_ERROR
   /\ os_state (world r) = initial_os_state
   /\ stdin (world r) = stdin fresh_world
   /\ prompts (emitted r) = []
   /\ forward_keys (emitted r) = [])
  /\ (let r := command_loop_body klogin_world in
      outcome r = Returned tt
      /\ is_authenticated (os_state (world r)) = false
      /\ user_id (os_state (world r)) = None
      /\ session_start_time (os_state (world r)) = 0%Q
      /\ backlog (world r) = backlog klogin_world
      /\ forward_keys (emitted r) = []
      /\ printed (emitted r) = ["*** Error executing command 'klogin'. Consult system logs. ***"]).
Proof. by_evaluation. Qed.

(** C3.  The budget is spent when the handler of [kls] is entered.  The body
    of [check_time_limit], entered there, exits with status 2; but the budget
    check of the handler raises a [TypeError] instead, and the command loop
    catches it: the pass of the loop returns with an error message and no
    fatal one, and it is the idle check of the next pass that exits with
    status 2. *)
Theorem C3_handler_budget_check_is_caught :
  budget_exhausted expired_world
  /\ outcome (call_check_time_limit [PStr "Filesystem Operation (kls)"] expired_world) = Exited 2
  /\ outcome (kos_fs.handle_ls call_check_time_limit ∅ [] input_func expired_world)
     = Raised ARITY_ERROR
  /\ (let r := command_loop_body expiring_world in
      outcome r = Returned tt
      /\ logged ERROR (emitted r)
         = ["Runtime error during execution of 'kls': check_time_limit() takes from 0 to 1 positional arguments but 2 were given"]
      /\ logged FATAL (emitted r) = []
      /\ printed (emitted r) = ["*** Error executing command 'kls'. Consult system logs. ***"])
  /\ outcome (command_loop 2 expiring_world) = Exited 2.
Proof. by_evaluation. Qed.

(** C4.  src/kos_rejection.py does not compile: line 93, the [else] left
    behind by the displaced block, is indented deeper than line 91 before it,
    which opens no block.  An import of the module raises
    [IndentationError], so that for every command, every argument and every
    input a call of [handle_rejected_command] never takes place: no cycle
    runs, nothing is read or asked, no friction is applied and no event is
    forwarded. *)
Theorem C4_rejection_module_does_not_compile :
  check_blocks [0%nat] false kos_rejection_text = Some (UnexpectedIndent 93)
  /\ import_kos_rejection = inl (UnexpectedIndent 93)
  /\ forall check_time command_name args_dict positional_args get_input_func w,
       call_handle_rejected_command check_time command_name args_dict positional_args
         get_input_func w
       = mkRun (Raised (IndentationError "unexpected indent (kos_rejection.py, line 93)")) w [].
Proof.
  assert (check_blocks [0%nat] false kos_rejection_text = Some (UnexpectedIndent 93)) as Htext
    by (vm_compute; reflexivity).
  split; [exact Htext|]. split.
  - unfold import_kos_rejection. by rewrite Htext.
  - intros. unfold call_handle_rejected_command, import_kos_rejection. by rewrite Htext.
Qed.

(** The protocol the text was displaced from, called for the command [foo]
    with the argument [bar], raises a [TypeError] at its first budget check:
    no cycle starts, no line is read, friction is never applied and no
    security-incident event is forwarded. *)
Lemma rejection_protocol_raises_before_first_cycle :
  let r := kos_rejection.handle_rejected_command call_check_time_limit "foo" ∅ ["bar"]
             input_func retyping_world in
  outcome r = Raised ARITY_ERROR
  /\ stdin (world r) = stdin retyping_world
  /\ prompts (emitted r) = []
  /\ friction_reasons (emitted r) = []
  /\ forward_keys (emitted r) = []
  /\ logged INFO (emitted r) = [].
Proof. by_evaluation. Qed.

(** C6.  The invariant holds in the initial state and in a session of
    alice; the forced shutdown of that session exits with status 0 in a
    state whose authentication flag is cleared while the user is still
    [alice]: the invariant does not hold there. *)
Theorem C6_shutdown_keeps_identity :
  auth_invariant initial_os_state
  /\ auth_invariant alice_session
  /\ outcome forced_halt_run = Exited 0
  /\ is_authenticated (os_state (world forced_halt_run)) = false
  /\ user_id (os_state (world forced_halt_run)) = Some "alice"
  /\ ~ auth_invariant (os_state (world forced_halt_run)).
Proof.
  assert (is_authenticated (os_state (world forced_halt_run)) = false) as Hflag
    by (vm_compute; reflexivity).
  assert (user_id (os_state (world forced_halt_run)) = Some "alice") as Huser
    by (vm_compute; reflexivity).
  split; [|split; [|split; [|split; [|split]]]].
  - unfold auth_invariant. cbn. split; [done|]. by intros [x Hx].
  - unfold auth_invariant. cbn. split; [eauto|done].
  - vm_compute. reflexivity.
  - exact Hflag.
  - exact Huser.
  - unfold auth_invariant. rewrite Hflag, Huser. intros [_ H].
    by specialize (H (ex_intro _ _ eq_refl)).
Qed.

(** With the timer of the program and a wrong phrase waiting,
    [verify_action_intent] does not reach the confirmation step: it raises a
    [TypeError] at the budget check that precedes it.  The phrase is never
    asked for, nothing is read, and no event is forwarded. *)
Lemma verification_raises_before_confirmation :
  let r := kos_bureaucracy.verify_action_intent call_check_time_limit "kexec ./tool" input_func
             true (Some kos_config.STANDARD_PURPOSE_CODE_PROC) true wrong_phrase_world in
  outcome r = Raised ARITY_ERROR
  /\ outcome r <> Returned false
  /\ stdin (world r) = stdin wrong_phrase_world
  /\ prompts (emitted r) = []
  /\ forward_keys (emitted r) = [].
Proof.
  vm_compute. repeat match goal with |- _ /\ _ => split end; try reflexivity. discriminate.
Qed.

(** C9.  The short circuit of the verification, for every timer and every
    input function.  When the first call of the timer returns and the input
    function returns an answer that is not the confirmation phrase,
    [verify_action_intent] returns [False] at once: it leaves the world as
    the input function left it, so that nothing more is read, asked or
    drawn, and it adds no event but one error line: the only forwarding
    events and prompts of the call are those of the timer and of the input
    function themselves, and none is a [PURPOSE_VALIDATION], [RE_AUTH] or
    [CMD_INTENT] event of the protocol. *)
Theorem C9_wrong_phrase_returns_false_at_once
    (check_time : CheckTime) (get_input_func : InputFunc) command_name
    (requires_purpose : bool) purpose_code_expected (requires_reauth : bool)
    w w1 e1 confirm w2 e2 :
  check_time [PNum (session_start_time (os_state w));
              PStr ("Intent Verification for " +:+ command_name)] w
  = mkRun (Returned tt) w1 e1 ->
  get_input_func ("Verify intent for '" +:+ command_name +:+ "'. Type EXACTLY '"
                  +:+ kos_config.CONFIRMATION_PHRASE +:+ "': ") w1
  = mkRun (Returned confirm) w2 e2 ->
  confirm <> kos_config.CONFIRMATION_PHRASE ->
  let r := kos_bureaucracy.verify_action_intent check_time command_name get_input_func
             requires_purpose purpose_code_expected requires_reauth w in
  outcome r = Returned false
  /\ world r = w2
  /\ forward_keys (emitted r) = forward_keys e1 ++ forward_keys e2
  /\ prompts (emitted r) = prompts e1 ++ prompts e2
  /\ emitted r
     = [ELog INFO ("PROC_VERIFY: Initiating Intent Verification Protocol for '"
                   +:+ command_name +:+ "'.");
        ESleep kos_config.BASE_MSG_DELAY_MS]
       ++ e1 ++ friction_events "Intent Verification Start" (backlog w1) ++ e2
       ++ [ELog ERROR "PROC_VERIFY: Failed - Incorrect or incomplete confirmation phrase.";
           ESleep kos_config.BASE_MSG_DELAY_MS].
Proof.
  intros Htimer Hinput Hconfirm r. subst r.
  apply String.eqb_neq in Hconfirm.
  unfold kos_bureaucracy.verify_action_intent. cbv zeta.
  rewrite bind_log, bind_get_state, (bind_step _ _ _ _ _ _ Htimer), bind_friction,
    (bind_step _ _ _ _ _ _ Hinput), Hconfirm.
  cbn [negb]. rewrite bind_log, ret_run, !prepend_mkRun.
  cbn [outcome world emitted].
  split; [done|]. split; [done|].
  rewrite !forward_keys_app, !prompts_app, forward_keys_friction, prompts_friction.
  cbn [forward_keys prompts omap list_omap app]. rewrite !app_nil_r.
  repeat split; try done.
Qed.

(** A timer of two parameters that returns, and alice typing
    [I_DO_NOT_COMPLY]. *)
Lemma C9_wrong_phrase_witness :
  let r := kos_bureaucracy.verify_action_intent (fun _ => ret tt) "kexec ./tool" input_func
             true (Some kos_config.STANDARD_PURPOSE_CODE_PROC) true wrong_phrase_world in
  outcome r = Returned false
  /\ forward_keys (emitted r) = []
  /\ length (prompts (emitted r)) = 1%nat
  /\ stdin (world r) = [Line "alice"].
Proof.
  edestruct (C9_wrong_phrase_returns_false_at_once (fun _ => ret tt) input_func "kexec ./tool"
               true (Some kos_config.STANDARD_PURPOSE_CODE_PROC) true wrong_phrase_world)
    as (Hout & Hworld & Hkeys & Hprompts & _).
  - reflexivity.
  - vm_compute. reflexivity.
  - discriminate.
  - split; [exact Hout|]. rewrite Hworld, Hkeys, Hprompts. by vm_compute.
Defined.

(** ** Commands the table does not know *)

(** The token [foo] is not in the command table; the pass of the loop that
    reads [foo bar] returns without a forwarding event and without printing
    anything: the rejection protocol has not run. *)
Lemma C2_unknown_command_counterexample :
  COMMANDS !! PyStr.lower "foo" = None
  /\ outcome (command_loop_body unknown_command_world) = Returned tt
  /\ ~ rejection_protocol_ran (emitted (command_loop_body unknown_command_world)).
Proof.
  split; [vm_compute; reflexivity|]. split; [vm_compute; reflexivity|].
  intros [_ Hprinted]. apply Hprinted. vm_compute. reflexivity.
Qed.

Lemma help_is_known : COMMANDS !! PyStr.lower "help" <> None.
Proof. vm_compute. discriminate. Qed.

(** C2, as the code has it.  For a command line of ASCII characters that
    has a first token, when that token does not start with [./] and its
    lower-case form is not a key of the command table, the loop calls no
    handler and no rejection protocol: it stores a command reference, logs
    one error, [Unknown command ... Command ignored], forwards no event,
    applies no friction, prints nothing, asks nothing and reads nothing; the
    dispatch returns, so that the loop goes on with its next pass.  (Outside
    ASCII, [str.split] and [str.lower] know white space and letters that
    [PyStr] does not.) *)
Theorem C2_unknown_command_is_logged_and_ignored line w :
  let command_name_raw := hd EmptyString (PyStr.split_ws line) in
  PyStr.isascii line = true ->
  PyStr.split_ws line <> [] ->
  PyStr.startswith "./" command_name_raw = false ->
  COMMANDS !! PyStr.lower command_name_raw = None ->
  let r := dispatch line w in
  outcome r = Returned tt
  /\ logged ERROR (emitted r)
     = ["Unknown command: '" +:+ command_name_raw +:+ "'. Command ignored. Type 'help'."]
  /\ forward_keys (emitted r) = []
  /\ friction_reasons (emitted r) = []
  /\ printed (emitted r) = []
  /\ prompts (emitted r) = []
  /\ stdin (world r) = stdin w
  /\ os_state (world r)
     = set_last_command_ref (Some ("CMD-" +:+ PyStr.take 6 (stream_hd (uuids w)))) (os_state w)
  /\ forall fuel,
       bind (dispatch line) (fun _ => command_loop fuel) w
       = prepend (emitted r) (command_loop fuel (world r)).
Proof.
  intros command_name_raw _ _ Hdot Hnone r.
  assert (bool_decide (command_name_raw ∈ ["help"]) = false) as Hhelp.
  { apply bool_decide_eq_false. intros Hin. apply list_elem_of_singleton in Hin.
    apply help_is_known. by rewrite <- Hin. }
  assert (exists processing,
            r = mkRun (Returned tt)
                (with_os_state
                   (set_last_command_ref (Some ("CMD-" +:+ PyStr.take 6 (stream_hd (uuids w))))
                      (os_state w)) (next_uuid w))
                [ELog CMD processing;
                 ESleep kos_config.BASE_MSG_DELAY_MS;
                 ELog ERROR ("Unknown command: '" +:+ command_name_raw
                             +:+ "'. Command ignored. Type 'help'.");
                 ESleep kos_config.BASE_MSG_DELAY_MS]) as [processing Hr].
  { subst r. unfold dispatch. cbv zeta. fold command_name_raw.
    rewrite Hdot, Hnone. destruct (parse_args _) as [args_dict positional_args].
    eexists. cbv beta iota. do 4 run_step. cbv beta iota. rewrite Hhelp. cbn [negb].
    rewrite log_run. by close_run. }
  split; [|split; [|split; [|split; [|split; [|split; [|split; [|split]]]]]]];
    try (by rewrite Hr).
  intros fuel. rewrite Hr at 1 2. cbn [emitted world].
  exact (bind_step (dispatch line) (fun _ => command_loop fuel) w tt _ _ Hr).
Qed.

(** The line [foo bar] in a fresh state. *)
Lemma C2_foo_witness :
  let r := dispatch "foo bar" unknown_command_world in
  outcome r = Returned tt
  /\ logged ERROR (emitted r) = ["Unknown command: 'foo'. Command ignored. Type 'help'."]
  /\ forward_keys (emitted r) = []
  /\ printed (emitted r) = []
  /\ stdin (world r) = stdin unknown_command_world.
Proof.
  destruct (C2_unknown_command_is_logged_and_ignored "foo bar" unknown_command_world
              eq_refl ltac:(discriminate) eq_refl ltac:(vm_compute; reflexivity))
    as (Hout & Hlog & Hfwd & _ & Hprint & _ & Hin & _).
  repeat split; assumption.
Defined.

(** ** The handlers behind a timer that lets the call through

    What the handlers do once their budget check returns: the timer is any
    callable that accepts the arguments of the call sites and returns. *)

(** Reads the next line, which the hypotheses or the world give. *)
Ltac input_step :=
  erewrite bind_input_line by (world_run; first [eassumption | reflexivity]).

Section WorkingTimer.
Variable check_time : CheckTime.
Hypothesis timer_lets_through : forall args w, check_time args w = mkRun (Returned tt) w [].

Lemma bind_timer {B} args (k : unit -> M B) w : bind (check_time args) k w = k tt w.
Proof. apply bind_silent, timer_lets_through. Qed.

(** Scenario A: a login on a state without session, with a name that is
    not empty and a token of six digits. *)
Lemma login_completes args_dict positional_args w name password token rest :
  is_authenticated (os_state w) = false ->
  stdin w = Line name :: Line password :: Line token :: rest ->
  PyStr.nonempty (PyStr.strip name) = true ->
  PyStr.isdigit (PyStr.strip token) = true ->
  String.length (PyStr.strip token) = 6%nat ->
  let r := kos_auth.handle_login check_time args_dict positional_args input_func w in
  outcome r = Returned tt
  /\ is_authenticated (os_state (world r)) = true
  /\ user_id (os_state (world r)) = Some (PyStr.strip name)
  /\ session_start_time (os_state (world r)) = stream_hd (monotonic w)
  /\ backlog (world r) = backlog w + 1
  /\ forward_keys (emitted r) = ["AUTH"]
  /\ stdin (world r) = rest.
Proof.
  intros Hauth Hin Hname Hdigits Hlen.
  unfold kos_auth.handle_login. cbv zeta.
  do 2 run_step. rewrite Hauth. rewrite bind_timer.
  input_step. rewrite Hname. cbn [negb].
  input_step. do 2 run_step. cbv beta iota. run_step. rewrite bind_timer.
  input_step. rewrite Hdigits, Hlen. cbn [negb orb Nat.eqb].
  do 2 run_step. cbv beta iota.
  repeat run_step. close_run. cbn [outcome world emitted].
  observe_run. world_run. done.
Qed.

(** The short circuit of the verification: a phrase that is not the
    confirmation phrase ends the protocol with [false], after one prompt and
    without any forwarding event. *)
Lemma verify_short_circuits name rp pc rr w phrase rest :
  stdin w = Line phrase :: rest ->
  PyStr.strip phrase <> kos_config.CONFIRMATION_PHRASE ->
  let r := kos_bureaucracy.verify_action_intent check_time name input_func rp pc rr w in
  outcome r = Returned false
  /\ forward_keys (emitted r) = []
  /\ length (prompts (emitted r)) = 1%nat
  /\ os_state (world r) = os_state w
  /\ stdin (world r) = rest.
Proof.
  intros Hin Hphrase. apply String.eqb_neq in Hphrase.
  unfold kos_bureaucracy.verify_action_intent. cbv zeta.
  do 2 run_step. rewrite bind_timer. run_step. input_step.
  rewrite Hphrase. cbn [negb]. repeat run_step. close_run. cbn [outcome world emitted].
  observe_run. world_run. done.
Qed.

(** A logout that is confirmed clears the identity, the flag and the
    timer together. *)
Lemma logout_clears_identity args_dict positional_args w confirm rest :
  is_authenticated (os_state w) = true ->
  stdin w = Line confirm :: rest ->
  PyStr.strip confirm = "TERMINATE_SESSION" ->
  let r := kos_auth.handle_logout args_dict positional_args input_func w in
  outcome r = Returned tt
  /\ user_id (os_state (world r)) = None
  /\ is_authenticated (os_state (world r)) = false
  /\ session_start_time (os_state (world r)) = 0%Q
  /\ auth_invariant (os_state (world r))
  /\ forward_keys (emitted r) = ["AUTH"].
Proof.
  intros Hauth Hin Hconfirm.
  unfold kos_auth.handle_logout. cbv zeta.
  run_step. rewrite Hauth. cbn [negb]. run_step. input_step.
  rewrite Hconfirm. cbn [String.eqb Ascii.eqb Bool.eqb negb].
  repeat run_step. close_run. cbn [outcome world emitted].
  observe_run. unfold auth_invariant. world_run.
  repeat split; try done. by intros [x Hx].
Qed.

End WorkingTimer.

Lemma bind_random_randint {B} lo hi (k : Z -> M B) w :
  bind (random_randint lo hi) k w
  = k (lo + stream_hd (random_ints w) mod (hi - lo + 1)) (world (random_randint lo hi w)).
Proof. by apply bind_silent. Qed.

Section WorkingTimerRejection.
Variable check_time : CheckTime.
Hypothesis timer_lets_through : forall args w, check_time args w = mkRun (Returned tt) w [].

(** A cycle of the circular verification, whatever is typed: it asks twice,
    forwards nothing, ends with one friction call and changes no state. *)
Lemma verification_cycle_fails line cycle w retyped code rest :
  stdin w = Line retyped :: Line code :: rest ->
  exists evs w',
    kos_rejection.verification_cycle check_time line input_func cycle w
    = mkRun (Returned tt) w' evs
    /\ os_state w' = os_state w
    /\ stdin w' = rest
    /\ forward_keys evs = []
    /\ friction_reasons evs = ["Verification Cycle " +:+ PyStr.of_Z (cycle + 1) +:+ " Failure"]
    /\ length (prompts evs) = 2%nat.
Proof.
  intros Hin. unfold kos_rejection.verification_cycle. cbv zeta.
  do 2 run_step. rewrite (bind_timer check_time timer_lets_through).
  input_step.
  repeat first [run_step | input_step];
    close_run; eexists _, _; (split; [reflexivity|]);
    observe_run; world_run; done.
Qed.

(** Scenario C: the rejection protocol runs its three cycles, applies
    friction after each, and ends with one security-incident event; it has no
    other outcome, whatever the six answers are. *)
Lemma rejection_runs_three_cycles name args_dict positional_args w l1 c1 l2 c2 l3 c3 rest :
  stdin w = Line l1 :: Line c1 :: Line l2 :: Line c2 :: Line l3 :: Line c3 :: rest ->
  exists evs w',
    kos_rejection.handle_rejected_command check_time name args_dict positional_args
      input_func w
    = mkRun (Returned tt) w' evs
    /\ forward_keys evs = [SECURITY_INCIDENT]
    /\ friction_reasons evs
       = ["Non-Native Command Handling"; "Verification Cycle 1 Failure";
          "Verification Cycle 2 Failure"; "Verification Cycle 3 Failure"]
    /\ length (prompts evs) = 6%nat
    /\ os_state w' = forwarded (os_state w)
    /\ stdin w' = rest.
Proof.
  intros Hin. unfold kos_rejection.handle_rejected_command, random_choice. cbv zeta.
  do 2 run_step. rewrite (bind_timer check_time timer_lets_through).
  rewrite bind_assoc, bind_random_randint. do 5 run_step.
  change (kos_bureaucracy.range 0 kos_rejection.MAX_VERIFICATION_CYCLES) with [0; 1; 2].
  cbn [kos_rejection.for_each]. rewrite bind_assoc.
  match goal with
  | |- context [bind (kos_rejection.verification_cycle _ ?line _ 0) _ ?w0] =>
      destruct (verification_cycle_fails line 0 w0 l1 c1
                  (Line l2 :: Line c2 :: Line l3 :: Line c3 :: rest))
        as (evs1 & w1 & Hrun1 & Hs1 & Hin1 & Hf1 & Hr1 & Hp1); [world_run; exact Hin|];
      rewrite (bind_step _ _ _ _ _ _ Hrun1); cbv beta; rewrite bind_assoc;
      destruct (verification_cycle_fails line 1 w1 l2 c2 (Line l3 :: Line c3 :: rest) Hin1)
        as (evs2 & w2 & Hrun2 & Hs2 & Hin2 & Hf2 & Hr2 & Hp2);
      rewrite (bind_step _ _ _ _ _ _ Hrun2); cbv beta; rewrite bind_assoc;
      destruct (verification_cycle_fails line 2 w2 l3 c3 rest Hin2)
        as (evs3 & w3 & Hrun3 & Hs3 & Hin3 & Hf3 & Hr3 & Hp3);
      rewrite (bind_step _ _ _ _ _ _ Hrun3); cbv beta
  end.
  repeat run_step. close_run. eexists _, _. split; [reflexivity|].
  rewrite !prompts_app, !length_app, Hp1, Hp2, Hp3.
  observe_run. rewrite Hf1, Hf2, Hf3, Hr1, Hr2, Hr3.
  world_run. rewrite Hin3, Hs3, Hs2, Hs1. world_run. done.
Qed.

End WorkingTimerRejection.

(** ** The invariant between the flag and the identity *)

Section KeepsInvariant.

Lemma reads_only_keeps {A} (m : M A) : reads_only m -> keeps_auth_invariant m.
Proof. intros H w Hinv. right. by rewrite H. Qed.

Lemma inv_ret {A} (a : A) : keeps_auth_invariant (ret a).
Proof. by apply reads_only_keeps. Qed.

Lemma inv_bind {A B} (m : M A) (k : A -> M B) :
  keeps_auth_invariant m -> (forall a, keeps_auth_invariant (k a)) ->
  keeps_auth_invariant (bind m k).
Proof.
  intros Hm Hk w Hinv. unfold bind.
  destruct (Hm w Hinv) as [[c Hc]|Hmid].
  - left. exists c. by rewrite Hc.
  - destruct (outcome (m w)) as [a|e|c]; simpl; [|by right|left; by exists c].
    apply Hk, Hmid.
Qed.

Lemma inv_try_except {A} (m : M A) (h : PyExc -> M A) :
  keeps_auth_invariant m -> (forall e, keeps_auth_invariant (h e)) ->
  keeps_auth_invariant (try_except m h).
Proof.
  intros Hm Hh w Hinv. unfold try_except.
  destruct (Hm w Hinv) as [[c Hc]|Hmid].
  - left. exists c. by rewrite Hc.
  - destruct (outcome (m w)) as [a|e|c] eqn:Hout; simpl; [by right| |left; by exists c].
    apply Hh, Hmid.
Qed.

Lemma inv_raise {A} e : keeps_auth_invariant (@raise A e).
Proof. by apply reads_only_keeps. Qed.

Lemma inv_sys_exit {A} c : keeps_auth_invariant (@sys_exit A c).
Proof. intros w _. left. by exists c. Qed.

Lemma inv_emit e : keeps_auth_invariant (emit e).
Proof. by apply reads_only_keeps. Qed.

Lemma inv_get_state : keeps_auth_invariant get_state.
Proof. by apply reads_only_keeps. Qed.

Lemma inv_time_monotonic : keeps_auth_invariant time_monotonic.
Proof. by apply reads_only_keeps. Qed.

Lemma inv_datetime_now : keeps_auth_invariant datetime_now.
Proof. by apply reads_only_keeps. Qed.

Lemma inv_random_random : keeps_auth_invariant random_random.
Proof. by apply reads_only_keeps. Qed.

Lemma inv_random_randint lo hi : keeps_auth_invariant (random_randint lo hi).
Proof. by apply reads_only_keeps. Qed.

Lemma inv_read_stdin : keeps_auth_invariant read_stdin.
Proof. apply reads_only_keeps. intros w. unfold read_stdin. by destruct (stdin w). Qed.

Lemma inv_pseudo_uuid : keeps_auth_invariant kos_utility.pseudo_uuid.
Proof. by apply reads_only_keeps. Qed.

Lemma inv_sleep_random d : keeps_auth_invariant (kos_utility.sleep_random d).
Proof. by apply reads_only_keeps. Qed.

Lemma inv_log message level : keeps_auth_invariant (kos_bureaucracy.log_system_message message level).
Proof. apply reads_only_keeps. intros w. by rewrite log_run. Qed.

Lemma inv_friction reason : keeps_auth_invariant (kos_bureaucracy.apply_procedural_friction reason).
Proof. apply reads_only_keeps. intros w. by rewrite friction_run. Qed.

Lemma inv_check name base : keeps_auth_invariant (kos_bureaucracy.perform_simulated_check name base).
Proof. apply reads_only_keeps. intros w. by rewrite check_run. Qed.

Lemma inv_forwarding key ctx detail :
  keeps_auth_invariant (kos_bureaucracy.simulate_forwarding key ctx detail).
Proof. intros w Hinv. right. by rewrite forwarding_run. Qed.

Lemma inv_set_session_start_time v : keeps_auth_invariant (modify_state (set_session_start_time v)).
Proof. intros w Hinv. by right. Qed.

Lemma inv_set_last_command_ref v : keeps_auth_invariant (modify_state (set_last_command_ref v)).
Proof. intros w Hinv. by right. Qed.

(** The writes of a login: the identity, then the flag. *)
Lemma inv_login_writes {B} name (k : unit -> M B) :
  (forall u, keeps_auth_invariant (k u)) ->
  keeps_auth_invariant
    (bind (modify_state (set_user_id (Some name)))
          (fun _ => bind (modify_state (set_is_authenticated true)) k)).
Proof.
  intros Hk w _. rewrite bind_modify_state, bind_modify_state.
  apply Hk. unfold auth_invariant. cbn. split; eauto.
Qed.

(** The writes of a logout: the identity, then the flag. *)
Lemma inv_logout_writes {B} (k : unit -> M B) :
  (forall u, keeps_auth_invariant (k u)) ->
  keeps_auth_invariant
    (bind (modify_state (set_user_id None))
          (fun _ => bind (modify_state (set_is_authenticated false)) k)).
Proof.
  intros Hk w _. rewrite bind_modify_state, bind_modify_state.
  apply Hk. unfold auth_invariant. cbn. split; [done|]. by intros [x Hx].
Qed.

(** The write of a shutdown is followed by the exit. *)
Lemma inv_shutdown_write c :
  keeps_auth_invariant
    (bind (modify_state (set_is_authenticated false)) (fun _ => @sys_exit unit c)).
Proof. intros w _. left. by exists c. Qed.

End KeepsInvariant.

Create HintDb inv discriminated.
#[local] Hint Resolve inv_ret inv_raise inv_sys_exit inv_emit inv_get_state inv_time_monotonic
  inv_datetime_now inv_random_random inv_random_randint inv_read_stdin inv_pseudo_uuid
  inv_sleep_random inv_log inv_friction inv_check inv_forwarding inv_set_session_start_time
  inv_set_last_command_ref inv_shutdown_write : inv.

Ltac inv_step :=
  lazymatch goal with
  | |- keeps_auth_invariant (bind (modify_state (set_user_id (Some _))) _) =>
      apply inv_login_writes; intros
  | |- keeps_auth_invariant (bind (modify_state (set_user_id None)) _) =>
      apply inv_logout_writes; intros
  | |- keeps_auth_invariant (bind (modify_state (set_is_authenticated false)) _) =>
      apply inv_shutdown_write
  | |- keeps_auth_invariant (bind _ _) => apply inv_bind; [|intros]
  | |- keeps_auth_invariant (try_except _ _) => apply inv_try_except; [|intros]
  | |- keeps_auth_invariant (if ?c then _ else _) => destruct c
  | |- keeps_auth_invariant (let '(_, _) := ?r in _) => destruct r
  | |- keeps_auth_invariant (match ?x with _ => _ end) => destruct x
  | |- keeps_auth_invariant _ => solve [auto with inv]
  end.
Ltac keep_inv := cbv zeta; repeat inv_step.

Lemma inv_mandate clearance :
  keeps_auth_invariant (kos_bureaucracy.check_operational_mandate clearance).
Proof. unfold kos_bureaucracy.check_operational_mandate. keep_inv. Qed.

Lemma inv_check_time_limit step_name : keeps_auth_invariant (check_time_limit step_name).
Proof. unfold check_time_limit. keep_inv. Qed.

Lemma inv_call_check_time_limit args : keeps_auth_invariant (call_check_time_limit args).
Proof.
  unfold call_check_time_limit.
  destruct args as [|a [|b args]]; auto using inv_check_time_limit with inv.
Qed.

Lemma inv_random_choice l : keeps_auth_invariant (random_choice l).
Proof. unfold random_choice. keep_inv. Qed.

Lemma inv_for_each {A} (l : list A) (body : A -> M unit) :
  (forall x, keeps_auth_invariant (body x)) ->
  keeps_auth_invariant (kos_rejection.for_each l body).
Proof.
  intros Hbody. induction l as [|x l IH]; simpl.
  - apply inv_ret.
  - apply inv_bind; [apply Hbody|done].
Qed.

#[local] Hint Resolve inv_mandate inv_check_time_limit inv_call_check_time_limit
  inv_random_choice : inv.

(** The handlers, for any timer and any input function that keep the
    invariant. *)
Section HandlersKeepInvariant.
Variable check_time : CheckTime.
Variable get_input_func : InputFunc.
Hypothesis inv_check_time : forall args, keeps_auth_invariant (check_time args).
Hypothesis inv_get_input_func : forall prompt, keeps_auth_invariant (get_input_func prompt).
Hint Resolve inv_check_time inv_get_input_func : inv.

Lemma inv_verify_action_intent name requires_purpose purpose requires_reauth :
  keeps_auth_invariant (kos_bureaucracy.verify_action_intent check_time name get_input_func
                          requires_purpose purpose requires_reauth).
Proof. unfold kos_bureaucracy.verify_action_intent. keep_inv. Qed.
Hint Resolve inv_verify_action_intent : inv.

Lemma inv_handle_login args_dict positional_args :
  keeps_auth_invariant (kos_auth.handle_login check_time args_dict positional_args get_input_func).
Proof. unfold kos_auth.handle_login. keep_inv. Qed.

Lemma inv_handle_logout args_dict positional_args :
  keeps_auth_invariant (kos_auth.handle_logout args_dict positional_args get_input_func).
Proof. unfold kos_auth.handle_logout. keep_inv. Qed.

Lemma inv_handle_ls args_dict positional_args :
  keeps_auth_invariant (kos_fs.handle_ls check_time args_dict positional_args get_input_func).
Proof. unfold kos_fs.handle_ls. keep_inv. Qed.

Lemma inv_handle_status args_dict positional_args :
  keeps_auth_invariant (kos_status.handle_status check_time args_dict positional_args
                          get_input_func).
Proof. unfold kos_status.handle_status. keep_inv. Qed.

Lemma inv_handle_exec args_dict positional_args :
  keeps_auth_invariant (kos_proc.handle_exec check_time args_dict positional_args get_input_func).
Proof. unfold kos_proc.handle_exec. keep_inv. Qed.

Lemma inv_verification_cycle line cycle :
  keeps_auth_invariant (kos_rejection.verification_cycle check_time line get_input_func cycle).
Proof. unfold kos_rejection.verification_cycle. keep_inv. Qed.

Lemma inv_handle_rejected_command name args_dict positional_args :
  keeps_auth_invariant (kos_rejection.handle_rejected_command check_time name args_dict
                          positional_args get_input_func).
Proof.
  unfold kos_rejection.handle_rejected_command. keep_inv.
  apply inv_for_each, inv_verification_cycle.
Qed.

End HandlersKeepInvariant.

Section ShutdownKeepsInvariant.
Variable check_time : CheckTime.
Hypothesis inv_check_time : forall args, keeps_auth_invariant (check_time args).
Hint Resolve inv_check_time : inv.

Lemma inv_call_input_func get_input_func prompt :
  (forall f, get_input_func = Some f -> forall p, keeps_auth_invariant (f p)) ->
  keeps_auth_invariant (kos_shutdown.call_input_func get_input_func prompt).
Proof.
  intros H. destruct get_input_func as [f|]; simpl; [by apply (H f)|auto with inv].
Qed.

(** The shutdown keeps the invariant on every path that returns or raises;
    on the path that clears the flag it exits. *)
Lemma inv_handle_shutdown args_dict positional_args get_input_func forced :
  (forall f, get_input_func = Some f -> forall p, keeps_auth_invariant (f p)) ->
  keeps_auth_invariant (kos_shutdown.handle_shutdown check_time args_dict positional_args
                          get_input_func forced).
Proof.
  intros H. unfold kos_shutdown.handle_shutdown. keep_inv.
  apply inv_verify_action_intent; [done|]. intros p. by apply inv_call_input_func.
Qed.
End ShutdownKeepsInvariant.

Lemma inv_get_user_input prompt_override : keeps_auth_invariant (get_user_input prompt_override).
Proof.
  unfold get_user_input. keep_inv.
  apply inv_handle_shutdown; [apply inv_call_check_time_limit|done].
Qed.

Lemma inv_input_func prompt : keeps_auth_invariant (input_func prompt).
Proof. apply inv_get_user_input. Qed.

Lemma inv_initialize_system : keeps_auth_invariant initialize_system.
Proof. unfold initialize_system. keep_inv. Qed.

Lemma inv_call_handler key c args_dict positional_args :
  COMMANDS !! key = Some c ->
  keeps_auth_invariant (call_handler c args_dict positional_args input_func).
Proof.
  intros Hc. unfold COMMANDS in Hc. cbv zeta in Hc.
  apply elem_of_list_to_map_2 in Hc.
  pose proof inv_call_check_time_limit as Ht.
  pose proof inv_input_func as Hi.
  repeat (apply elem_of_cons in Hc as [Hc|Hc];
          [injection Hc as _ ->; cbn [call_handler];
           lazymatch goal with
           | |- keeps_auth_invariant (kos_auth.handle_login _ _ _ _) => by apply inv_handle_login
           | |- keeps_auth_invariant (kos_auth.handle_logout _ _ _) => by apply inv_handle_logout
           | |- keeps_auth_invariant (kos_fs.handle_ls _ _ _ _) => by apply inv_handle_ls
           | |- keeps_auth_invariant (kos_proc.handle_exec _ _ _ _) => by apply inv_handle_exec
           | |- keeps_auth_invariant (kos_status.handle_status _ _ _ _) =>
               by apply inv_handle_status
           | |- keeps_auth_invariant (kos_shutdown.handle_shutdown _ _ _ _ _) =>
               apply inv_handle_shutdown; [done|intros f [= <-]; done]
           | |- keeps_auth_invariant (raise _) => apply inv_raise
           end|]).
  by apply elem_of_nil in Hc.
Qed.

Lemma inv_dispatch line : keeps_auth_invariant (dispatch line).
Proof.
  unfold dispatch. cbv zeta.
  destruct (PyStr.startswith "./" _); destruct (parse_args _) as [args_dict positional_args].
  all: match goal with
       | |- context [match ?h with Some _ => _ | None => _ end] => destruct h as [c|] eqn:Hc
       end.
  all: keep_inv.
  all: eauto using inv_call_handler.
Qed.

Lemma inv_command_loop_body : keeps_auth_invariant command_loop_body.
Proof.
  unfold command_loop_body. keep_inv. all: auto using inv_get_user_input, inv_dispatch.
Qed.

Lemma inv_command_loop fuel : keeps_auth_invariant (command_loop fuel).
Proof.
  induction fuel as [|n IH]; simpl; [apply inv_ret|].
  apply inv_bind; [apply inv_command_loop_body|done].
Qed.

(** Every operation of the engine keeps the invariant as long as the
    process goes on. *)
Lemma inv_run_op op : keeps_auth_invariant (run_op op).
Proof.
  pose proof inv_call_check_time_limit as Ht.
  pose proof inv_input_func as Hi.
  destruct op; cbn [run_op].
  - apply inv_forwarding.
  - apply inv_friction.
  - apply inv_bind; [apply inv_mandate|intros; apply inv_ret].
  - apply inv_call_check_time_limit.
  - apply inv_bind; [by apply inv_verify_action_intent|intros; apply inv_ret].
  - by apply inv_handle_login.
  - by apply inv_handle_logout.
  - by apply inv_handle_ls.
  - by apply inv_handle_exec.
  - by apply inv_handle_status.
  - apply inv_handle_shutdown; [done|]. by intros f [= <-].
  - by apply inv_handle_rejected_command.
  - apply inv_dispatch.
  - apply inv_command_loop_body.
  - apply inv_initialize_system.
Qed.

Section ParseArgsMore.
Implicit Types (args : gmap string ArgVal) (l positional : list string).

Lemma startswith_dash2 arg : PyStr.startswith "--" arg = true -> PyStr.startswith "-" arg = true.
Proof.
  destruct arg as [|c arg']; [done|]. cbn [PyStr.startswith].
  destruct (Ascii.eqb "-" c); [|done]. by destruct arg'.
Qed.

Lemma set_flags_union chars : forall args args',
  set_flags chars (args ∪ args') = set_flags chars args ∪ args'.
Proof.
  induction chars as [|c t IH]; intros args args'; simpl; [done|].
  by rewrite insert_union_l, IH.
Qed.

Lemma set_flags_empty chars args : set_flags chars args = set_flags chars ∅ ∪ args.
Proof. by rewrite <- set_flags_union, (left_id_L ∅ (∪)). Qed.

(** The loop adds to what it is given: the result on any start is the
    result on the empty start, laid over the start. *)
Lemma parse_loop_from n : forall l args positional,
  (length l <= n)%nat ->
  parse_loop l args positional
  = ((parse_loop l ∅ []).1 ∪ args, positional ++ (parse_loop l ∅ []).2).
Proof.
  induction n as [|n IH]; intros l args positional Hn.
  - destruct l; [|simpl in Hn; lia]. simpl. by rewrite (left_id_L ∅ (∪)), app_nil_r.
  - destruct l as [|arg rest]; [simpl; by rewrite (left_id_L ∅ (∪)), app_nil_r|].
    simpl in Hn. cbn [parse_loop].
    assert (forall l' k v, (length l' <= n)%nat ->
              parse_loop l' (<[k:=v]> args) positional
              = ((parse_loop l' (<[k:=v]> ∅) []).1 ∪ args,
                 positional ++ (parse_loop l' (<[k:=v]> ∅) []).2)) as Hins.
    { intros l' k v Hl'. rewrite (IH l' (<[k:=v]> args)) by done.
      rewrite (IH l' (<[k:=v]> ∅) []) by done. cbn [fst snd app].
      by rewrite (insert_union_singleton_l args), (insert_union_singleton_l ∅),
                 (right_id_L ∅ (∪)), (assoc_L (∪)). }
    destruct (PyStr.startswith "--" arg).
    + destruct (PyStr.contains "=" arg).
      * destruct (PyStr.split_once "=" arg) as [key value]. apply Hins. lia.
      * destruct rest as [|next rest']; [apply Hins; simpl; lia|].
        destruct (negb (PyStr.startswith "-" next)); apply Hins; simpl in *; lia.
    + destruct (PyStr.startswith "-" arg).
      * rewrite (IH rest (set_flags _ args)) by lia.
        rewrite (IH rest (set_flags _ ∅) []) by lia. cbn [fst snd app].
        by rewrite (set_flags_empty _ args), (assoc_L (∪)).
      * rewrite (IH rest args (positional ++ [arg])) by lia.
        rewrite (IH rest ∅ ([] ++ [arg])) by lia. cbn [fst snd app].
        by rewrite (right_id_L ∅ (∪)), <- app_assoc.
Qed.

(** The reading of [l1 ++ l2] is the reading of [l2] started from the
    result of [l1], as long as no token of [l2] is taken as the value of the
    last token of [l1]. *)
Lemma ends_with_bare_long_cons a b l :
  ends_with_bare_long (a :: b :: l) = ends_with_bare_long (b :: l).
Proof. unfold ends_with_bare_long. by rewrite last_cons_cons. Qed.

Lemma parse_loop_app n : forall l1 l2 args positional,
  (length l1 <= n)%nat ->
  ends_with_bare_long l1 = false
  \/ l2 = [] \/ (exists t l2', l2 = t :: l2' /\ PyStr.startswith "-" t = true) ->
  parse_loop (l1 ++ l2) args positional
  = parse_loop l2 (parse_loop l1 args positional).1 (parse_loop l1 args positional).2.
Proof.
  induction n as [|n IH]; intros l1 l2 args positional Hn Hsafe.
  - destruct l1; [done|simpl in Hn; lia].
  - destruct l1 as [|arg rest]; [done|].
    simpl in Hn. rewrite <- app_comm_cons.
    assert (ends_with_bare_long rest = false
            \/ l2 = [] \/ (exists t l2', l2 = t :: l2' /\ PyStr.startswith "-" t = true)
            \/ rest = []) as Hrest.
    { destruct rest as [|b rest']; [by right; right; right|].
      rewrite ends_with_bare_long_cons in Hsafe. tauto. }
    cbn [parse_loop].
    destruct (PyStr.startswith "--" arg) eqn:H2.
    + destruct (PyStr.contains "=" arg) eqn:Heq.
      * destruct (PyStr.split_once "=" arg) as [key value]. apply IH; [lia|].
        destruct Hrest as [?|[?|[?| ->]]]; auto.
      * destruct rest as [|next rest'].
        -- cbn [app]. destruct Hsafe as [Hbare|[->|(t & l2' & -> & Ht)]].
           ++ unfold ends_with_bare_long, bare_long in Hbare. cbn [last] in Hbare.
              by rewrite H2, Heq in Hbare.
           ++ done.
           ++ by rewrite Ht.
        -- rewrite <- app_comm_cons.
           destruct (negb (PyStr.startswith "-" next)) eqn:Hnext.
           ++ apply IH; [simpl in *; lia|].
              destruct rest' as [|x rest'']; [by left|].
              rewrite !ends_with_bare_long_cons in Hsafe. done.
           ++ rewrite app_comm_cons. apply IH; [simpl in *; lia|].
              destruct Hrest as [?|[?|[?|?]]]; auto.
    + destruct (PyStr.startswith "-" arg).
      * apply IH; [lia|]. destruct Hrest as [?|[?|[?| ->]]]; auto.
      * apply IH; [lia|]. destruct Hrest as [?|[?|[?| ->]]]; auto.
Qed.

End ParseArgsMore.

Section LongOptions.

Lemma contains_app_sep c k v : PyStr.contains c (k +:+ String c v) = true.
Proof.
  induction k as [|d k IH]; simpl.
  - by rewrite Ascii.eqb_refl.
  - by destruct (Ascii.eqb c d).
Qed.

Lemma split_once_app_sep c k v :
  PyStr.contains c k = false -> PyStr.split_once c (k +:+ String c v) = (k, v).
Proof.
  induction k as [|d k IH]; simpl; intros Hk.
  - by rewrite Ascii.eqb_refl.
  - destruct (Ascii.eqb c d); [done|]. by rewrite IH.
Qed.

Lemma long_option_with_value k v rest args positional :
  PyStr.contains "=" k = false ->
  parse_loop (("--" +:+ k +:+ "=" +:+ v) :: rest) args positional
  = parse_loop rest (<[k := ArgStr v]> args) positional.
Proof.
  intros Hk. cbn [parse_loop].
  change ("--" +:+ k +:+ "=" +:+ v) with (String "-" (String "-" (k +:+ String "=" v))).
  cbn [PyStr.startswith PyStr.contains Ascii.eqb Bool.eqb andb].
  rewrite contains_app_sep. cbn [PyStr.split_once Ascii.eqb Bool.eqb].
  by rewrite split_once_app_sep.
Qed.

Lemma bare_long_option k rest args positional :
  PyStr.contains "=" k = false ->
  parse_loop (("--" +:+ k) :: rest) args positional
  = match rest with
    | next :: rest' =>
        if negb (PyStr.startswith "-" next)
        then parse_loop rest' (<[k := ArgStr next]> args) positional
        else parse_loop rest (<[k := ArgTrue]> args) positional
    | [] => (<[k := ArgTrue]> args, positional)
    end.
Proof.
  intros Hk. cbn [parse_loop].
  change ("--" +:+ k) with (String "-" (String "-" k)).
  cbn [PyStr.startswith PyStr.contains Ascii.eqb Bool.eqb andb PyStr.drop].
  rewrite Hk. by destruct rest.
Qed.

End LongOptions.

(** X1.  A list without any token that starts with a dash is returned as
    it is, as the positional arguments, with an empty dictionary; so is the
    empty list. *)
Theorem X1_parse_args_plain_tokens l :
  Forall (fun t => PyStr.startswith "-" t = false) l ->
  parse_args l = (∅, l).
Proof.
  intros Hl. unfold parse_args.
  enough (forall args positional, parse_loop l args positional = (args, positional ++ l)) as H
    by apply H.
  induction Hl as [|t l Ht _ IH]; intros args positional.
  - simpl. by rewrite app_nil_r.
  - rewrite parse_loop_positional by done. rewrite IH. by rewrite <- app_assoc.
Qed.

Lemma X1_three_plain_tokens_witness :
  parse_args ["/tmp"; "a-b"; "x=y"] = (∅, ["/tmp"; "a-b"; "x=y"]).
Proof.
  apply (X1_parse_args_plain_tokens ["/tmp"; "a-b"; "x=y"]).
  repeat constructor.
Defined.

Lemma parse_loop_positionals n : forall l args positional,
  (length l <= n)%nat ->
  exists more,
    (parse_loop l args positional).2 = positional ++ more
    /\ sublist more l
    /\ Forall (fun t => PyStr.startswith "-" t = false) more.
Proof.
  induction n as [|n IH]; intros l args positional Hn.
  - destruct l; [|simpl in Hn; lia]. exists []. simpl. by rewrite app_nil_r.
  - destruct l as [|arg rest].
    { exists []. simpl. by rewrite app_nil_r. }
    simpl in Hn. cbn [parse_loop].
    assert (forall l' args' positional', (length l' <= n)%nat -> sublist l' rest ->
              exists more,
                (parse_loop l' args' positional').2 = positional' ++ more
                /\ sublist more (arg :: rest)
                /\ Forall (fun t => PyStr.startswith "-" t = false) more) as Hskip.
    { intros l' args' positional' Hl' Hsub.
      destruct (IH l' args' positional' Hl') as (more & Hm & Hs & Hf).
      exists more. split; [done|]. split; [|done].
      apply sublist_cons_r. left. by etrans. }
    destruct (PyStr.startswith "--" arg).
    + destruct (PyStr.contains "=" arg).
      * destruct (PyStr.split_once "=" arg). apply Hskip; [lia|done].
      * destruct rest as [|next rest']; [apply Hskip; [simpl; lia|done]|].
        destruct (negb (PyStr.startswith "-" next)).
        -- apply Hskip; [simpl in *; lia|]. by apply sublist_cons_r; left.
        -- apply Hskip; [simpl in *; lia|done].
    + destruct (PyStr.startswith "-" arg) eqn:Hdash; [apply Hskip; [lia|done]|].
      destruct (IH rest args (positional ++ [arg])) as (more & Hm & Hs & Hf); [lia|].
      exists (arg :: more). rewrite Hm, <- app_assoc. split; [done|]. split.
      * by apply sublist_skip.
      * by constructor.
Qed.

(** X2.  The positional arguments [parse_args] returns are tokens of its
    input, in the order of the input, and none of them starts with a dash. *)
Theorem X2_parse_args_positionals l :
  sublist (parse_args l).2 l
  /\ Forall (fun t => PyStr.startswith "-" t = false) (parse_args l).2.
Proof.
  destruct (parse_loop_positionals (length l) l ∅ []) as (more & Hm & Hs & Hf); [lia|].
  unfold parse_args. by rewrite Hm.
Qed.

(** X3.  A long option whose name holds no [=] sign.  Written [--key=value]
    it stores the text after the first [=]; written [--key] it takes the next
    token as its value when that token does not start with a dash, and
    otherwise (next token starting with a dash, or no next token) it stores
    [True] and the next token is read on its own.  The value taken is not a
    positional argument, and the tokens before the option are read as they
    are without it. *)
Theorem X3_parse_args_long_options before k v :
  PyStr.contains "=" k = false ->
  let r := parse_args before in
  parse_args (before ++ ["--" +:+ k +:+ "=" +:+ v]) = (<[k := ArgStr v]> r.1, r.2)
  /\ (PyStr.startswith "-" v = false ->
      parse_args (before ++ ["--" +:+ k; v]) = (<[k := ArgStr v]> r.1, r.2))
  /\ parse_args (before ++ ["--" +:+ k]) = (<[k := ArgTrue]> r.1, r.2)
  /\ (forall next rest, PyStr.startswith "-" next = true ->
      parse_args (before ++ ("--" +:+ k) :: next :: rest)
      = parse_loop (next :: rest) (<[k := ArgTrue]> r.1) r.2).
Proof.
  intros Hk r. subst r. unfold parse_args.
  assert (forall tail, parse_loop (before ++ ("--" +:+ k +:+ tail) :: []) ∅ []
                       = parse_loop [("--" +:+ k +:+ tail)] (parse_loop before ∅ []).1
                           (parse_loop before ∅ []).2) as Hlast.
  { intros tail. apply (parse_loop_app (length before)); [lia|].
    right; right. by eexists _, _. }
  assert (forall rest, parse_loop (before ++ ("--" +:+ k) :: rest) ∅ []
                       = parse_loop (("--" +:+ k) :: rest) (parse_loop before ∅ []).1
                           (parse_loop before ∅ []).2) as Hbare.
  { intros rest. apply (parse_loop_app (length before)); [lia|].
    right; right. by eexists _, _. }
  split; [|split; [|split]].
  - rewrite (Hlast ("=" +:+ v)). by rewrite long_option_with_value.
  - intros Hv. rewrite Hbare, bare_long_option by done. by rewrite Hv.
  - by rewrite Hbare, bare_long_option.
  - intros next rest Hnext. rewrite Hbare, bare_long_option by done. by rewrite Hnext.
Qed.

Lemma X3_view_mode_witness :
  parse_args (["/tmp"] ++ ["--view-mode=audit"])
  = (<["view-mode" := ArgStr "audit"]> (parse_args ["/tmp"]).1, (parse_args ["/tmp"]).2)
  /\ parse_args (["/tmp"] ++ ["--purpose"; "FS-QUERY-7701"])
     = (<["purpose" := ArgStr "FS-QUERY-7701"]> (parse_args ["/tmp"]).1, (parse_args ["/tmp"]).2).
Proof.
  split.
  - exact (proj1 (X3_parse_args_long_options ["/tmp"] "view-mode" "audit" eq_refl)).
  - exact (proj1 (proj2 (X3_parse_args_long_options ["/tmp"] "purpose" "FS-QUERY-7701" eq_refl))
             eq_refl).
Defined.

(** X4.  Reading two lists one after the other: when the first list does
    not end with a long option that is waiting for its value, the dictionary
    of the whole is the dictionary of the second list laid over that of the
    first (a later assignment wins) and the positional arguments are those
    of the first list followed by those of the second. *)
Theorem X4_parse_args_app l1 l2 :
  ends_with_bare_long l1 = false ->
  parse_args (l1 ++ l2)
  = ((parse_args l2).1 ∪ (parse_args l1).1, (parse_args l1).2 ++ (parse_args l2).2).
Proof.
  intros Hl1. unfold parse_args.
  rewrite (parse_loop_app (length l1)) by (lia || by left).
  by rewrite (parse_loop_from (length l2)) by lia.
Qed.

Lemma X4_two_halves_witness :
  parse_args (["/tmp"; "--view-mode=standard"; "-p"] ++ ["--view-mode=audit"; "x"])
  = ((parse_args ["--view-mode=audit"; "x"]).1 ∪ (parse_args ["/tmp"; "--view-mode=standard"; "-p"]).1,
     (parse_args ["/tmp"; "--view-mode=standard"; "-p"]).2 ++ (parse_args ["--view-mode=audit"; "x"]).2).
Proof.
  apply (X4_parse_args_app ["/tmp"; "--view-mode=standard"; "-p"] ["--view-mode=audit"; "x"]).
  reflexivity.
Defined.

(** ** The keys a formatted dictionary shows *)

Lemma set_flags_keys chars : forall (args : gmap string ArgVal) k,
  is_Some (set_flags chars args !! k) <-> is_Some (args !! k) \/ k ∈ flag_keys chars.
Proof.
  induction chars as [|c t IH]; intros args k; cbn [set_flags flag_keys].
  - rewrite elem_of_nil. tauto.
  - rewrite IH, elem_of_cons, lookup_insert_is_Some. 
    destruct (decide (String c EmptyString = k)) as [->|Hne]; [tauto|].
    split; [intros [[?|[_ ?]]|?]|intros [?|[?|?]]]; try tauto; congruence.
Qed.

(** [assigned_keys] lists the keys [parse_args] assigns, and no other. *)
Lemma parse_loop_keys n : forall l (args : gmap string ArgVal) positional k,
  (length l <= n)%nat ->
  is_Some ((parse_loop l args positional).1 !! k)
  <-> is_Some (args !! k) \/ k ∈ assigned_keys l.
Proof.
  induction n as [|n IH]; intros l args positional k Hn.
  - destruct l; [|simpl in Hn; lia]. cbn. rewrite elem_of_nil. tauto.
  - destruct l as [|arg rest]; [cbn; rewrite elem_of_nil; tauto|].
    simpl in Hn. cbn [parse_loop assigned_keys].
    assert (forall l' key v, (length l' <= n)%nat ->
              is_Some ((parse_loop l' (<[key:=v]> args) positional).1 !! k)
              <-> is_Some (args !! k) \/ k ∈ key :: assigned_keys l') as Hins.
    { intros l' key v Hl'. rewrite IH by done.
      rewrite elem_of_cons, lookup_insert_is_Some.
      destruct (decide (key = k)) as [->|Hne]; [tauto|].
      split; [intros [[?|[_ ?]]|?]|intros [?|[?|?]]]; try tauto; congruence. }
    destruct (PyStr.startswith "--" arg).
    + destruct (PyStr.contains "=" arg).
      * destruct (PyStr.split_once "=" arg) as [key value]. cbn [fst]. apply Hins. lia.
      * destruct rest as [|next rest']; [apply Hins; simpl; lia|].
        destruct (negb (PyStr.startswith "-" next)); apply Hins; simpl in *; lia.
    + destruct (PyStr.startswith "-" arg).
      * rewrite IH by lia. rewrite set_flags_keys, elem_of_app. tauto.
      * apply IH. lia.
Qed.

Lemma first_occurrences_elem keys : forall seen k,
  k ∈ first_occurrences seen keys <-> k ∈ keys /\ k ∉ seen.
Proof.
  induction keys as [|x keys IH]; intros seen k; cbn [first_occurrences].
  - rewrite elem_of_nil. tauto.
  - destruct (bool_decide (x ∈ seen)) eqn:Hx.
    + apply bool_decide_eq_true in Hx. rewrite IH, elem_of_cons.
      split; [tauto|]. intros [[->|?] ?]; tauto.
    + apply bool_decide_eq_false in Hx. rewrite elem_of_cons, IH, !elem_of_cons.
      destruct (decide (k = x)) as [->|Hne]; tauto.
Qed.

Lemma first_occurrences_NoDup keys : forall seen, NoDup (first_occurrences seen keys).
Proof.
  induction keys as [|x keys IH]; intros seen; cbn [first_occurrences]; [constructor|].
  destruct (bool_decide (x ∈ seen)); [apply IH|].
  constructor; [|apply IH].
  rewrite first_occurrences_elem, elem_of_cons. tauto.
Qed.

(** The entries [repr_dict] shows are the keys of the dictionary
    [parse_args] returns, each once. *)
Lemma repr_dict_shows_every_key arg_list :
  let shown := first_occurrences [] (assigned_keys arg_list) in
  NoDup shown
  /\ forall k, k ∈ shown <-> is_Some ((parse_args arg_list).1 !! k).
Proof.
  split; [apply first_occurrences_NoDup|]. intros k. unfold parse_args.
  rewrite first_occurrences_elem, (parse_loop_keys (length arg_list)) by lia.
  rewrite lookup_empty, elem_of_nil. split; [tauto|].
  intros [[? [=]]|?]. tauto.
Qed.


(** * Further properties *)

(** ** Observations on the blocks of a run *)

Lemma logs_app l1 l2 : logs (l1 ++ l2) = logs l1 ++ logs l2.
Proof. apply omap_app. Qed.

Lemma printed_app l1 l2 : printed (l1 ++ l2) = printed l1 ++ printed l2.
Proof. apply omap_app. Qed.

Lemma logged_app lvl l1 l2 : logged lvl (l1 ++ l2) = logged lvl l1 ++ logged lvl l2.
Proof. apply omap_app. Qed.

Lemma forward_refs_app l1 l2 : forward_refs (l1 ++ l2) = forward_refs l1 ++ forward_refs l2.
Proof. apply omap_app. Qed.

Lemma forward_refs_friction reason pending : forward_refs (friction_events reason pending) = [].
Proof.
  with_strategy transparent [friction_events] unfold friction_events. by destruct (_ <? _).
Qed.

Lemma forward_refs_check name base u : forward_refs (check_events name base u) = [].
Proof. with_strategy transparent [check_events] reflexivity. Qed.

Lemma forward_refs_forwarding key ctx detail u pending :
  forward_refs (forwarding_events key ctx detail u pending) = [ctx].
Proof. with_strategy transparent [forwarding_events] reflexivity. Qed.

Lemma forward_refs_input po s text : forward_refs (input_events po s text) = [].
Proof. reflexivity. Qed.

Lemma printed_friction reason pending : printed (friction_events reason pending) = [].
Proof.
  with_strategy transparent [friction_events] unfold friction_events. by destruct (_ <? _).
Qed.

Lemma printed_check name base u : printed (check_events name base u) = [].
Proof. with_strategy transparent [check_events] reflexivity. Qed.

Lemma printed_forwarding key ctx detail u pending :
  printed (forwarding_events key ctx detail u pending) = [].
Proof. with_strategy transparent [forwarding_events] reflexivity. Qed.

Lemma printed_input po s text : printed (input_events po s text) = [].
Proof. reflexivity. Qed.

Lemma prompts_input po s text : prompts (input_events po s text) = [prompt_text po s].
Proof. reflexivity. Qed.

(** The engine logs its checks and forwardings at level [INFO], its
    friction at level [WARN] and what is typed at level [DEBUG]. *)
Lemma logged_friction lvl reason pending :
  lvl <> WARN -> logged lvl (friction_events reason pending) = [].
Proof.
  intros Hlvl. with_strategy transparent [friction_events] unfold friction_events.
  destruct (_ <? _); [|done]. by destruct lvl.
Qed.

Lemma logged_check lvl name base u : lvl <> INFO -> logged lvl (check_events name base u) = [].
Proof. intros Hlvl. with_strategy transparent [check_events] by destruct lvl. Qed.

Lemma logged_forwarding lvl key ctx detail u pending :
  lvl <> INFO -> logged lvl (forwarding_events key ctx detail u pending) = [].
Proof. intros Hlvl. with_strategy transparent [forwarding_events] by destruct lvl. Qed.

Lemma logged_input lvl po s text : lvl <> DEBUG -> logged lvl (input_events po s text) = [].
Proof. intros Hlvl. by destruct lvl. Qed.

#[local] Opaque input_events.

(** ** Running a computation to its end

    A run is computed by the equations of its steps, from the head of the
    computation on: the goal [m w = mkRun ?o ?w' ?evs] is solved and its
    three unknowns are found.  A test must be decided, by computation or by
    a hypothesis. *)

Section Exec.
Context {A B : Type}.

Lemma exec_bind (m : M A) (k : A -> M B) w o1 w1 e1 o w2 e2 :
  m w = mkRun o1 w1 e1 ->
  continue o1 k w1 = mkRun o w2 e2 ->
  bind m k w = mkRun o w2 (e1 ++ e2).
Proof.
  intros Hm Hk. unfold bind. rewrite Hm. cbn [outcome world emitted].
  destruct o1 as [a|e|c]; cbn [continue] in Hk.
  - by rewrite Hk.
  - injection Hk as <- <- <-. by rewrite app_nil_r.
  - injection Hk as <- <- <-. by rewrite app_nil_r.
Qed.

Lemma exec_try (body : M A) (handler : PyExc -> M A) w o1 w1 e1 o w2 e2 :
  body w = mkRun o1 w1 e1 ->
  handle o1 handler w1 = mkRun o w2 e2 ->
  try_except body handler w = mkRun o w2 (e1 ++ e2).
Proof.
  intros Hm Hk. unfold try_except. rewrite Hm. cbn [outcome world emitted].
  destruct o1 as [a|e|c]; cbn [handle] in Hk.
  - injection Hk as <- <- <-. by rewrite app_nil_r.
  - by rewrite Hk.
  - injection Hk as <- <- <-. by rewrite app_nil_r.
Qed.

Lemma exec_prepend evs (r : Run A) o w e :
  r = mkRun o w e -> prepend evs r = mkRun o w (evs ++ e).
Proof. by intros ->. Qed.

Lemma continue_returned a (k : A -> M B) w1 r : k a w1 = r -> continue (Returned a) k w1 = r.
Proof. done. Qed.

Lemma handle_raised e (handler : PyExc -> M A) w1 r :
  handler e w1 = r -> handle (Raised e) handler w1 = r.
Proof. done. Qed.

Lemma test_true (c : bool) (a b : M A) w r :
  c = true -> a w = r -> (if c then a else b) w = r.
Proof. by intros ->. Qed.

Lemma test_false (c : bool) (a b : M A) w r :
  c = false -> b w = r -> (if c then a else b) w = r.
Proof. by intros ->. Qed.

End Exec.

Lemma get_state_run w : get_state w = mkRun (Returned (os_state w)) w [].
Proof. reflexivity. Qed.

Lemma datetime_now_run w :
  datetime_now w = mkRun (Returned (stream_hd (wall_clock w))) (world (datetime_now w)) [].
Proof. reflexivity. Qed.

Lemma time_monotonic_run w :
  time_monotonic w
  = mkRun (Returned (stream_hd (monotonic w))) (world (time_monotonic w)) [].
Proof. reflexivity. Qed.

Lemma random_random_run w :
  random_random w
  = mkRun (Returned (stream_hd (random_draws w))) (world (random_random w)) [].
Proof. reflexivity. Qed.

Lemma random_randint_run lo hi w :
  random_randint lo hi w
  = mkRun (Returned (lo + stream_hd (random_ints w) mod (hi - lo + 1)))
      (world (random_randint lo hi w)) [].
Proof. reflexivity. Qed.

Lemma pseudo_uuid_run w :
  kos_utility.pseudo_uuid w = mkRun (Returned (stream_hd (uuids w))) (next_uuid w) [].
Proof. reflexivity. Qed.

Lemma input_func_run prompt w text rest :
  stdin w = Line text :: rest ->
  input_func prompt w
  = mkRun (Returned (PyStr.strip text)) (with_stdin rest w)
      (input_events (Some prompt) (os_state w) text).
Proof. apply get_user_input_line. Qed.

(** The fields of a world. *)
Ltac world_fields :=
  cbn [negb andb orb os_state with_os_state with_stdin with_monotonic next_uuid forwarded
       pending_reviews
       backlog world datetime_now random_random time_monotonic random_randint
       kos_utility.pseudo_uuid stdin random_draws uuids monotonic wall_clock random_ints
       user_id is_authenticated session_start_time current_directory last_command_ref].

(** Decides a test: by computation, or by a hypothesis on the test as it
    reads once the fields of the world are computed. *)
Ltac settle := first [reflexivity | eassumption | world_fields; first [reflexivity | eassumption]].

(** Runs the computation of the goal; [more] solves the steps that are
    particular to a proof. *)
Ltac exec_with more :=
  lazymatch goal with
  | |- bind _ _ _ = _ => eapply exec_bind; [exec_with more | exec_rest more]
  | |- try_except _ _ _ = _ => eapply exec_try; [exec_with more | exec_handle more]
  | |- prepend _ _ = _ => eapply exec_prepend; exec_with more
  | |- (if ?c then _ else _) _ = _ =>
      first [ eapply test_true; [solve [settle] |]
            | eapply test_false; [solve [settle] |]
            | fail 1 "undecided test" c ];
      exec_with more
  | |- ret _ _ = _ => apply ret_run
  | |- raise _ _ = _ => apply raise_run
  | |- sys_exit _ _ = _ => apply sys_exit_run
  | |- emit _ _ = _ => apply emit_run
  | |- get_state _ = _ => apply get_state_run
  | |- modify_state _ _ = _ => apply modify_state_run
  | |- datetime_now _ = _ => apply datetime_now_run
  | |- time_monotonic _ = _ => apply time_monotonic_run
  | |- random_random _ = _ => apply random_random_run
  | |- random_randint _ _ _ = _ => apply random_randint_run
  | |- kos_utility.pseudo_uuid _ = _ => apply pseudo_uuid_run
  | |- kos_utility.sleep_random _ _ = _ => apply sleep_run
  | |- kos_bureaucracy.log_system_message _ _ _ = _ => apply log_run
  | |- kos_bureaucracy.apply_procedural_friction _ _ = _ => apply friction_run
  | |- kos_bureaucracy.simulate_forwarding _ _ _ _ = _ => apply forwarding_run
  | |- kos_bureaucracy.perform_simulated_check _ _ _ = _ => apply check_run
  | |- input_func _ _ = _ =>
      eapply input_func_run; world_fields; first [eassumption | reflexivity]
  | |- _ => more
  end
with exec_rest more :=
  lazymatch goal with
  | |- continue (Returned _) _ _ = _ =>
      apply continue_returned; cbv beta iota; exec_with more
  | |- continue (Raised _) _ _ = _ => reflexivity
  | |- continue (Exited _) _ _ = _ => reflexivity
  end
with exec_handle more :=
  lazymatch goal with
  | |- handle (Raised _) _ _ = _ => apply handle_raised; cbv beta iota; exec_with more
  | |- handle _ _ _ = _ => reflexivity
  end.

Ltac exec := exec_with ltac:(fail "no equation for this step").

(** The observation the goal asks for, computed block by block. *)
Section ObservationBlocks.
Context {A B : Type} (f : A -> option B).

Lemma omap_blocks (l1 l2 : list A) r1 r2 :
  omap f l1 = r1 -> omap f l2 = r2 -> omap f (l1 ++ l2) = r1 ++ r2.
Proof. intros <- <-. apply omap_app. Qed.

End ObservationBlocks.

Lemma forward_keys_blocks l1 l2 r1 r2 :
  forward_keys l1 = r1 -> forward_keys l2 = r2 -> forward_keys (l1 ++ l2) = r1 ++ r2.
Proof. apply omap_blocks. Qed.

Lemma forward_refs_blocks l1 l2 r1 r2 :
  forward_refs l1 = r1 -> forward_refs l2 = r2 -> forward_refs (l1 ++ l2) = r1 ++ r2.
Proof. apply omap_blocks. Qed.

Lemma prompts_blocks l1 l2 r1 r2 :
  prompts l1 = r1 -> prompts l2 = r2 -> prompts (l1 ++ l2) = r1 ++ r2.
Proof. apply omap_blocks. Qed.

Lemma printed_blocks l1 l2 r1 r2 :
  printed l1 = r1 -> printed l2 = r2 -> printed (l1 ++ l2) = r1 ++ r2.
Proof. apply omap_blocks. Qed.

Lemma friction_reasons_blocks l1 l2 r1 r2 :
  friction_reasons l1 = r1 -> friction_reasons l2 = r2 ->
  friction_reasons (l1 ++ l2) = r1 ++ r2.
Proof. apply omap_blocks. Qed.

Lemma logged_blocks lvl l1 l2 r1 r2 :
  logged lvl l1 = r1 -> logged lvl l2 = r2 -> logged lvl (l1 ++ l2) = r1 ++ r2.
Proof. apply omap_blocks. Qed.

Lemma logs_blocks l1 l2 r1 r2 : logs l1 = r1 -> logs l2 = r2 -> logs (l1 ++ l2) = r1 ++ r2.
Proof. apply omap_blocks. Qed.

(** Solves [observation evs = ?r], block by block. *)
Ltac blocks :=
  lazymatch goal with
  | |- forward_keys (_ ++ _) = _ => apply forward_keys_blocks; blocks
  | |- forward_refs (_ ++ _) = _ => apply forward_refs_blocks; blocks
  | |- prompts (_ ++ _) = _ => apply prompts_blocks; blocks
  | |- printed (_ ++ _) = _ => apply printed_blocks; blocks
  | |- friction_reasons (_ ++ _) = _ => apply friction_reasons_blocks; blocks
  | |- logged _ (_ ++ _) = _ => apply logged_blocks; blocks
  | |- logs (_ ++ _) = _ => apply logs_blocks; blocks
  | |- forward_keys (friction_events _ _) = _ => apply forward_keys_friction
  | |- forward_keys (forwarding_events _ _ _ _ _) = _ => apply forward_keys_forwarding
  | |- forward_keys (check_events _ _ _) = _ => apply forward_keys_check
  | |- forward_keys (input_events _ _ _) = _ => apply forward_keys_input
  | |- forward_refs (friction_events _ _) = _ => apply forward_refs_friction
  | |- forward_refs (forwarding_events _ _ _ _ _) = _ => apply forward_refs_forwarding
  | |- forward_refs (check_events _ _ _) = _ => apply forward_refs_check
  | |- forward_refs (input_events _ _ _) = _ => apply forward_refs_input
  | |- prompts (friction_events _ _) = _ => apply prompts_friction
  | |- prompts (forwarding_events _ _ _ _ _) = _ => apply prompts_forwarding
  | |- prompts (check_events _ _ _) = _ => apply prompts_check
  | |- prompts (input_events _ _ _) = _ => apply prompts_input
  | |- printed (friction_events _ _) = _ => apply printed_friction
  | |- printed (forwarding_events _ _ _ _ _) = _ => apply printed_forwarding
  | |- printed (check_events _ _ _) = _ => apply printed_check
  | |- printed (input_events _ _ _) = _ => apply printed_input
  | |- friction_reasons (friction_events _ _) = _ => apply friction_reasons_friction
  | |- friction_reasons (forwarding_events _ _ _ _ _) = _ => apply friction_reasons_forwarding
  | |- friction_reasons (check_events _ _ _) = _ => apply friction_reasons_check
  | |- logged _ (friction_events _ _) = _ => apply logged_friction; discriminate
  | |- logged _ (forwarding_events _ _ _ _ _) = _ => apply logged_forwarding; discriminate
  | |- logged _ (check_events _ _ _) = _ => apply logged_check; discriminate
  | |- logged _ (input_events _ _ _) = _ => apply logged_input; discriminate
  | |- _ =>
      first [ eassumption
            | cbn [forward_keys forward_refs prompts printed friction_reasons logged logs omap
                   list_omap];
              reflexivity ]
  end.

(** Replaces the observation of the goal by its value. *)
Ltac observe_with obs evs :=
  let E := fresh "E" in
  eassert (obs evs = _) as E by (etransitivity; [blocks | cbn [app]; reflexivity]);
  rewrite E; clear E.

Ltac observe_goal :=
  repeat match goal with
         | |- context [forward_keys ?evs] =>
             lazymatch evs with _ ++ _ => observe_with forward_keys evs end
         | |- context [forward_refs ?evs] =>
             lazymatch evs with _ ++ _ => observe_with forward_refs evs end
         | |- context [prompts ?evs] =>
             lazymatch evs with _ ++ _ => observe_with prompts evs end
         | |- context [printed ?evs] =>
             lazymatch evs with _ ++ _ => observe_with printed evs end
         | |- context [friction_reasons ?evs] =>
             lazymatch evs with _ ++ _ => observe_with friction_reasons evs end
         | |- context [logs ?evs] =>
             lazymatch evs with _ ++ _ => observe_with logs evs end
         | |- context [logged ?lvl ?evs] =>
             lazymatch evs with _ ++ _ => observe_with (logged lvl) evs end
         end.

(** Splits the conjunction of the goal and computes each observation. *)
Ltac observe_each :=
  repeat match goal with |- _ /\ _ => split end; observe_goal.

(** The fields of the worlds of the goal and of the hypotheses. *)
Ltac world_all :=
  unfold with_stdin in *;
  cbn [os_state with_os_state with_monotonic next_uuid forwarded pending_reviews backlog world
       datetime_now random_random time_monotonic kos_utility.pseudo_uuid
       stdin random_draws uuids monotonic wall_clock random_ints user_id is_authenticated
       session_start_time current_directory last_command_ref] in *.


(** ** The time limit within the budget *)

(** X5.  With the timer started and the elapsed time within the limit,
    [check_time_limit] returns: it reads the monotonic clock once, leaves
    the state alone, prints nothing, and logs one line: a debug line up to
    eight tenths of the limit, a warning above.  The program computes the
    elapsed time and the threshold in floating point, where the threshold is
    144.0 and an elapsed time less than [FLOAT_STEP_AT_WARNING] above 144 may
    round to it: the level is stated outside that gap. *)
Theorem X5_check_time_limit_within_budget step_name w :
  Qeq_bool (session_start_time (os_state w)) 0 = false ->
  let elapsed := (stream_hd (monotonic w) - session_start_time (os_state w))%Q in
  let warning_from := (inject_Z kos_config.TIME_LIMIT_SECONDS * (8 # 10))%Q in
  (elapsed <= inject_Z kos_config.TIME_LIMIT_SECONDS)%Q ->
  let r := check_time_limit step_name w in
  outcome r = Returned tt
  /\ os_state (world r) = os_state w
  /\ monotonic (world r) = stream_tl (monotonic w)
  /\ printed (emitted r) = []
  /\ length (logs (emitted r)) = 1%nat
  /\ ((elapsed <= warning_from)%Q -> log_levels (emitted r) = [DEBUG])
  /\ ((warning_from + FLOAT_STEP_AT_WARNING <= elapsed)%Q -> log_levels (emitted r) = [WARN]).
Proof.
  intros Hon elapsed warning_from Hwithin r. subst r.
  apply Qltb_false in Hwithin.
  unfold check_time_limit. cbv zeta. run_step. rewrite Hon. run_step.
  fold elapsed. rewrite Hwithin. fold warning_from.
  destruct (Qltb warning_from elapsed) eqn:Hwarn;
    repeat run_step; close_run; cbn [outcome world emitted].
  - repeat split; try done.
    intros Hle. apply Qltb_false in Hle. congruence.
  - repeat split; try done.
    intros Hge. exfalso.
    assert (warning_from < elapsed)%Q as Hlt.
    { eapply Qlt_le_trans; [|exact Hge].
      rewrite <- (Qplus_0_r warning_from) at 1. apply Qplus_lt_r. reflexivity. }
    apply Qltb_true in Hlt. congruence.
Qed.

Lemma X5_early_and_late_witness :
  (let r := check_time_limit (PStr "Idle State") (world_of alice_session [] 100 (mkWallTime 2 30 0) (1 # 2)) in
   outcome r = Returned tt /\ log_levels (emitted r) = [DEBUG])
  /\ (let r := check_time_limit (PStr "Idle State") (world_of alice_session [] 181 (mkWallTime 2 30 0) (1 # 2)) in
      outcome r = Returned tt /\ log_levels (emitted r) = [WARN]).
Proof.
  split.
  - destruct (X5_check_time_limit_within_budget (PStr "Idle State")
                (world_of alice_session [] 100 (mkWallTime 2 30 0) (1 # 2)) eq_refl)
      as (Hout & _ & _ & _ & _ & Hdebug & _); [vm_compute; discriminate|].
    split; [exact Hout|]. apply Hdebug. vm_compute. discriminate.
  - destruct (X5_check_time_limit_within_budget (PStr "Idle State")
                (world_of alice_session [] 181 (mkWallTime 2 30 0) (1 # 2)) eq_refl)
      as (Hout & _ & _ & _ & _ & _ & Hwarn); [vm_compute; discriminate|].
    split; [exact Hout|]. apply Hwarn. vm_compute. discriminate.
Defined.

(** ** Reading the prompt *)

Lemma get_user_input_interrupt prompt_override w rest :
  stdin w = Interrupt :: rest ->
  get_user_input prompt_override w
  = mkRun (Returned "") (with_stdin rest w)
      [EPrompt (prompt_text prompt_override (os_state w)); EPrint "";
       ELog WARN "Keyboard interrupt (SIGINT) received. Use 'khalt' or 'exit'.";
       ESleep kos_config.BASE_MSG_DELAY_MS].
Proof.
  intros Hin. unfold get_user_input. cbv zeta.
  do 2 run_step. rewrite (bind_read_stdin _ _ _ _ Hin).
  repeat run_step. close_run. reflexivity.
Qed.

(** A call of [input()] that fails: it raises an exception of another class,
    which no clause of [get_user_input] catches. *)
Lemma get_user_input_fails prompt_override w e rest :
  stdin w = InputError e :: rest ->
  get_user_input prompt_override w
  = mkRun (Raised e) (with_stdin rest w)
      [EPrompt (prompt_text prompt_override (os_state w))].
Proof.
  intros Hin. unfold get_user_input. cbv zeta.
  do 2 run_step. rewrite (bind_read_stdin _ _ _ _ Hin).
  close_run. reflexivity.
Qed.

(** The forced shutdown: two checks, one [SHUTDOWN] event, the flag
    cleared, and the exit. *)
Lemma forced_shutdown_run args_dict positional_args get_input_func w :
  exists evs,
    kos_shutdown.handle_shutdown call_check_time_limit args_dict positional_args
      get_input_func true w
    = mkRun (Exited 0)
        (with_os_state (set_is_authenticated false (forwarded (os_state w)))
           (Nat.iter 3 next_uuid w)) evs
    /\ forward_keys evs = ["SHUTDOWN"]
    /\ prompts evs = [].
Proof.
  unfold kos_shutdown.handle_shutdown. cbv zeta. cbn [truthy negb].
  assert (negb (is_authenticated (os_state w)) && false = false) as Hguard
    by apply andb_false_r.
  eexists. split; [etransitivity; [exec|reflexivity]|].
  by observe_each.
Qed.

(** At the end of the input [input()] raises [EOFError]: the forced
    shutdown follows and exits. *)
Lemma get_user_input_eof prompt_override w :
  (stdin w = [] \/ exists rest, stdin w = Eof :: rest) ->
  let r := get_user_input prompt_override w in
  outcome r = Exited 0
  /\ os_state (world r) = set_is_authenticated false (forwarded (os_state w))
  /\ forward_keys (emitted r) = ["SHUTDOWN"]
  /\ stdin (world r) = tl (stdin w).
Proof.
  intros Hin. unfold get_user_input. cbv zeta. do 2 run_step.
  assert (exists w', os_state w' = os_state w /\ stdin w' = tl (stdin w)
                     /\ forall B (k : Stdin -> M B), bind read_stdin k w = k Eof w')
    as (w' & Hs & Ht & Hread).
  { destruct Hin as [Hin|[rest Hin]].
    - exists w. split; [done|]. split; [by rewrite Hin|].
      intros B k. apply bind_silent. unfold read_stdin. by rewrite Hin.
    - exists (with_stdin rest w). split; [done|]. split; [by rewrite Hin|].
      intros B k. by apply bind_read_stdin. }
  rewrite Hread. run_step.
  destruct (forced_shutdown_run ∅ [] None w') as (evs & Hrun & Hkeys & _).
  rewrite (bind_exited _ _ _ 0) by (by rewrite Hrun).
  rewrite Hrun, !prepend_mkRun. cbn [outcome world emitted os_state with_os_state stdin].
  rewrite Hs.
  change (EPrompt ?p :: ?l) with ([EPrompt p] ++ l). rewrite !forward_keys_app, Hkeys.
  by repeat split.
Qed.

(** X6.  What [get_user_input] does with what [input()] meets.  A line (of
    ASCII characters, where [PyStr.strip] is [str.strip]) is returned
    stripped, the state left alone.  An interrupt prints an empty line, logs
    a warning and returns the empty string.  At the end of the input the
    call never returns: the forced shutdown runs, forwards one [SHUTDOWN]
    event, clears the authentication flag and exits with status 0, whether a
    session is open or not.  Any other exception of [input()] (the
    [UnicodeDecodeError] of bytes that cannot be decoded, for one) leaves the
    call as it is: no clause catches it and nothing is logged. *)
Theorem X6_get_user_input_cases prompt_override w :
  (forall text rest, stdin w = Line text :: rest -> PyStr.isascii text = true ->
     let r := get_user_input prompt_override w in
     outcome r = Returned (PyStr.strip text)
     /\ stdin (world r) = rest
     /\ os_state (world r) = os_state w
     /\ length (prompts (emitted r)) = 1%nat
     /\ forward_keys (emitted r) = [])
  /\ (forall rest, stdin w = Interrupt :: rest ->
     let r := get_user_input prompt_override w in
     outcome r = Returned ""
     /\ stdin (world r) = rest
     /\ os_state (world r) = os_state w
     /\ printed (emitted r) = [""]
     /\ log_levels (emitted r) = [WARN]
     /\ forward_keys (emitted r) = [])
  /\ ((stdin w = [] \/ exists rest, stdin w = Eof :: rest) ->
     let r := get_user_input prompt_override w in
     outcome r = Exited 0
     /\ os_state (world r) = set_is_authenticated false (forwarded (os_state w))
     /\ forward_keys (emitted r) = ["SHUTDOWN"])
  /\ (forall e rest, stdin w = InputError e :: rest ->
     let r := get_user_input prompt_override w in
     outcome r = Raised e
     /\ stdin (world r) = rest
     /\ os_state (world r) = os_state w
     /\ logs (emitted r) = []
     /\ forward_keys (emitted r) = []).
Proof.
  split; [|split; [|split]].
  - intros text rest Hin _ r. subst r. by rewrite (get_user_input_line _ _ _ _ Hin).
  - intros rest Hin r. subst r. by rewrite (get_user_input_interrupt _ _ _ Hin).
  - intros Hin. by destruct (get_user_input_eof prompt_override w Hin) as (? & ? & ? & _).
  - intros e rest Hin r. subst r.
    by rewrite (get_user_input_fails _ _ _ _ Hin).
Qed.

Lemma X6_three_inputs_witness :
  outcome (get_user_input None (world_of initial_os_state [Line "  kls  "] 0 (mkWallTime 2 30 0) (1 # 2)))
  = Returned "kls"
  /\ outcome (get_user_input None (world_of initial_os_state [Interrupt] 0 (mkWallTime 2 30 0) (1 # 2)))
     = Returned ""
  /\ outcome (get_user_input None (world_of initial_os_state [] 0 (mkWallTime 2 30 0) (1 # 2)))
     = Exited 0.
Proof.
  split; [|split].
  - exact (proj1 (proj1 (X6_get_user_input_cases None
             (world_of initial_os_state [Line "  kls  "] 0 (mkWallTime 2 30 0) (1 # 2)))
             "  kls  " [] eq_refl eq_refl)).
  - exact (proj1 (proj1 (proj2 (X6_get_user_input_cases None
             (world_of initial_os_state [Interrupt] 0 (mkWallTime 2 30 0) (1 # 2))))
             [] eq_refl)).
  - exact (proj1 (proj1 (proj2 (proj2 (X6_get_user_input_cases None
             (world_of initial_os_state [] 0 (mkWallTime 2 30 0) (1 # 2)))))
             (or_introl eq_refl))).
Defined.

(** ** A pass of the loop on a blank line *)

(** What the idle check leaves when it returns: the world but for one
    reading of the monotonic clock, and at most one log line. *)
Lemma idle_check_returns step_name w :
  outcome (check_time_limit step_name w) = Returned tt ->
  exists w' evs,
    check_time_limit step_name w = mkRun (Returned tt) w' evs
    /\ os_state w' = os_state w /\ stdin w' = stdin w /\ uuids w' = uuids w
    /\ wall_clock w' = wall_clock w /\ random_draws w' = random_draws w
    /\ random_ints w' = random_ints w
    /\ forward_keys evs = [] /\ printed evs = [] /\ prompts evs = []
    /\ friction_reasons evs = []
    /\ logged CMD evs = [] /\ logged ERROR evs = [].
Proof.
  unfold check_time_limit. cbv zeta. run_step.
  destruct (Qeq_bool (session_start_time (os_state w)) 0).
  { intros _. exists w, []. by rewrite ret_run. }
  run_step.
  repeat run_step; close_run; cbn [outcome]; intros Hout; try discriminate;
    eexists _, _; (split; [reflexivity|]); world_run; done.
Qed.

(** X7.  A pass of the command loop that reads a blank line, or meets an
    interrupt at the prompt, does nothing more (provided the idle check of
    the time limit returned): no command reference is drawn or stored, the
    state is as before, nothing is forwarded and no command is logged. *)
Theorem X7_blank_line_is_skipped w x rest :
  outcome (call_check_time_limit [PStr "Idle State"] w) = Returned tt ->
  stdin w = x :: rest ->
  (x = Interrupt \/ exists text, x = Line text /\ PyStr.strip text = "") ->
  let r := command_loop_body w in
  outcome r = Returned tt
  /\ os_state (world r) = os_state w
  /\ stdin (world r) = rest
  /\ uuids (world r) = uuids w
  /\ forward_keys (emitted r) = []
  /\ logged CMD (emitted r) = []
  /\ logged ERROR (emitted r) = [].
Proof.
  intros Hidle Hin Hx r. subst r. unfold command_loop_body.
  cbn [call_check_time_limit] in *.
  destruct (idle_check_returns _ _ Hidle)
    as (w' & evs & Hrun & Hs & Hi & Hu & _ & _ & _ & Hf & _ & _ & _ & Hc & He).
  rewrite (bind_step _ _ _ _ _ _ Hrun). rewrite <- Hi in Hin.
  destruct Hx as [->|(text & -> & Hblank)].
  - rewrite (bind_step _ _ _ _ _ _ (get_user_input_interrupt None w' rest Hin)).
    cbn [PyStr.nonempty negb]. rewrite ret_run, !prepend_mkRun.
    cbn [outcome world emitted]. rewrite forward_keys_app, !logged_app, Hf, Hc, He.
    world_run. done.
  - rewrite (bind_step _ _ _ _ _ _ (get_user_input_line None w' text rest Hin)).
    rewrite Hblank. cbn [PyStr.nonempty negb]. rewrite ret_run, !prepend_mkRun.
    cbn [outcome world emitted]. rewrite forward_keys_app, !logged_app, Hf, Hc, He.
    world_run. done.
Qed.

Lemma X7_spaces_witness :
  let w := world_of initial_os_state [Line "   "] 0 (mkWallTime 2 30 0) (1 # 2) in
  let r := command_loop_body w in
  outcome r = Returned tt
  /\ os_state (world r) = os_state w
  /\ stdin (world r) = []
  /\ uuids (world r) = uuids w
  /\ forward_keys (emitted r) = []
  /\ logged CMD (emitted r) = []
  /\ logged ERROR (emitted r) = [].
Proof.
  apply (X7_blank_line_is_skipped
           (world_of initial_os_state [Line "   "] 0 (mkWallTime 2 30 0) (1 # 2))
           (Line "   ") []).
  - reflexivity.
  - reflexivity.
  - right. exists "   ". split; reflexivity.
Defined.


(** The mandate check computes its verdict from the clearance, the wall
    clock, the backlog and the random draws. *)
Lemma mandate_run clearance w :
  let verdict := mandate_verdict clearance (stream_hd (wall_clock w)) (backlog w)
                   (random_draws w) in
  let r := kos_bureaucracy.check_operational_mandate clearance w in
  outcome r = Returned (bool_decide (verdict = None))
  /\ forward_refs (emitted r) = option_list verdict
  /\ os_state (world r) = (match verdict with Some _ => forwarded (os_state w) | None => os_state w end)
  /\ random_draws (world r)
     = Nat.iter (mandate_draws clearance (stream_hd (wall_clock w)) (backlog w) (random_draws w))
         stream_tl (random_draws w)
  /\ wall_clock (world r) = stream_tl (wall_clock w)
  /\ stdin (world r) = stdin w
  /\ monotonic (world r) = monotonic w
  /\ prompts (emitted r) = []
  /\ printed (emitted r) = []
  /\ logged CMD (emitted r) = []
  /\ forward_keys (emitted r)
     = match verdict with Some _ => ["ARBITRARY_LOCKOUT"] | None => [] end.
Proof.
  intros verdict r.
  enough (exists w' evs,
    kos_bureaucracy.check_operational_mandate clearance w
    = mkRun (Returned (bool_decide (verdict = None))) w' evs
    /\ forward_refs evs = option_list verdict
    /\ os_state w' = (match verdict with Some _ => forwarded (os_state w) | None => os_state w end)
    /\ random_draws w'
       = Nat.iter (mandate_draws clearance (stream_hd (wall_clock w)) (backlog w)
                     (random_draws w))
           stream_tl (random_draws w)
    /\ wall_clock w' = stream_tl (wall_clock w)
    /\ stdin w' = stdin w
    /\ monotonic w' = monotonic w
    /\ prompts evs = []
    /\ printed evs = []
    /\ logged CMD evs = []
    /\ forward_keys evs = match verdict with Some _ => ["ARBITRARY_LOCKOUT"] | None => [] end)
    as (w' & evs & Hrun & H).
  { subst r. rewrite Hrun. split; [reflexivity|exact H]. }
  subst verdict.
  unfold mandate_verdict, mandate_draws, kos_bureaucracy.check_operational_mandate, backlog.
  cbv zeta.
  destruct (String.eqb clearance "FILESYSTEM"
            && (weekday (stream_hd (wall_clock w)) =? kos_config.LOCKOUT_PRIME_MINUTE_FILESYSTEM_DAY))
    eqn:Hday;
    [destruct (kos_bureaucracy.minute_is_prime (minute (stream_hd (wall_clock w)))) eqn:Hprime|];
    cbn [andb].
  2,3: destruct (10 <? pending_reviews (os_state w)) eqn:Hbacklog; cbn [andb];
    [ destruct (Qltb (random_draws w 0%nat) (2 # 10)) eqn:Hdraw;
      [|destruct (Qltb (random_draws w 1%nat) kos_config.LOCKOUT_RANDOM_FAILURE_CHANCE)
          eqn:Hnext]
    | destruct (Qltb (random_draws w 0%nat) kos_config.LOCKOUT_RANDOM_FAILURE_CHANCE)
        eqn:Hdraw ].
  all: eexists _, _; (split; [exec|]).
  all: observe_each; world_all; done.
Qed.

(** X17.  The verdict of [check_operational_mandate] is a function of the
    clearance asked for, the wall clock, the backlog and the random draws:
    rule 1 (clearance [FILESYSTEM], the configured weekday, a prime minute)
    denies without a draw; rule 2 takes a draw only when the backlog is above
    10 and denies when that draw is under 0.2; rule 3 takes the next draw and
    denies when it is under the configured chance.  The call returns [true]
    exactly when no rule denies; a denial forwards one event whose context
    reference names the rule, and raises the backlog by one; the call reads
    the wall clock once and does not read standard input. *)
Theorem X17_mandate_verdict clearance w :
  let now := stream_hd (wall_clock w) in
  let verdict := mandate_verdict clearance now (backlog w) (random_draws w) in
  let r := kos_bureaucracy.check_operational_mandate clearance w in
  outcome r = Returned (bool_decide (verdict = None))
  /\ forward_refs (emitted r) = option_list verdict
  /\ backlog (world r) = backlog w + Z.of_nat (length (option_list verdict))
  /\ random_draws (world r)
     = Nat.iter (mandate_draws clearance now (backlog w) (random_draws w))
         stream_tl (random_draws w)
  /\ wall_clock (world r) = stream_tl (wall_clock w)
  /\ stdin (world r) = stdin w.
Proof.
  intros now verdict r.
  destruct (mandate_run clearance w) as (Hout & Hrefs & Hstate & Hdraws & Hclock & Hin & _).
  fold now verdict r in Hout, Hrefs, Hstate, Hdraws.
  split; [done|]. split; [done|]. split; [|done].
  unfold backlog. rewrite Hstate. destruct verdict; simpl; lia.
Qed.

(** ** The command loop and the mandate *)

(** The start of [dispatch]: the reference is drawn and stored and the
    command is logged; what follows runs in the world [w1]. *)
Lemma dispatch_run line w :
  let command_name_raw := hd EmptyString (PyStr.split_ws line) in
  let w1 := with_os_state (set_last_command_ref (Some (command_ref w)) (os_state w))
              (next_uuid w) in
  let '(args_dict, positional_args) := command_arguments line in
    dispatch line w
    = prepend [ELog CMD ("Processing command: '" +:+ command_name_raw +:+ "', Args: "
                         +:+ repr_dict (command_arg_list line) args_dict
                         +:+ ", Positional: " +:+ repr_list positional_args
                         +:+ ", Ref: " +:+ command_ref w);
               ESleep kos_config.BASE_MSG_DELAY_MS]
        (bind
           (match command_handler_of command_name_raw with
            | Some _ =>
                if negb (bool_decide (command_name_raw ∈ MANDATE_EXEMPT)) then
                  allowed <- kos_bureaucracy.check_operational_mandate "STANDARD";;
                  if negb allowed then
                    kos_bureaucracy.log_system_message
                      ("Command '" +:+ command_name_raw +:+ "' blocked by operational mandate.")
                      WARN;;
                    ret true
                  else ret false
                else ret false
            | None => ret false
            end)
           (fun blocked : bool =>
              if blocked then ret tt
              else
                match command_handler_of command_name_raw with
                | Some h =>
                    try_except
                      (call_handler h args_dict positional_args input_func;;
                       s <- get_state;;
                       kos_bureaucracy.log_system_message
                         ("Command '" +:+ command_name_raw +:+ "' processing complete (Ref: "
                          +:+ default "None" (last_command_ref s) +:+ ").") CMD)
                      (fun e =>
                         kos_bureaucracy.log_system_message
                           ("Runtime error during execution of '" +:+ command_name_raw +:+ "': "
                            +:+ exc_str e) ERROR;;
                         emit (EPrint ("*** Error executing command '" +:+ command_name_raw
                                       +:+ "'. Consult system logs. ***")))
                | None =>
                    if negb (bool_decide (command_name_raw ∈ ["help"])) then
                      kos_bureaucracy.log_system_message
                        ("Unknown command: '" +:+ command_name_raw
                         +:+ "'. Command ignored. Type 'help'.") ERROR
                    else ret tt
                end) w1).
Proof.
  intros command_name_raw w1.
  unfold dispatch, command_handler_of, command_arguments, command_arg_list.
  cbv zeta. fold command_name_raw.
  destruct (PyStr.startswith "./" command_name_raw);
    destruct (parse_args _) as [args_dict positional_args];
    cbv beta iota; by do 3 run_step.
Qed.

(** X8.  A command (typed on a line of ASCII characters) that the table
    knows and the loop does not exempt is preceded by a mandate check for
    the clearance [STANDARD]; when that check denies,
    the handler is not called: nothing is asked or printed, the only event
    forwarded is the denial, the only line logged at level [CMD] is the one
    that announces the command, and the pass ends after a warning that the
    command was blocked.  The exemption compares the token as typed, so
    that a command typed in capitals is looked up but not exempted. *)
Theorem X8_mandate_blocks_command line w ref :
  let command_name_raw := hd EmptyString (PyStr.split_ws line) in
  PyStr.isascii line = true ->
  is_Some (command_handler_of command_name_raw) ->
  command_name_raw ∉ MANDATE_EXEMPT ->
  mandate_verdict "STANDARD" (stream_hd (wall_clock w)) (backlog w) (random_draws w) = Some ref ->
  let r := dispatch line w in
  outcome r = Returned tt
  /\ forward_keys (emitted r) = ["ARBITRARY_LOCKOUT"]
  /\ forward_refs (emitted r) = [ref]
  /\ prompts (emitted r) = []
  /\ printed (emitted r) = []
  /\ stdin (world r) = stdin w
  /\ os_state (world r) = forwarded (set_last_command_ref (Some (command_ref w)) (os_state w))
  /\ length (logged CMD (emitted r)) = 1%nat
  /\ ("Command '" +:+ command_name_raw +:+ "' blocked by operational mandate.")
     ∈ logged WARN (emitted r).
Proof.
  intros command_name_raw _ [c Hc] Hexempt Hverdict r. subst r.
  pose proof (dispatch_run line w) as Hrun. cbv zeta in Hrun.
  destruct (command_arguments line) as [args_dict positional_args]. rewrite Hrun. clear Hrun.
  fold command_name_raw. rewrite Hc.
  rewrite (bool_decide_eq_false_2 _ Hexempt). cbn [negb].
  set (w1 := with_os_state _ (next_uuid w)).
  destruct (mandate_run "STANDARD" w1)
    as (Hout & Hrefs & Hstate & _ & _ & Hin & _ & Hprompts & Hprinted & Hcmd & Hkeys).
  change (stream_hd (wall_clock w1)) with (stream_hd (wall_clock w)) in *.
  change (backlog w1) with (backlog w) in *.
  change (random_draws w1) with (random_draws w) in *.
  rewrite Hverdict in *. rewrite bool_decide_eq_false_2 in Hout by done.
  rewrite bind_assoc. rewrite (bind_returned _ _ _ _ Hout). cbn [negb].
  do 2 run_step. rewrite bind_ret. cbv beta iota. close_run. cbn [outcome world emitted].
  rewrite !forward_keys_app, !forward_refs_app, !prompts_app, !printed_app, !logged_app.
  rewrite Hrefs, Hprompts, Hprinted, Hcmd, Hin, Hstate, Hkeys.
  repeat split; try done.
  apply elem_of_app. right. apply elem_of_app. right. cbn. left.
Qed.

Lemma X8_capitals_witness :
  let w := world_of initial_os_state [] 0 (mkWallTime 2 30 0) 0 in
  let r := dispatch "KLOGIN" w in
  outcome r = Returned tt
  /\ forward_keys (emitted r) = ["ARBITRARY_LOCKOUT"]
  /\ forward_refs (emitted r) = ["SPOTCHECK-FAIL"]
  /\ prompts (emitted r) = [].
Proof.
  destruct (X8_mandate_blocks_command "KLOGIN"
              (world_of initial_os_state [] 0 (mkWallTime 2 30 0) 0) "SPOTCHECK-FAIL")
    as (Hout & Hkeys & Hrefs & Hprompts & _).
  - reflexivity.
  - eexists. vm_compute. reflexivity.
  - apply (bool_decide_unpack _). vm_compute. exact I.
  - vm_compute. reflexivity.
  - repeat split; assumption.
Defined.

Lemma help_handler : command_handler_of "help" = Some (Lambda3 (fun _ _ => print_help)).
Proof. vm_compute. reflexivity. Qed.

(** X9.  The command [help]: the table holds a lambda of three parameters
    and the loop calls every handler with the keyword argument
    [get_input_func], so that the call raises a [TypeError], which the loop
    catches: the pass logs the error and prints the error notice, and the
    help text is not printed. *)
Theorem X9_help_raises line w :
  hd EmptyString (PyStr.split_ws line) = "help" ->
  let r := dispatch line w in
  outcome r = Returned tt
  /\ printed (emitted r) = ["*** Error executing command 'help'. Consult system logs. ***"]
  /\ logged ERROR (emitted r)
     = ["Runtime error during execution of 'help': <lambda>() got an unexpected keyword argument 'get_input_func'"]
  /\ forward_keys (emitted r) = []
  /\ prompts (emitted r) = []
  /\ stdin (world r) = stdin w
  /\ random_draws (world r) = random_draws w
  /\ os_state (world r) = set_last_command_ref (Some (command_ref w)) (os_state w).
Proof.
  intros Hhelp r. subst r.
  pose proof (dispatch_run line w) as Hrun. cbv zeta in Hrun.
  destruct (command_arguments line) as [args_dict positional_args]. rewrite Hrun. clear Hrun.
  rewrite Hhelp, help_handler.
  rewrite bool_decide_eq_true_2 by (by apply (bool_decide_unpack _)).
  cbn [negb]. rewrite bind_ret. cbv beta iota.
  unfold try_except. cbn [call_handler]. rewrite bind_raise. cbn [outcome world emitted].
  run_step. close_run. done.
Qed.

Lemma X9_help_witness :
  let r := dispatch "help" (world_of initial_os_state [] 0 (mkWallTime 2 30 0) 0) in
  outcome r = Returned tt
  /\ printed (emitted r) = ["*** Error executing command 'help'. Consult system logs. ***"].
Proof.
  destruct (X9_help_raises "help" (world_of initial_os_state [] 0 (mkWallTime 2 30 0) 0) eq_refl)
    as (Hout & Hprinted & _).
  split; assumption.
Defined.


(** ** Invariants of the state along a run *)

Lemma lets_escape_suffix mode l' l e :
  l' `suffix_of` l -> lets_escape mode l' e -> lets_escape mode l e.
Proof.
  intros [k ->]. destruct mode; cbn [lets_escape]; [done| |done].
  intros Hin. apply elem_of_app. by right.
Qed.

Section RunSpec.
Variable I : OsState -> Prop.
Variable E : Z -> Prop.
Implicit Types (b : Escapes).

Lemma rs_reads_only b {A} (m : M A) :
  (forall w, os_state (world (m w)) = os_state w) ->
  (forall w, stdin (world (m w)) = stdin w) ->
  (forall w, exists a, outcome (m w) = Returned a) ->
  run_spec I E b m.
Proof.
  intros Hs Hi Ho w HI. rewrite Hs, Hi. split; [done|]. split; [done|].
  destruct (Ho w) as [a ->]. done.
Qed.

Lemma rs_ret b {A} (a : A) : run_spec I E b (ret a).
Proof. apply rs_reads_only; eauto. Qed.

Lemma rs_bind b {A B} (m : M A) (k : A -> M B) :
  run_spec I E b m -> (forall a, run_spec I E b (k a)) -> run_spec I E b (bind m k).
Proof.
  intros Hm Hk w HI. unfold bind. destruct (Hm w HI) as (HI' & Hin & Ho).
  destruct (outcome (m w)) as [a|e|c]; cbn [outcome world]; [|done|done].
  destruct (Hk a _ HI') as (HI'' & Hin' & Ho').
  split; [done|]. split; [by etrans|].
  destruct (outcome (k a (world (m w)))); [done| |done].
  by eapply lets_escape_suffix.
Qed.

Lemma rs_try_except b {A} (m : M A) (h : PyExc -> M A) :
  run_spec I E Anything m -> (forall e, run_spec I E b (h e)) ->
  run_spec I E b (try_except m h).
Proof.
  intros Hm Hh w HI. unfold try_except. destruct (Hm w HI) as (HI' & Hin & Ho).
  destruct (outcome (m w)) as [a|e|c] eqn:Hout; cbn [outcome world].
  - rewrite Hout. done.
  - destruct (Hh e _ HI') as (HI'' & Hin' & Ho').
    split; [done|]. split; [by etrans|].
    destruct (outcome (h e (world (m w)))); [done| |done].
    by eapply lets_escape_suffix.
  - rewrite Hout. done.
Qed.

Lemma rs_weaken b {A} (m : M A) : run_spec I E Nothing m -> run_spec I E b m.
Proof.
  intros Hm w HI. destruct (Hm w HI) as (HI' & Hin & Ho). split; [done|]. split; [done|].
  by destruct (outcome (m w)).
Qed.

Lemma rs_anything b {A} (m : M A) : run_spec I E b m -> run_spec I E Anything m.
Proof.
  intros Hm w HI. destruct (Hm w HI) as (HI' & Hin & Ho). split; [done|]. split; [done|].
  by destruct (outcome (m w)).
Qed.

Lemma rs_raise {A} e : run_spec I E Anything (@raise A e).
Proof. intros w HI. done. Qed.

Lemma rs_sys_exit b {A} c : E c -> run_spec I E b (@sys_exit A c).
Proof. intros Hc w HI. done. Qed.

Lemma rs_emit b e : run_spec I E b (emit e).
Proof. apply rs_reads_only; eauto. Qed.

Lemma rs_get_state b : run_spec I E b get_state.
Proof. apply rs_reads_only; eauto. Qed.

Lemma rs_time_monotonic b : run_spec I E b time_monotonic.
Proof. apply rs_reads_only; eauto. Qed.

Lemma rs_datetime_now b : run_spec I E b datetime_now.
Proof. apply rs_reads_only; eauto. Qed.

Lemma rs_random_random b : run_spec I E b random_random.
Proof. apply rs_reads_only; eauto. Qed.

Lemma rs_random_randint b lo hi : run_spec I E b (random_randint lo hi).
Proof. apply rs_reads_only; eauto. Qed.

Lemma rs_pseudo_uuid b : run_spec I E b kos_utility.pseudo_uuid.
Proof. apply rs_reads_only; eauto. Qed.

Lemma rs_sleep_random b d : run_spec I E b (kos_utility.sleep_random d).
Proof. apply rs_reads_only; eauto. Qed.

Lemma rs_log b message level : run_spec I E b (kos_bureaucracy.log_system_message message level).
Proof. apply rs_reads_only; intros w; rewrite log_run; eauto. Qed.

Lemma rs_friction b reason : run_spec I E b (kos_bureaucracy.apply_procedural_friction reason).
Proof. apply rs_reads_only; intros w; rewrite friction_run; eauto. Qed.

Lemma rs_check b name base : run_spec I E b (kos_bureaucracy.perform_simulated_check name base).
Proof. apply rs_reads_only; intros w; rewrite check_run; eauto. Qed.

Lemma rs_modify_state b f : (forall s, I s -> I (f s)) -> run_spec I E b (modify_state f).
Proof. intros Hf w HI. split; [by apply Hf|done]. Qed.

Lemma rs_forwarding b key ctx detail :
  (forall s, I s -> I (forwarded s)) ->
  run_spec I E b (kos_bureaucracy.simulate_forwarding key ctx detail).
Proof. intros Hf w HI. rewrite forwarding_run. split; [by apply Hf|done]. Qed.

End RunSpec.

Create HintDb rs discriminated.
#[local] Hint Resolve rs_ret rs_raise rs_sys_exit rs_emit rs_get_state rs_time_monotonic
  rs_datetime_now rs_random_random rs_random_randint rs_pseudo_uuid
  rs_sleep_random rs_log rs_friction rs_check rs_modify_state rs_forwarding : rs.

(** Follows the structure of a computation. *)
Ltac rs_step :=
  lazymatch goal with
  | |- run_spec _ _ _ (bind _ _) => apply rs_bind; [|intros]
  | |- run_spec _ _ _ (try_except _ _) => apply rs_try_except; [|intros]
  | |- run_spec _ _ _ (if ?c then _ else _) => destruct c
  | |- run_spec _ _ _ (let '(_, _) := ?r in _) => destruct r
  | |- run_spec _ _ _ (match ?x with _ => _ end) => destruct x
  | |- run_spec _ _ _ _ => solve [eauto with rs]
  end.
Ltac rs := cbv zeta; repeat rs_step.

(** The parts of the program that write nothing but the backlog, the
    command reference and, before an exit, the authentication flag. *)
Section RunSpecEngine.
Variable I : OsState -> Prop.
Variable E : Z -> Prop.
Hypothesis I_forwarded : forall s, I s -> I (forwarded s).
Hypothesis I_logout :
  forall s, I s -> I (set_user_id None s) /\ I (set_is_authenticated false s)
                   /\ I (set_session_start_time 0%Q s).
Hypothesis E_0 : E 0.
Variable check_time : CheckTime.
Variable get_input_func : InputFunc.
Hypothesis rs_check_time : forall args, run_spec I E Anything (check_time args).
Hypothesis rs_get_input_func : forall prompt, run_spec I E Anything (get_input_func prompt).

Lemma I_user_none s : I s -> I (set_user_id None s).
Proof. intros H. by apply I_logout. Qed.
Lemma I_flag_off s : I s -> I (set_is_authenticated false s).
Proof. intros H. by apply I_logout. Qed.
Lemma I_start_0 s : I s -> I (set_session_start_time 0%Q s).
Proof. intros H. by apply I_logout. Qed.
Hint Resolve I_forwarded I_user_none I_flag_off I_start_0 E_0 rs_check_time rs_get_input_func
  : rs.

Lemma rs_mandate b clearance :
  run_spec I E b (kos_bureaucracy.check_operational_mandate clearance).
Proof. unfold kos_bureaucracy.check_operational_mandate. rs. Qed.
Hint Resolve rs_mandate : rs.

Lemma rs_verify_action_intent name requires_purpose purpose requires_reauth :
  run_spec I E Anything (kos_bureaucracy.verify_action_intent check_time name get_input_func
                       requires_purpose purpose requires_reauth).
Proof. unfold kos_bureaucracy.verify_action_intent. rs. Qed.
Hint Resolve rs_verify_action_intent : rs.

Lemma rs_handle_logout args_dict positional_args :
  run_spec I E Anything (kos_auth.handle_logout args_dict positional_args get_input_func).
Proof. unfold kos_auth.handle_logout. rs. Qed.

Lemma rs_handle_ls args_dict positional_args :
  run_spec I E Anything (kos_fs.handle_ls check_time args_dict positional_args get_input_func).
Proof. unfold kos_fs.handle_ls. rs. Qed.

Lemma rs_handle_status args_dict positional_args :
  run_spec I E Anything (kos_status.handle_status check_time args_dict positional_args
                       get_input_func).
Proof. unfold kos_status.handle_status. rs. Qed.

Lemma rs_handle_exec args_dict positional_args :
  run_spec I E Anything (kos_proc.handle_exec check_time args_dict positional_args get_input_func).
Proof. unfold kos_proc.handle_exec. rs. Qed.

Lemma rs_for_each {A} (l : list A) (body : A -> M unit) :
  (forall x, run_spec I E Anything (body x)) -> run_spec I E Anything (kos_rejection.for_each l body).
Proof.
  intros Hbody. induction l as [|x l IH]; simpl; [apply rs_ret|].
  apply rs_bind; [apply Hbody|done].
Qed.

Lemma rs_verification_cycle line cycle :
  run_spec I E Anything (kos_rejection.verification_cycle check_time line get_input_func cycle).
Proof. unfold kos_rejection.verification_cycle. rs. Qed.

Lemma rs_handle_rejected_command name args_dict positional_args :
  run_spec I E Anything (kos_rejection.handle_rejected_command check_time name args_dict
                       positional_args get_input_func).
Proof.
  unfold kos_rejection.handle_rejected_command, random_choice. rs.
  apply rs_for_each, rs_verification_cycle.
Qed.

Lemma rs_handle_shutdown args_dict positional_args (forced : bool) :
  run_spec I E Anything (kos_shutdown.handle_shutdown check_time args_dict positional_args
                       (Some get_input_func) forced).
Proof. unfold kos_shutdown.handle_shutdown. rs. Qed.

(** The login, for an invariant its three writes keep. *)
Lemma rs_handle_login args_dict positional_args :
  (forall s name t, I s ->
     I (set_user_id (Some name) s) /\ I (set_is_authenticated true s)
     /\ I (set_session_start_time t s)) ->
  run_spec I E Anything (kos_auth.handle_login check_time args_dict positional_args get_input_func).
Proof.
  intros Hlogin.
  assert (forall s name, I s -> I (set_user_id (Some name) s))
    by (intros s name Hs; by destruct (Hlogin s name 0%Q Hs) as (? & ? & ?)).
  assert (forall s, I s -> I (set_is_authenticated true s))
    by (intros s Hs; by destruct (Hlogin s "" 0%Q Hs) as (? & ? & ?)).
  assert (forall s t, I s -> I (set_session_start_time t s))
    by (intros s t Hs; by destruct (Hlogin s "" t Hs) as (? & ? & ?)).
  unfold kos_auth.handle_login. rs.
Qed.

End RunSpecEngine.

(** The time limit, when the status 2 is an accepted exit. *)
Lemma rs_check_time_limit I E b step_name :
  E 2 -> run_spec I E b (check_time_limit step_name).
Proof. intros HE. unfold check_time_limit. rs. Qed.

Lemma rs_call_check_time_limit I E args :
  E 2 -> run_spec I E Anything (call_check_time_limit args).
Proof.
  intros HE. unfold call_check_time_limit.
  destruct args as [|a [|a' args]]; auto using rs_check_time_limit, rs_raise.
Qed.

(** The command loop, given what the timer and the login do to the
    invariant. *)
Section RunSpecLoop.
Variable I : OsState -> Prop.
Variable E : Z -> Prop.
Hypothesis I_forwarded : forall s, I s -> I (forwarded s).
Hypothesis I_logout :
  forall s, I s -> I (set_user_id None s) /\ I (set_is_authenticated false s)
                   /\ I (set_session_start_time 0%Q s).
Hypothesis I_ref : forall s v, I s -> I (set_last_command_ref v s).
Hypothesis E_0 : E 0.
Hypothesis rs_timer : forall args, run_spec I E Anything (call_check_time_limit args).
Hypothesis rs_idle : run_spec I E Nothing (call_check_time_limit [PStr "Idle State"]).
Hypothesis rs_login : forall args_dict positional_args,
  run_spec I E Anything (kos_auth.handle_login call_check_time_limit args_dict positional_args
                       input_func).
Hint Resolve I_forwarded I_ref E_0 rs_timer rs_idle rs_login : rs.

Lemma rs_forced_shutdown b args_dict positional_args get_input_func :
  run_spec I E b (kos_shutdown.handle_shutdown call_check_time_limit args_dict positional_args
                    get_input_func true).
Proof.
  intros w HI.
  destruct (forced_shutdown_run args_dict positional_args get_input_func w)
    as (evs & -> & _).
  cbn [outcome world os_state with_os_state stdin].
  split; [by apply I_logout, I_forwarded|]. split; [done|apply E_0].
Qed.

(** [get_user_input] lets the exception of the item it reads escape, when
    [input()] fails on it, and nothing else. *)
Lemma rs_get_user_input prompt_override :
  run_spec I E InputErrors (get_user_input prompt_override).
Proof.
  intros w HI. destruct (stdin w) as [|[text| | |e] rest] eqn:Hin.
  - destruct (get_user_input_eof prompt_override w (or_introl Hin)) as (-> & -> & _ & ->).
    rewrite Hin. split; [by apply I_logout, I_forwarded|]. split; [done|apply E_0].
  - rewrite (get_user_input_line _ _ _ _ Hin). cbn [outcome world os_state stdin with_stdin].
    split; [done|]. split; [by apply suffix_cons_r|done].
  - destruct (get_user_input_eof prompt_override w (or_intror (ex_intro _ rest Hin)))
      as (-> & -> & _ & ->).
    rewrite Hin. split; [by apply I_logout, I_forwarded|].
    split; [by apply suffix_cons_r|apply E_0].
  - rewrite (get_user_input_interrupt _ _ _ Hin).
    cbn [outcome world os_state stdin with_stdin].
    split; [done|]. split; [by apply suffix_cons_r|done].
  - rewrite (get_user_input_fails _ _ _ _ Hin).
    cbn [outcome world os_state stdin with_stdin lets_escape].
    split; [done|]. split; [by apply suffix_cons_r|].
    apply elem_of_cons. by left.
Qed.

Lemma rs_input_func prompt : run_spec I E Anything (input_func prompt).
Proof. eapply rs_anything, rs_get_user_input. Qed.
Hint Resolve rs_input_func : rs.

Lemma rs_initialize_system b : run_spec I E b initialize_system.
Proof. unfold initialize_system. rs. Qed.

(** Every entry of the command table. *)
Lemma rs_call_handler key c args_dict positional_args :
  COMMANDS !! key = Some c ->
  run_spec I E Anything (call_handler c args_dict positional_args input_func).
Proof.
  intros Hc. unfold COMMANDS in Hc. cbv zeta in Hc.
  apply elem_of_list_to_map_2 in Hc.
  assert (forall p, run_spec I E Anything (input_func p)) as Hi by apply rs_input_func.
  repeat (apply elem_of_cons in Hc as [Hc|Hc];
          [injection Hc as _ ->; cbn [call_handler];
           lazymatch goal with
           | |- run_spec _ _ _ (kos_auth.handle_login _ _ _ _) => apply rs_login
           | |- run_spec _ _ _ (kos_auth.handle_logout _ _ _) => by apply rs_handle_logout
           | |- run_spec _ _ _ (kos_fs.handle_ls _ _ _ _) => by apply rs_handle_ls
           | |- run_spec _ _ _ (kos_proc.handle_exec _ _ _ _) => by apply rs_handle_exec
           | |- run_spec _ _ _ (kos_status.handle_status _ _ _ _) => by apply rs_handle_status
           | |- run_spec _ _ _ (kos_shutdown.handle_shutdown _ _ _ _ _) =>
               by apply rs_handle_shutdown
           | |- run_spec _ _ _ (raise _) => apply rs_raise
           end|]).
  by apply elem_of_nil in Hc.
Qed.

Lemma rs_dispatch line : run_spec I E Nothing (dispatch line).
Proof.
  unfold dispatch. cbv zeta.
  destruct (PyStr.startswith "./" _); destruct (parse_args _) as [args_dict positional_args].
  all: match goal with
       | |- context [match ?h with Some _ => _ | None => _ end] => destruct h as [c|] eqn:Hc
       end.
  all: rs.
  all: try (by apply rs_mandate).
  all: eauto using rs_call_handler.
Qed.

(** A pass of the loop lets nothing escape but the exception of a failing
    [input()] at the prompt. *)
Lemma rs_command_loop_body : run_spec I E InputErrors command_loop_body.
Proof.
  unfold command_loop_body.
  apply rs_bind; [apply rs_weaken, rs_idle|intros _].
  apply rs_bind; [apply rs_get_user_input|intros line].
  destruct (negb (PyStr.nonempty line)); [apply rs_ret|apply rs_weaken, rs_dispatch].
Qed.

Lemma rs_command_loop fuel : run_spec I E InputErrors (command_loop fuel).
Proof.
  induction fuel as [|n IH]; simpl; [apply rs_ret|].
  apply rs_bind; [apply rs_command_loop_body|done].
Qed.

End RunSpecLoop.

(** ** The first token of a line *)

Lemma split_ws_go_some w s : PyStr.split_ws_go (Some w) s <> [].
Proof.
  revert w. induction s as [|c t IH]; intros w; cbn [PyStr.split_ws_go]; [done|].
  destruct (PyStr.is_space c); [done|apply IH].
Qed.

Lemma lstrip_head s :
  PyStr.lstrip s = EmptyString
  \/ exists c t, PyStr.lstrip s = String c t /\ PyStr.is_space c = false.
Proof.
  induction s as [|c t IH]; cbn [PyStr.lstrip]; [by left|].
  destruct (PyStr.is_space c) eqn:Hc; [done|]. right. by exists c, t.
Qed.

Lemma rstrip_head c t :
  PyStr.is_space c = false -> exists t', PyStr.rstrip (String c t) = String c t'.
Proof.
  intros Hc. cbn [PyStr.rstrip]. rewrite Hc. destruct (PyStr.rstrip t); eauto.
Qed.

(** A line that is not empty once stripped has a first token. *)
Lemma first_token_exists text :
  PyStr.nonempty (PyStr.strip text) = true -> PyStr.split_ws (PyStr.strip text) <> [].
Proof.
  unfold PyStr.strip. intros Hne.
  destruct (lstrip_head text) as [Hl|(c & t & Hl & Hc)]; rewrite Hl in *; [done|].
  destruct (rstrip_head c t Hc) as [t' ->].
  unfold PyStr.split_ws. cbn [PyStr.split_ws_go]. rewrite Hc. apply split_ws_go_some.
Qed.

(** ** How the command loop can end *)

Section EndsWell.
Let Inv := fun _ : OsState => True.

Lemma timer_ends_well args : run_spec Inv exit_statuses Anything (call_check_time_limit args).
Proof. apply rs_call_check_time_limit. by right. Qed.

Lemma idle_check_ends_well :
  run_spec Inv exit_statuses Nothing (call_check_time_limit [PStr "Idle State"]).
Proof. apply rs_check_time_limit. by right. Qed.

Lemma input_ends_well prompt : run_spec Inv exit_statuses Anything (input_func prompt).
Proof. apply rs_input_func; [done|done|by left]. Qed.

Lemma login_ends_well args_dict positional_args :
  run_spec Inv exit_statuses Anything
    (kos_auth.handle_login call_check_time_limit args_dict positional_args input_func).
Proof.
  apply rs_handle_login; [done|apply timer_ends_well|apply input_ends_well|done].
Qed.

Lemma dispatch_ends_well line : run_spec Inv exit_statuses Nothing (dispatch line).
Proof.
  apply rs_dispatch; [done|done|done|by left|apply timer_ends_well|apply login_ends_well].
Qed.

Lemma command_loop_ends_well fuel :
  run_spec Inv exit_statuses InputErrors (command_loop fuel).
Proof.
  apply rs_command_loop;
    [done|done|done|by left|apply timer_ends_well|apply idle_check_ends_well
    |apply login_ends_well].
Qed.

End EndsWell.

(** X10.  How the command loop can end, whatever standard input holds and
    whatever the clocks and the random generator answer.  The only exception
    that escapes the loop is one that [input()] itself raises ([EOFError] and
    [KeyboardInterrupt] apart, which [get_user_input] catches): the
    [UnicodeDecodeError] of bytes it cannot decode, or the error of a stream
    that cannot be read; as long as [input()] does not fail no exception
    escapes.  An exception raised inside a handler, a failure of [input()] at
    one of its questions included, is caught by the loop, and nothing else in
    a pass raises (in particular a line that is not blank has a first
    token).  When the loop exits, the status is 0 (a shutdown) or 2 (the time
    limit).  Standard input is the only source of interrupts here: a signal
    that arrives while the program sleeps or prints is outside the model. *)
Theorem X10_loop_ends_by_exit_or_input_error :
  (forall fuel w e, outcome (command_loop fuel w) = Raised e -> InputError e ∈ stdin w)
  /\ (forall fuel w c, outcome (command_loop fuel w) = Exited c -> c = 0 \/ c = 2)
  /\ (forall line w e, outcome (dispatch line w) <> Raised e)
  /\ (forall text, PyStr.nonempty (PyStr.strip text) = true ->
        PyStr.split_ws (PyStr.strip text) <> []).
Proof.
  split; [|split; [|split]].
  - intros fuel w e He. destruct (command_loop_ends_well fuel w I) as (_ & _ & Ho).
    by rewrite He in Ho.
  - intros fuel w c Hc. destruct (command_loop_ends_well fuel w I) as (_ & _ & Ho).
    by rewrite Hc in Ho.
  - intros line w e He. destruct (dispatch_ends_well line w I) as (_ & _ & Ho).
    by rewrite He in Ho.
  - apply first_token_exists.
Qed.

(** A line that cannot be decoded, met at the prompt of a loop whose idle
    check returns. *)
Lemma X10_undecodable_prompt_witness :
  let w := world_of initial_os_state [InputError (UnicodeDecodeError "invalid start byte")] 0
             (mkWallTime 2 30 0) (1 # 2) in
  outcome (command_loop 1 w) = Raised (UnicodeDecodeError "invalid start byte")
  /\ InputError (UnicodeDecodeError "invalid start byte") ∈ stdin w.
Proof.
  intros w.
  assert (outcome (command_loop 1 w) = Raised (UnicodeDecodeError "invalid start byte")) as Hout
    by (vm_compute; reflexivity).
  split; [exact Hout|].
  exact (proj1 X10_loop_ends_by_exit_or_input_error 1%nat w _ Hout).
Defined.

(** ** No session is ever opened *)

Lemma no_session_forwarded s : no_session s -> no_session (forwarded s).
Proof. by intros (? & ? & ?). Qed.

Lemma no_session_ref s v : no_session s -> no_session (set_last_command_ref v s).
Proof. by intros (? & ? & ?). Qed.

Lemma no_session_logout s :
  no_session s ->
  no_session (set_user_id None s) /\ no_session (set_is_authenticated false s)
  /\ no_session (set_session_start_time 0%Q s).
Proof. by intros (? & ? & ?). Qed.

(** Without a session the timer is off and the login raises. *)
Lemma rs_timer_off E args : run_spec no_session E Anything (call_check_time_limit args).
Proof.
  intros w (Hauth & Huser & Hoff). unfold call_check_time_limit.
  destruct args as [|a [|a' args]]; rewrite ?check_time_limit_timer_off by done; done.
Qed.

Lemma rs_idle_off E : run_spec no_session E Nothing (call_check_time_limit [PStr "Idle State"]).
Proof.
  intros w (Hauth & Huser & Hoff). cbn [call_check_time_limit].
  by rewrite check_time_limit_timer_off.
Qed.

Lemma rs_login_raises E args_dict positional_args :
  run_spec no_session E Anything
    (kos_auth.handle_login call_check_time_limit args_dict positional_args input_func).
Proof.
  intros w (Hauth & Huser & Hoff). by rewrite handle_login_raises.
Qed.

(** X11.  As long as no session is open (nobody authenticated, no user, the
    timer off) none is opened: whatever is typed, [klogin] included, every
    pass of the command loop ends without a session, and so does the boot.
    The time limit therefore never fires: the loop goes on, or exits with
    status 0, or lets the exception of a failing [input()] at the prompt
    escape. *)
Theorem X11_no_session_is_ever_opened :
  no_session initial_os_state
  /\ (forall w, no_session (os_state w) -> no_session (os_state (world (initialize_system w))))
  /\ (forall fuel w, no_session (os_state w) ->
        let r := command_loop fuel w in
        no_session (os_state (world r))
        /\ (outcome r = Returned tt \/ outcome r = Exited 0
            \/ exists e, outcome r = Raised e /\ InputError e ∈ stdin w)).
Proof.
  split; [done|]. split.
  - intros w Hw.
    apply (rs_initialize_system no_session (fun c => c = 0) no_session_forwarded Nothing w Hw).
  - intros fuel w Hw r. subst r.
    destruct (rs_command_loop no_session (fun c => c = 0) no_session_forwarded
                no_session_logout no_session_ref eq_refl (rs_timer_off _) (rs_idle_off _)
                (rs_login_raises _) fuel w Hw) as (Hs & _ & Ho).
    split; [done|].
    destruct (outcome (command_loop fuel w)) as [[]|e|c]; [by left| |right; left; by f_equal].
    right. right. by exists e.
Qed.

Lemma X11_klogin_witness :
  let r := command_loop 3 klogin_world in
  no_session (os_state (world r))
  /\ (outcome r = Returned tt \/ outcome r = Exited 0
      \/ exists e, outcome r = Raised e /\ InputError e ∈ stdin klogin_world).
Proof.
  apply (proj2 (proj2 X11_no_session_is_ever_opened) 3%nat klogin_world).
  repeat split.
Defined.

(** ** The working directory *)

(** X20.  No operation writes [current_directory]: it is after every
    operation of the engine, and after any number of passes of the command
    loop, what it was before. *)
Theorem X20_current_directory_is_constant :
  (forall op w, current_directory (os_state (world (run_op op w))) = current_directory (os_state w))
  /\ (forall fuel w,
        current_directory (os_state (world (command_loop fuel w)))
        = current_directory (os_state w)).
Proof.
  assert (forall d, let Inv := fun s => current_directory s = d in
                    let E := fun _ : Z => True in
                    (forall op, run_spec Inv E Anything (run_op op))
                    /\ (forall fuel, run_spec Inv E Anything (command_loop fuel))) as H.
  { intros d Inv E.
    assert (forall s, Inv s -> Inv (forwarded s)) as Hf by done.
    assert (forall s, Inv s -> Inv (set_user_id None s) /\ Inv (set_is_authenticated false s)
                               /\ Inv (set_session_start_time 0%Q s)) as Hl by done.
    assert (forall s v, Inv s -> Inv (set_last_command_ref v s)) as Hr by done.
    assert (forall args, run_spec Inv E Anything (call_check_time_limit args)) as Ht
      by (intros; by apply rs_call_check_time_limit).
    assert (run_spec Inv E Nothing (call_check_time_limit [PStr "Idle State"])) as Hi
      by (by apply rs_check_time_limit).
    assert (forall p, run_spec Inv E Anything (input_func p)) as Hin.
    { intros p. by apply rs_input_func. }
    assert (forall ad pa, run_spec Inv E Anything
              (kos_auth.handle_login call_check_time_limit ad pa input_func)) as Hlogin.
    { intros ad pa. by apply rs_handle_login. }
    split.
    - intros op. destruct op; cbn [run_op].
      + by apply rs_forwarding.
      + apply rs_friction.
      + apply rs_bind; [by apply rs_mandate|intros; apply rs_ret].
      + apply Ht.
      + apply rs_bind; [by apply rs_verify_action_intent|intros; apply rs_ret].
      + apply Hlogin.
      + by apply rs_handle_logout.
      + by apply rs_handle_ls.
      + by apply rs_handle_exec.
      + by apply rs_handle_status.
      + by apply rs_handle_shutdown.
      + by apply rs_handle_rejected_command.
      + apply rs_weaken. by apply rs_dispatch.
      + eapply rs_anything. by apply rs_command_loop_body.
      + by apply rs_initialize_system.
    - intros fuel. eapply rs_anything. by apply rs_command_loop. }
  split.
  - intros op w. by destruct (proj1 (H (current_directory (os_state w))) op w eq_refl).
  - intros fuel w. by destruct (proj2 (H (current_directory (os_state w))) fuel w eq_refl).
Qed.


(** ** The boot *)

Lemma initialize_system_run w :
  exists evs,
    initialize_system w
    = mkRun (Returned tt) (with_os_state (forwarded (os_state w)) (Nat.iter 4 next_uuid w)) evs
    /\ forward_keys evs = ["BOOT"] /\ forward_refs evs = [kos_config.OS_VERSION]
    /\ prompts evs = [] /\ length (printed evs) = 13%nat.
Proof.
  unfold initialize_system. cbv zeta.
  eexists. split; [etransitivity; [exec|reflexivity]|].
  by observe_each.
Qed.

(** X12.  The boot sequence always returns: it reads nothing, asks
    nothing, runs three checks and forwards one [BOOT] event whose reference
    is the kernel build, so that it leaves the state as it was but for a
    backlog one higher; started on the initial state, it leaves a backlog of
    1, which the first prompt shows. *)
Theorem X12_boot w :
  let r := initialize_system w in
  outcome r = Returned tt
  /\ os_state (world r) = forwarded (os_state w)
  /\ forward_keys (emitted r) = ["BOOT"]
  /\ forward_refs (emitted r) = [kos_config.OS_VERSION]
  /\ prompts (emitted r) = []
  /\ stdin (world r) = stdin w
  /\ uuids (world r) = Nat.iter 4 stream_tl (uuids w)
  /\ length (printed (emitted r)) = 13%nat
  /\ (os_state w = initial_os_state ->
      prompt_text None (os_state (world r)) = "[unauthenticated@azmesa /home/user{REV:1}]$ ").
Proof.
  intros r. subst r. destruct (initialize_system_run w) as (evs & -> & Hk & Hr & Hp & Hl).
  cbn [outcome world emitted]. repeat split; try done.
  intros Hinit. cbn [os_state with_os_state]. rewrite Hinit. reflexivity.
Qed.

Lemma X12_fresh_boot_witness :
  prompt_text None (os_state (world (initialize_system fresh_world)))
  = "[unauthenticated@azmesa /home/user{REV:1}]$ ".
Proof.
  destruct (X12_boot fresh_world) as (_ & _ & _ & _ & _ & _ & _ & _ & Hprompt).
  apply Hprompt. reflexivity.
Defined.

(** ** The exit status of the process *)

(** X13.  How the process ends.  The script catches the [SystemExit] of the
    command loop and runs to its end: when the loop exits, with status 0
    after a shutdown or with status 2 after the time limit, the script logs
    that status, prints its closing line and the process ends with status
    0.  When an exception escapes the loop, the script logs it, and its
    handler then fails on the name [kos_utility], which main_kos.py does not
    import: the closing line is printed and the process ends with the
    traceback of a [NameError], not with status 9.  That happens only when
    [input()] fails at the prompt (on bytes it cannot decode, for one); the
    boot never fails, so that status 10 does not occur either.  (Signals
    that arrive outside [input()] are outside the model.) *)
Theorem X13_how_the_process_ends fuel w :
  let loop := command_loop fuel (world (initialize_system w)) in
  let r := main fuel w in
  (forall c, outcome loop = Exited c ->
     outcome r = Returned (ExitStatus 0)
     /\ last (logs (emitted r))
        = Some (SYSTEM, "Session terminated with exit code " +:+ PyStr.of_Z c +:+ ".")
     /\ last (printed (emitted r)) = Some (line_feed +:+ "KafkaOS session ended."))
  /\ (forall e, outcome loop = Raised e ->
     outcome r = Returned (Traceback "NameError: name 'kos_utility' is not defined")
     /\ last (logs (emitted r)) = Some (unhandled_exception_line e)
     /\ last (printed (emitted r)) = Some (line_feed +:+ "KafkaOS session ended."))
  /\ (outcome loop = Returned tt -> outcome r = Returned StillRunning)
  /\ (forall status, outcome r = Returned (ExitStatus status) -> status = 0)
  /\ (forall exc, outcome r = Returned (Traceback exc) ->
        exists e, InputError e ∈ stdin w).
Proof.
  intros loop r. subst loop r. unfold main.
  destruct (initialize_system_run w) as (evs & Hboot & _).
  assert (stdin (world (initialize_system w)) = stdin w) as Hin by (by rewrite Hboot).
  revert Hin. rewrite Hboot. cbn [outcome world emitted].
  set (w1 := with_os_state _ _). intros Hin.
  pose proof (command_loop_ends_well fuel w1 I) as (_ & _ & Hends).
  destruct (outcome (command_loop fuel w1)) as [[]|e|c].
  - repeat split; try done.
  - repeat run_step. close_run. cbn [outcome world emitted].
    split; [done|]. split; [|split; [done|split; [done|]]].
    + intros e' [= <-]. split; [done|].
      rewrite !logs_app, !printed_app.
      cbn [logs printed omap list_omap app]. rewrite ?app_nil_r.
      by rewrite !last_app.
    + intros exc _. exists e. by rewrite <- Hin.
  - repeat run_step. close_run. cbn [outcome world emitted].
    split; [|split; [done|split; [done|split; [|done]]]].
    + intros c' [= <-]. split; [done|].
      rewrite !logs_app, !printed_app.
      cbn [logs printed omap list_omap app]. rewrite ?app_nil_r.
      by rewrite !last_snoc.
    + by intros status [= <-].
Qed.

(** A boot followed by a line that cannot be decoded. *)
Lemma X13_undecodable_line_witness :
  let w := world_of initial_os_state [InputError (UnicodeDecodeError "invalid start byte")] 0
             (mkWallTime 2 30 0) (1 # 2) in
  outcome (main 1 w) = Returned (Traceback "NameError: name 'kos_utility' is not defined")
  /\ exists e, InputError e ∈ stdin w.
Proof.
  intros w.
  assert (outcome (main 1 w)
          = Returned (Traceback "NameError: name 'kos_utility' is not defined")) as Hout
    by (vm_compute; reflexivity).
  split; [exact Hout|].
  exact (proj2 (proj2 (proj2 (proj2 (X13_how_the_process_ends 1 w)))) _ Hout).
Defined.


(** ** Friction *)

(** X14.  [apply_procedural_friction] changes nothing: it returns and
    leaves the world as it was.  Up to a backlog of 5 it is silent; above, it
    logs one warning and sleeps for the short check delay. *)
Theorem X14_friction_threshold reason w :
  let r := kos_bureaucracy.apply_procedural_friction reason w in
  outcome r = Returned tt
  /\ world r = w
  /\ (backlog w <= kos_config.HIGH_FRICTION_REVIEW_THRESHOLD ->
      logs (emitted r) = [] /\ sleeps (emitted r) = [])
  /\ (kos_config.HIGH_FRICTION_REVIEW_THRESHOLD < backlog w ->
      log_levels (emitted r) = [WARN]
      /\ sleeps (emitted r) = [kos_config.BASE_MSG_DELAY_MS; kos_config.BASE_CHECK_DELAY_SHORT_MS]).
Proof.
  intros r. subst r. rewrite friction_run. cbn [outcome world emitted].
  split; [done|]. split; [done|].
  with_strategy transparent [friction_events] unfold friction_events.
  split; intros Hb.
  - destruct (Z.ltb_spec kos_config.HIGH_FRICTION_REVIEW_THRESHOLD (backlog w)); [lia|done].
  - destruct (Z.ltb_spec kos_config.HIGH_FRICTION_REVIEW_THRESHOLD (backlog w)); [done|lia].
Qed.

(** ** Forwarding *)

(** X15.  An entity key the table of review entities does not hold is
    forwarded all the same, to the default audit sink: the call returns,
    draws one identifier, logs the forwarding and its acknowledgement at
    level [INFO], and raises the backlog by one.  The key the rejection
    protocol uses is such a key. *)
Theorem X15_forwarding_to_unknown_entity entity_key context_ref detail w :
  kos_bureaucracy.REVIEW_ENTITIES !! entity_key = None ->
  let r := kos_bureaucracy.simulate_forwarding entity_key context_ref detail w in
  outcome r = Returned tt
  /\ backlog (world r) = backlog w + 1
  /\ uuids (world r) = stream_tl (uuids w)
  /\ logged INFO (emitted r)
     = ["AUDIT: Forwarding " +:+ detail +:+ " (Ref: " +:+ context_ref
        +:+ ") to 'Default Audit Sink'. ID: KOS-FWD-" +:+ entity_key +:+ "-"
        +:+ PyStr.take 8 (stream_hd (uuids w));
        "AUDIT: Ack received from 'Default Audit Sink'. Pending Reviews: "
        +:+ PyStr.of_Z (backlog w + 1)].
Proof.
  intros Hkey r. subst r. rewrite forwarding_run. cbn [outcome world emitted].
  split; [done|]. split; [done|]. split; [done|].
  with_strategy transparent [forwarding_events] unfold forwarding_events.
  rewrite Hkey. reflexivity.
Qed.

Lemma X15_security_incident_witness :
  let r := kos_bureaucracy.simulate_forwarding SECURITY_INCIDENT "CMD:foo:VERIF_FAIL" "d"
             fresh_world in
  outcome r = Returned tt /\ backlog (world r) = backlog fresh_world + 1.
Proof.
  destruct (X15_forwarding_to_unknown_entity SECURITY_INCIDENT "CMD:foo:VERIF_FAIL" "d"
              fresh_world) as (Hout & Hb & _).
  - vm_compute. reflexivity.
  - split; assumption.
Defined.

(** ** The backlog counts the forwardings *)

Section CountsForwardings.

Lemma cf_silent {A} (m : M A) :
  (forall w, backlog (world (m w)) = backlog w) ->
  (forall w, forward_keys (emitted (m w)) = []) ->
  counts_forwardings m.
Proof. intros Hb He w. rewrite Hb, He. simpl. lia. Qed.

Lemma cf_ret {A} (a : A) : counts_forwardings (ret a).
Proof. by apply cf_silent. Qed.

Lemma cf_bind {A B} (m : M A) (k : A -> M B) :
  counts_forwardings m -> (forall a, counts_forwardings (k a)) -> counts_forwardings (bind m k).
Proof.
  intros Hm Hk w. unfold bind. specialize (Hm w).
  destruct (outcome (m w)) as [a|e|c]; cbn [world emitted]; [|done|done].
  specialize (Hk a (world (m w))). rewrite forward_keys_app, length_app. lia.
Qed.

Lemma cf_try_except {A} (m : M A) (h : PyExc -> M A) :
  counts_forwardings m -> (forall e, counts_forwardings (h e)) ->
  counts_forwardings (try_except m h).
Proof.
  intros Hm Hh w. unfold try_except. specialize (Hm w).
  destruct (outcome (m w)) as [a|e|c]; cbn [world emitted]; [done| |done].
  specialize (Hh e (world (m w))). rewrite forward_keys_app, length_app. lia.
Qed.

Lemma cf_raise {A} e : counts_forwardings (@raise A e).
Proof. by apply cf_silent. Qed.

Lemma cf_sys_exit {A} c : counts_forwardings (@sys_exit A c).
Proof. by apply cf_silent. Qed.

Lemma cf_emit_print text : counts_forwardings (emit (EPrint text)).
Proof. by apply cf_silent. Qed.

Lemma cf_emit_prompt prompt : counts_forwardings (emit (EPrompt prompt)).
Proof. by apply cf_silent. Qed.

Lemma cf_get_state : counts_forwardings get_state.
Proof. by apply cf_silent. Qed.

Lemma cf_modify_state f :
  (forall s, pending_reviews (f s) = pending_reviews s) -> counts_forwardings (modify_state f).
Proof. intros Hf. apply cf_silent; [|done]. intros w. apply Hf. Qed.

Lemma cf_time_monotonic : counts_forwardings time_monotonic.
Proof. by apply cf_silent. Qed.

Lemma cf_datetime_now : counts_forwardings datetime_now.
Proof. by apply cf_silent. Qed.

Lemma cf_random_random : counts_forwardings random_random.
Proof. by apply cf_silent. Qed.

Lemma cf_random_randint lo hi : counts_forwardings (random_randint lo hi).
Proof. by apply cf_silent. Qed.

Lemma cf_read_stdin : counts_forwardings read_stdin.
Proof. apply cf_silent; intros w; unfold read_stdin; by destruct (stdin w). Qed.

Lemma cf_pseudo_uuid : counts_forwardings kos_utility.pseudo_uuid.
Proof. by apply cf_silent. Qed.

Lemma cf_sleep_random d : counts_forwardings (kos_utility.sleep_random d).
Proof. by apply cf_silent. Qed.

Lemma cf_log message level : counts_forwardings (kos_bureaucracy.log_system_message message level).
Proof. apply cf_silent; intros w; by rewrite log_run. Qed.

Lemma cf_friction reason : counts_forwardings (kos_bureaucracy.apply_procedural_friction reason).
Proof.
  apply cf_silent; intros w; rewrite friction_run; [done|]. apply forward_keys_friction.
Qed.

Lemma cf_check name base : counts_forwardings (kos_bureaucracy.perform_simulated_check name base).
Proof. apply cf_silent; intros w; by rewrite check_run. Qed.

Lemma cf_forwarding key ctx detail :
  counts_forwardings (kos_bureaucracy.simulate_forwarding key ctx detail).
Proof. intros w. rewrite forwarding_run. cbn [world emitted]. by rewrite forward_keys_forwarding. Qed.

Lemma cf_set_user_id v : counts_forwardings (modify_state (set_user_id v)).
Proof. by apply cf_modify_state. Qed.
Lemma cf_set_is_authenticated v : counts_forwardings (modify_state (set_is_authenticated v)).
Proof. by apply cf_modify_state. Qed.
Lemma cf_set_session_start_time v : counts_forwardings (modify_state (set_session_start_time v)).
Proof. by apply cf_modify_state. Qed.
Lemma cf_set_last_command_ref v : counts_forwardings (modify_state (set_last_command_ref v)).
Proof. by apply cf_modify_state. Qed.

End CountsForwardings.

Create HintDb cf discriminated.
#[local] Hint Resolve cf_ret cf_raise cf_sys_exit cf_emit_print cf_emit_prompt cf_get_state
  cf_time_monotonic cf_datetime_now cf_random_random cf_random_randint cf_read_stdin
  cf_pseudo_uuid cf_sleep_random cf_log cf_friction cf_check cf_forwarding cf_set_user_id
  cf_set_is_authenticated cf_set_session_start_time cf_set_last_command_ref : cf.

Ltac cf_step :=
  lazymatch goal with
  | |- counts_forwardings (bind _ _) => apply cf_bind; [|intros]
  | |- counts_forwardings (try_except _ _) => apply cf_try_except; [|intros]
  | |- counts_forwardings (if ?c then _ else _) => destruct c
  | |- counts_forwardings (let '(_, _) := ?r in _) => destruct r
  | |- counts_forwardings (match ?x with _ => _ end) => destruct x
  | |- counts_forwardings _ => solve [auto with cf]
  end.
Ltac cf := cbv zeta; repeat cf_step.

Lemma cf_mandate clearance :
  counts_forwardings (kos_bureaucracy.check_operational_mandate clearance).
Proof. unfold kos_bureaucracy.check_operational_mandate. cf. Qed.

Lemma cf_check_time_limit step_name : counts_forwardings (check_time_limit step_name).
Proof. unfold check_time_limit. cf. Qed.

Lemma cf_call_check_time_limit args : counts_forwardings (call_check_time_limit args).
Proof.
  unfold call_check_time_limit.
  destruct args as [|a [|a' args]]; auto using cf_check_time_limit with cf.
Qed.

Lemma cf_for_each {A} (l : list A) (body : A -> M unit) :
  (forall x, counts_forwardings (body x)) -> counts_forwardings (kos_rejection.for_each l body).
Proof.
  intros Hbody. induction l as [|x l IH]; simpl; [apply cf_ret|].
  apply cf_bind; [apply Hbody|done].
Qed.

#[local] Hint Resolve cf_mandate cf_check_time_limit cf_call_check_time_limit : cf.

Section HandlersCountForwardings.
Variable check_time : CheckTime.
Variable get_input_func : InputFunc.
Hypothesis cf_check_time : forall args, counts_forwardings (check_time args).
Hypothesis cf_get_input_func : forall prompt, counts_forwardings (get_input_func prompt).
Hint Resolve cf_check_time cf_get_input_func : cf.

Lemma cf_verify_action_intent name requires_purpose purpose requires_reauth :
  counts_forwardings (kos_bureaucracy.verify_action_intent check_time name get_input_func
                        requires_purpose purpose requires_reauth).
Proof. unfold kos_bureaucracy.verify_action_intent. cf. Qed.
Hint Resolve cf_verify_action_intent : cf.

Lemma cf_handle_login args_dict positional_args :
  counts_forwardings (kos_auth.handle_login check_time args_dict positional_args get_input_func).
Proof. unfold kos_auth.handle_login. cf. Qed.

Lemma cf_handle_logout args_dict positional_args :
  counts_forwardings (kos_auth.handle_logout args_dict positional_args get_input_func).
Proof. unfold kos_auth.handle_logout. cf. Qed.

Lemma cf_handle_ls args_dict positional_args :
  counts_forwardings (kos_fs.handle_ls check_time args_dict positional_args get_input_func).
Proof. unfold kos_fs.handle_ls. cf. Qed.

Lemma cf_handle_status args_dict positional_args :
  counts_forwardings (kos_status.handle_status check_time args_dict positional_args
                        get_input_func).
Proof. unfold kos_status.handle_status. cf. Qed.

Lemma cf_handle_exec args_dict positional_args :
  counts_forwardings (kos_proc.handle_exec check_time args_dict positional_args get_input_func).
Proof. unfold kos_proc.handle_exec. cf. Qed.

Lemma cf_verification_cycle line cycle :
  counts_forwardings (kos_rejection.verification_cycle check_time line get_input_func cycle).
Proof. unfold kos_rejection.verification_cycle. cf. Qed.

Lemma cf_handle_rejected_command name args_dict positional_args :
  counts_forwardings (kos_rejection.handle_rejected_command check_time name args_dict
                        positional_args get_input_func).
Proof.
  unfold kos_rejection.handle_rejected_command, random_choice. cf.
  apply cf_for_each, cf_verification_cycle.
Qed.

End HandlersCountForwardings.

Lemma cf_handle_shutdown check_time args_dict positional_args (gif : option InputFunc)
    (forced : bool) :
  (forall args, counts_forwardings (check_time args)) ->
  (forall f, gif = Some f -> forall p, counts_forwardings (f p)) ->
  counts_forwardings (kos_shutdown.handle_shutdown check_time args_dict positional_args
                        gif forced).
Proof.
  intros Htimer Hgif. unfold kos_shutdown.handle_shutdown. cf.
  apply cf_verify_action_intent; [done|]. intros p.
  destruct gif as [f|]; simpl; [by apply (Hgif f)|apply cf_raise].
Qed.

Lemma cf_get_user_input prompt_override : counts_forwardings (get_user_input prompt_override).
Proof.
  unfold get_user_input. cf.
  apply cf_handle_shutdown; [apply cf_call_check_time_limit|done].
Qed.

Lemma cf_input_func prompt : counts_forwardings (input_func prompt).
Proof. apply cf_get_user_input. Qed.

Lemma cf_initialize_system : counts_forwardings initialize_system.
Proof. unfold initialize_system. cf. Qed.

Lemma cf_call_handler key c args_dict positional_args :
  COMMANDS !! key = Some c ->
  counts_forwardings (call_handler c args_dict positional_args input_func).
Proof.
  intros Hc. unfold COMMANDS in Hc. cbv zeta in Hc.
  apply elem_of_list_to_map_2 in Hc.
  pose proof cf_call_check_time_limit as Ht.
  pose proof cf_input_func as Hi.
  repeat (apply elem_of_cons in Hc as [Hc|Hc];
          [injection Hc as _ ->; cbn [call_handler];
           lazymatch goal with
           | |- counts_forwardings (kos_auth.handle_login _ _ _ _) => by apply cf_handle_login
           | |- counts_forwardings (kos_auth.handle_logout _ _ _) => by apply cf_handle_logout
           | |- counts_forwardings (kos_fs.handle_ls _ _ _ _) => by apply cf_handle_ls
           | |- counts_forwardings (kos_proc.handle_exec _ _ _ _) => by apply cf_handle_exec
           | |- counts_forwardings (kos_status.handle_status _ _ _ _) =>
               by apply cf_handle_status
           | |- counts_forwardings (kos_shutdown.handle_shutdown _ _ _ _ _) =>
               apply cf_handle_shutdown; [done|intros f [= <-]; done]
           | |- counts_forwardings (raise _) => apply cf_raise
           end|]).
  by apply elem_of_nil in Hc.
Qed.

Lemma cf_dispatch line : counts_forwardings (dispatch line).
Proof.
  unfold dispatch. cbv zeta.
  destruct (PyStr.startswith "./" _); destruct (parse_args _) as [args_dict positional_args].
  all: match goal with
       | |- context [match ?h with Some _ => _ | None => _ end] => destruct h as [c|] eqn:Hc
       end.
  all: cf.
  all: eauto using cf_call_handler.
Qed.

Lemma cf_command_loop_body : counts_forwardings command_loop_body.
Proof. unfold command_loop_body. cf. all: auto using cf_get_user_input, cf_dispatch. Qed.

Lemma cf_command_loop fuel : counts_forwardings (command_loop fuel).
Proof.
  induction fuel as [|n IH]; simpl; [apply cf_ret|].
  apply cf_bind; [apply cf_command_loop_body|done].
Qed.

Lemma cf_run_op op : counts_forwardings (run_op op).
Proof.
  pose proof cf_call_check_time_limit as Ht.
  pose proof cf_input_func as Hi.
  destruct op; cbn [run_op].
  - apply cf_forwarding.
  - apply cf_friction.
  - apply cf_bind; [apply cf_mandate|intros; apply cf_ret].
  - apply cf_call_check_time_limit.
  - apply cf_bind; [by apply cf_verify_action_intent|intros; apply cf_ret].
  - by apply cf_handle_login.
  - by apply cf_handle_logout.
  - by apply cf_handle_ls.
  - by apply cf_handle_exec.
  - by apply cf_handle_status.
  - apply cf_handle_shutdown; [done|]. by intros f [= <-].
  - by apply cf_handle_rejected_command.
  - apply cf_dispatch.
  - apply cf_command_loop_body.
  - apply cf_initialize_system.
Qed.

(** X16.  The backlog is an exact count: every operation of the engine,
    every sequence of them and any number of passes of the command loop
    leave the backlog higher by the number of forwarding events they raised,
    neither more nor less; nothing but [simulate_forwarding] writes it.  From
    the boot on, the backlog is the number of events forwarded so far. *)
Theorem X16_backlog_counts_forwardings :
  (forall op w,
     backlog (world (run_op op w))
     = backlog w + Z.of_nat (length (forward_keys (emitted (run_op op w)))))
  /\ (forall ops w,
        backlog (world (run_ops ops w))
        = backlog w + Z.of_nat (length (forward_keys (emitted (run_ops ops w)))))
  /\ (forall fuel w,
        backlog (world (command_loop fuel w))
        = backlog w + Z.of_nat (length (forward_keys (emitted (command_loop fuel w)))))
  /\ (forall fuel w, os_state w = initial_os_state ->
        let r := (initialize_system;; command_loop fuel) w in
        backlog (world r) = Z.of_nat (length (forward_keys (emitted r)))).
Proof.
  split; [|split; [|split]].
  - apply cf_run_op.
  - intros ops. apply cf_for_each, cf_run_op.
  - apply cf_command_loop.
  - intros fuel w Hinit r. subst r.
    rewrite (cf_bind _ _ cf_initialize_system (fun _ => cf_command_loop fuel) w).
    unfold backlog. by rewrite Hinit.
Qed.


(** ** The verification protocol behind a timer that returns *)

Section Verification.
Variable within : Q -> Stream Q -> Prop.
Variable check_time : CheckTime.
Hypothesis timer_returns : returns_while within check_time.

Lemma timer_run start step_name w :
  within (session_start_time (os_state w)) (monotonic w) ->
  check_time [start; step_name] w
  = mkRun (Returned tt)
      (with_monotonic (monotonic (world (check_time [start; step_name] w))) w)
      (emitted (check_time [start; step_name] w)).
Proof.
  intros H. destruct (timer_returns start step_name w H) as (Ho & Hw & _).
  destruct (check_time [start; step_name] w) as [o w' evs]. cbn [outcome world emitted] in *.
  by rewrite Ho, <- Hw.
Qed.

Lemma timer_within start step_name w :
  within (session_start_time (os_state w)) (monotonic w) ->
  within (session_start_time (os_state w)) (monotonic (world (check_time [start; step_name] w))).
Proof. intros H. by destruct (timer_returns start step_name w H) as (_ & _ & ? & _). Qed.

Lemma timer_forward_keys start step_name w :
  within (session_start_time (os_state w)) (monotonic w) ->
  forward_keys (emitted (check_time [start; step_name] w)) = [].
Proof. intros H. by destruct (timer_returns start step_name w H) as (_ & _ & _ & ? & _). Qed.

Lemma timer_forward_refs start step_name w :
  within (session_start_time (os_state w)) (monotonic w) ->
  forward_refs (emitted (check_time [start; step_name] w)) = [].
Proof.
  intros H. by destruct (timer_returns start step_name w H) as (_ & _ & _ & _ & ? & _).
Qed.

Lemma timer_prompts start step_name w :
  within (session_start_time (os_state w)) (monotonic w) ->
  prompts (emitted (check_time [start; step_name] w)) = [].
Proof.
  intros H. by destruct (timer_returns start step_name w H) as (_ & _ & _ & _ & _ & ? & _).
Qed.

Lemma timer_printed start step_name w :
  within (session_start_time (os_state w)) (monotonic w) ->
  printed (emitted (check_time [start; step_name] w)) = [].
Proof.
  intros H. by destruct (timer_returns start step_name w H) as (_ & _ & _ & _ & _ & _ & ?).
Qed.

(** The clock still satisfies [within] at the world of the goal. *)
Ltac budget :=
  cbn [with_monotonic os_state with_os_state with_stdin next_uuid forwarded world
       kos_utility.pseudo_uuid stdin monotonic session_start_time];
  first [ assumption
        | lazymatch goal with
          | |- within _ (monotonic (world (check_time [?a; ?b] ?W))) =>
              exact (timer_within a b W ltac:(budget))
          end ].

Ltac exec_timer := exec_with ltac:(apply timer_run; budget).

(** What the timer adds to the observations of a run. *)
Ltac timer_is_quiet :=
  rewrite ?timer_forward_keys, ?timer_forward_refs, ?timer_prompts, ?timer_printed by budget;
  cbn [app length].

Lemma verification_succeeds name rp pc rr w phrase after :
  within (session_start_time (os_state w)) (monotonic w) ->
  stdin w = Line phrase :: after ->
  PyStr.strip phrase = kos_config.CONFIRMATION_PHRASE ->
  let reauth := rr && is_authenticated (os_state w) in
  (reauth = true ->
   exists id rest, after = Line id :: rest /\ user_id (os_state w) = Some (PyStr.strip id)) ->
  exists w' evs,
    kos_bureaucracy.verify_action_intent check_time name input_func rp pc rr w
    = mkRun (Returned true) w' evs
    /\ forward_keys evs
       = (if rp then ["PURPOSE_VALIDATION"] else []) ++ (if reauth then ["RE_AUTH"] else [])
         ++ ["CMD_INTENT"]
    /\ length (prompts evs) = (if reauth then 2%nat else 1%nat)
    /\ printed evs = []
    /\ stdin w' = (if reauth then tl after else after)
    /\ os_state w'
       = Nat.iter ((if rp then 1 else 0) + (if reauth then 1 else 0) + 1) forwarded
           (os_state w).
Proof.
  intros Hwithin Hin Hphrase reauth Hsecond. subst reauth.
  assert (negb (String.eqb (PyStr.strip phrase) kos_config.CONFIRMATION_PHRASE) = false)
    as Hconfirm by (by rewrite Hphrase).
  unfold kos_bureaucracy.verify_action_intent. cbv zeta.
  destruct rp; destruct rr; destruct (is_authenticated (os_state w)) eqn:Hauth;
    cbn [andb] in Hsecond |- *.
  all: try (destruct (Hsecond eq_refl) as (id & rest & -> & Huser);
            assert (negb (bool_decide (Some (PyStr.strip id) = user_id (os_state w))) = false)
              as Hid by (by rewrite bool_decide_eq_true_2)).
  all: eexists _, _; (split; [exec_timer|]).
  all: observe_each; timer_is_quiet; world_all; done.
Qed.

Lemma verification_reauth_mismatch name (rp : bool) pc w phrase id rest :
  within (session_start_time (os_state w)) (monotonic w) ->
  is_authenticated (os_state w) = true ->
  stdin w = Line phrase :: Line id :: rest ->
  PyStr.strip phrase = kos_config.CONFIRMATION_PHRASE ->
  user_id (os_state w) <> Some (PyStr.strip id) ->
  exists w' evs,
    kos_bureaucracy.verify_action_intent check_time name input_func rp pc true w
    = mkRun (Returned false) w' evs
    /\ forward_keys evs = (if rp then ["PURPOSE_VALIDATION"] else []) ++ ["RE_AUTH"]
    /\ last (forward_refs evs) = Some (name +:+ "-FAIL")
    /\ length (prompts evs) = 2%nat
    /\ stdin w' = rest
    /\ backlog w' = backlog w + (if rp then 2 else 1).
Proof.
  intros Hwithin Hauth Hin Hphrase Huser.
  assert (negb (String.eqb (PyStr.strip phrase) kos_config.CONFIRMATION_PHRASE) = false)
    as Hconfirm by (by rewrite Hphrase).
  assert (negb (bool_decide (Some (PyStr.strip id) = user_id (os_state w))) = true) as Hid
    by (rewrite bool_decide_eq_false_2; [done|congruence]).
  unfold kos_bureaucracy.verify_action_intent. cbv zeta.
  destruct rp; cbn [andb].
  all: eexists _, _; (split; [exec_timer|]).
  all: observe_each; timer_is_quiet; world_all; try done.
  all: unfold backlog; lia.
Qed.

End Verification.

(** The timer of the program, given the parameter its callers expect,
    returns as long as the readings of the clock stay within the limit. *)
Lemma two_parameter_timer_returns : returns_while within_budget two_parameter_timer.
Proof.
  intros start step_name w Hw. cbn [two_parameter_timer]. cbv zeta.
  destruct (Qeq_bool (session_start_time (os_state w)) 0) eqn:Hoff.
  - rewrite (check_time_limit_timer_off _ _ Hoff). cbn [outcome world emitted].
    repeat split; try done. by destruct w.
  - pose proof (Hw 0%nat) as Hnow. apply Qltb_false in Hnow.
    unfold check_time_limit. cbv zeta. run_step. rewrite Hoff. run_step.
    unfold stream_hd. rewrite Hnow.
    destruct (Qltb _ _); repeat run_step; close_run; cbn [outcome world emitted].
    all: repeat split; try done.
    all: intros n; apply (Hw (S n)).
Qed.

(** X18.  The intent verification behind a timer that takes the call and
    returns (for the timer of the program given its missing parameter: as
    long as the clock stays within the limit).  With the confirmation phrase
    typed exactly and, where the second authentication applies (it is
    required and a session is open), the stored user id typed next (ASCII
    characters), it returns [True] after forwarding, in this order, a
    [PURPOSE_VALIDATION] event when a purpose is required, a [RE_AUTH] event
    when the second authentication applies, and a [CMD_INTENT] event; the
    backlog rises by as many, nothing else of the state changes, and a second
    line is read only for the second authentication. *)
Theorem X18_verification_succeeds within check_time name rp pc rr w phrase after :
  returns_while within check_time ->
  within (session_start_time (os_state w)) (monotonic w) ->
  stdin w = Line phrase :: after ->
  PyStr.strip phrase = kos_config.CONFIRMATION_PHRASE ->
  let reauth := rr && is_authenticated (os_state w) in
  (reauth = true ->
   exists id rest, after = Line id :: rest /\ PyStr.isascii id = true
                   /\ user_id (os_state w) = Some (PyStr.strip id)) ->
  let r := kos_bureaucracy.verify_action_intent check_time name input_func rp pc rr w in
  outcome r = Returned true
  /\ forward_keys (emitted r)
     = (if rp then ["PURPOSE_VALIDATION"] else []) ++ (if reauth then ["RE_AUTH"] else [])
       ++ ["CMD_INTENT"]
  /\ length (prompts (emitted r)) = (if reauth then 2%nat else 1%nat)
  /\ printed (emitted r) = []
  /\ stdin (world r) = (if reauth then tl after else after)
  /\ os_state (world r)
     = Nat.iter ((if rp then 1 else 0) + (if reauth then 1 else 0) + 1) forwarded (os_state w).
Proof.
  intros Htimer Hwithin Hin Hphrase reauth Hsecond r.
  destruct (verification_succeeds within check_time Htimer name rp pc rr w phrase after
              Hwithin Hin Hphrase) as (w' & evs & Hrun & H).
  { intros Hre. destruct (Hsecond Hre) as (id & rest & ? & _ & ?). by exists id, rest. }
  subst r. by rewrite Hrun.
Qed.

Lemma X18_kexec_witness :
  let r := kos_bureaucracy.verify_action_intent two_parameter_timer "kexec ./tool" input_func
             true (Some kos_config.STANDARD_PURPOSE_CODE_PROC) true complying_world in
  outcome r = Returned true
  /\ forward_keys (emitted r) = ["PURPOSE_VALIDATION"; "RE_AUTH"; "CMD_INTENT"]
  /\ stdin (world r) = [].
Proof.
  destruct (X18_verification_succeeds within_budget two_parameter_timer "kexec ./tool" true
              (Some kos_config.STANDARD_PURPOSE_CODE_PROC) true complying_world
              kos_config.CONFIRMATION_PHRASE [Line "alice"])
    as (Hout & Hkeys & _ & _ & Hin & _).
  - exact two_parameter_timer_returns.
  - intros n. vm_compute. discriminate.
  - reflexivity.
  - reflexivity.
  - intros _. by exists "alice", [].
  - repeat split; assumption.
Defined.

(** X19.  The second authentication of the verification, behind a timer that
    takes the call and returns: in an open session, a user id typed (ASCII
    characters) that is not the stored one makes the verification return
    [False]; the failure is itself forwarded, as a [RE_AUTH] event whose
    reference ends in [-FAIL], after the [PURPOSE_VALIDATION] event when a
    purpose is required; no [CMD_INTENT] event follows, and the backlog has
    risen by one or two although the command was refused. *)
Theorem X19_verification_reauth_mismatch within check_time name (rp : bool) pc w phrase id
    rest :
  returns_while within check_time ->
  within (session_start_time (os_state w)) (monotonic w) ->
  is_authenticated (os_state w) = true ->
  stdin w = Line phrase :: Line id :: rest ->
  PyStr.isascii id = true ->
  PyStr.strip phrase = kos_config.CONFIRMATION_PHRASE ->
  user_id (os_state w) <> Some (PyStr.strip id) ->
  let r := kos_bureaucracy.verify_action_intent check_time name input_func rp pc true w in
  outcome r = Returned false
  /\ forward_keys (emitted r) = (if rp then ["PURPOSE_VALIDATION"] else []) ++ ["RE_AUTH"]
  /\ last (forward_refs (emitted r)) = Some (name +:+ "-FAIL")
  /\ length (prompts (emitted r)) = 2%nat
  /\ stdin (world r) = rest
  /\ backlog (world r) = backlog w + (if rp then 2 else 1).
Proof.
  intros Htimer Hwithin Hauth Hin _ Hphrase Huser r.
  destruct (verification_reauth_mismatch within check_time Htimer name rp pc w phrase id rest
              Hwithin Hauth Hin Hphrase Huser) as (w' & evs & Hrun & H).
  subst r. by rewrite Hrun.
Qed.

Lemma X19_wrong_name_witness :
  let w := world_of alice_session [Line kos_config.CONFIRMATION_PHRASE; Line "bob"] 2
             (mkWallTime 2 30 0) (1 # 2) in
  let r := kos_bureaucracy.verify_action_intent two_parameter_timer "kexec ./tool" input_func
             true (Some kos_config.STANDARD_PURPOSE_CODE_PROC) true w in
  outcome r = Returned false
  /\ forward_keys (emitted r) = ["PURPOSE_VALIDATION"; "RE_AUTH"]
  /\ backlog (world r) = backlog w + 2.
Proof.
  destruct (X19_verification_reauth_mismatch within_budget two_parameter_timer "kexec ./tool"
              true (Some kos_config.STANDARD_PURPOSE_CODE_PROC)
              (world_of alice_session [Line kos_config.CONFIRMATION_PHRASE; Line "bob"] 2
                 (mkWallTime 2 30 0) (1 # 2))
              kos_config.CONFIRMATION_PHRASE "bob" [])
    as (Hout & Hkeys & _ & _ & _ & Hb).
  - exact two_parameter_timer_returns.
  - intros n. vm_compute. discriminate.
  - reflexivity.
  - reflexivity.
  - reflexivity.
  - reflexivity.
  - discriminate.
  - repeat split; assumption.
Defined.


(** ** The commands without a session *)

Lemma command_handler_key tok : command_handler_of tok = COMMANDS !! command_key tok.
Proof. unfold command_handler_of, command_key. by destruct (PyStr.startswith _ _). Qed.

(** A mandate check that allows: the state and standard input are as
    before, nothing is forwarded, asked or printed, and no error is logged. *)
Lemma mandate_allows clearance w :
  mandate_verdict clearance (stream_hd (wall_clock w)) (backlog w) (random_draws w) = None ->
  exists w' evs,
    kos_bureaucracy.check_operational_mandate clearance w = mkRun (Returned true) w' evs
    /\ os_state w' = os_state w
    /\ stdin w' = stdin w
    /\ uuids w' = uuids w
    /\ monotonic w' = monotonic w
    /\ forward_keys evs = []
    /\ prompts evs = []
    /\ printed evs = []
    /\ logged ERROR evs = []
    /\ logged CMD evs = [].
Proof.
  unfold mandate_verdict, kos_bureaucracy.check_operational_mandate, backlog.
  cbv zeta.
  destruct (String.eqb clearance "FILESYSTEM"
            && (weekday (stream_hd (wall_clock w)) =? kos_config.LOCKOUT_PRIME_MINUTE_FILESYSTEM_DAY))
    eqn:Hday;
    [destruct (kos_bureaucracy.minute_is_prime (minute (stream_hd (wall_clock w)))) eqn:Hprime|];
    cbn [andb]; [done|..].
  all: destruct (10 <? pending_reviews (os_state w)) eqn:Hbacklog; cbn [andb];
    [ destruct (Qltb (random_draws w 0%nat) (2 # 10)) eqn:Hdraw; [done|];
      destruct (Qltb (random_draws w 1%nat) kos_config.LOCKOUT_RANDOM_FAILURE_CHANCE)
        eqn:Hnext; [done|]
    | destruct (Qltb (random_draws w 0%nat) kos_config.LOCKOUT_RANDOM_FAILURE_CHANCE)
        eqn:Hdraw; [done|] ].
  all: intros _; eexists _, _; (split; [exec|]).
  all: observe_each; world_all; done.
Qed.

Section Guards.
Variable check_time : CheckTime.
Variable get_input_func : InputFunc.
Variables (args_dict : gmap string ArgVal) (positional_args : list string).

(** The handlers of [kls], [kexec] and [kstatus] test the session before
    they call the timer. *)
Lemma handle_ls_refuses w :
  is_authenticated (os_state w) = false ->
  kos_fs.handle_ls check_time args_dict positional_args get_input_func w
  = mkRun (Returned tt) w NO_SESSION.
Proof.
  intros Hauth. unfold kos_fs.handle_ls. cbv zeta.
  assert (negb (is_authenticated (os_state w)) = true) as Hguard by (by rewrite Hauth).
  etransitivity; [exec|reflexivity].
Qed.

Lemma handle_exec_refuses w :
  is_authenticated (os_state w) = false ->
  kos_proc.handle_exec check_time args_dict positional_args get_input_func w
  = mkRun (Returned tt) w NO_SESSION.
Proof.
  intros Hauth. unfold kos_proc.handle_exec. cbv zeta.
  assert (negb (is_authenticated (os_state w)) = true) as Hguard by (by rewrite Hauth).
  etransitivity; [exec|reflexivity].
Qed.

Lemma handle_status_refuses w :
  is_authenticated (os_state w) = false ->
  kos_status.handle_status check_time args_dict positional_args get_input_func w
  = mkRun (Returned tt) w NO_SESSION.
Proof.
  intros Hauth. unfold kos_status.handle_status. cbv zeta.
  assert (negb (is_authenticated (os_state w)) = true) as Hguard by (by rewrite Hauth).
  etransitivity; [exec|reflexivity].
Qed.

Lemma handle_logout_refuses w :
  is_authenticated (os_state w) = false ->
  kos_auth.handle_logout args_dict positional_args get_input_func w
  = mkRun (Returned tt) w
      [ELog WARN "No active session found to terminate."; ESleep kos_config.BASE_MSG_DELAY_MS].
Proof.
  intros Hauth. unfold kos_auth.handle_logout. cbv zeta.
  assert (negb (is_authenticated (os_state w)) = true) as Hguard by (by rewrite Hauth).
  etransitivity; [exec|reflexivity].
Qed.

Lemma handle_shutdown_refuses gif w :
  is_authenticated (os_state w) = false ->
  truthy (py_or (dict_get args_dict "force") (dict_get args_dict "f")) = false ->
  kos_shutdown.handle_shutdown check_time args_dict positional_args gif false w
  = mkRun (Returned tt) w
      [ELog WARN "System Halt Sequence Initiated."; ESleep kos_config.BASE_MSG_DELAY_MS;
       ELog ERROR "Shutdown requires authentication ('klogin') or '--force' / '-f' flag.";
       ESleep kos_config.BASE_MSG_DELAY_MS].
Proof.
  intros Hauth Hforce. unfold kos_shutdown.handle_shutdown. cbv zeta.
  assert (negb (is_authenticated (os_state w))
          && negb (truthy (py_or (dict_get args_dict "force") (dict_get args_dict "f"))) = true)
    as Hguard by (by rewrite Hauth, Hforce).
  etransitivity; [exec|reflexivity].
Qed.

End Guards.

(** The commands that ask for a session are not among the commands the
    mandate check leaves alone. *)
Lemma session_commands_not_exempt tok :
  command_key tok ∈ ["kls"; "ls"; "kexec"; "./"; "kstatus"] ->
  tok ∉ MANDATE_EXEMPT.
Proof.
  intros Hkey Hexempt.
  assert (Forall (fun t => command_key t ∉ ["kls"; "ls"; "kexec"; "./"; "kstatus"])
            MANDATE_EXEMPT) as Hall
    by (apply (bool_decide_unpack _); vm_compute; exact I).
  rewrite Forall_forall in Hall. by apply (Hall tok).
Qed.

(** What the handler of a command that asks for a session does without
    one. *)
Lemma session_command_refuses tok :
  command_key tok ∈ ["kls"; "ls"; "kexec"; "./"; "kstatus"] ->
  exists h, command_handler_of tok = Some (Handler h)
    /\ forall args_dict positional_args gif w,
         is_authenticated (os_state w) = false ->
         h args_dict positional_args gif w = mkRun (Returned tt) w NO_SESSION.
Proof.
  intros Hkey. rewrite command_handler_key.
  repeat (apply elem_of_cons in Hkey; destruct Hkey as [Hkey|Hkey]);
    [..|by apply elem_of_nil in Hkey].
  all: rewrite Hkey; eexists; (split; [reflexivity|]); intros args_dict positional_args gif w.
  - apply handle_ls_refuses.
  - apply handle_ls_refuses.
  - apply handle_exec_refuses.
  - apply handle_exec_refuses.
  - apply handle_status_refuses.
Qed.

(** X21.  Without an open session the commands [kls], [ls], [kexec],
    [./program] and [kstatus] (typed on a line of ASCII characters, in any
    case of the letters) do nothing but log an error: their handlers
    test the session before their first call of the timer, so that the pass
    of the loop, when the mandate check allows, stores the command reference,
    logs one error, that a session is required, and two lines at level [CMD]
    (the command and its completion), forwards nothing, asks nothing, prints
    nothing and leaves the rest of the state as it was. *)
Theorem X21_commands_need_a_session line w :
  let command_name_raw := hd EmptyString (PyStr.split_ws line) in
  PyStr.isascii line = true ->
  command_key command_name_raw ∈ ["kls"; "ls"; "kexec"; "./"; "kstatus"] ->
  is_authenticated (os_state w) = false ->
  mandate_verdict "STANDARD" (stream_hd (wall_clock w)) (backlog w) (random_draws w) = None ->
  let r := dispatch line w in
  outcome r = Returned tt
  /\ logged ERROR (emitted r) = ["Operation requires authentication. Use 'klogin'."]
  /\ length (logged CMD (emitted r)) = 2%nat
  /\ forward_keys (emitted r) = []
  /\ prompts (emitted r) = []
  /\ printed (emitted r) = []
  /\ stdin (world r) = stdin w
  /\ os_state (world r) = set_last_command_ref (Some (command_ref w)) (os_state w).
Proof.
  intros command_name_raw _ Hkey Hauth Hverdict r. subst r.
  pose proof (dispatch_run line w) as Hrun. cbv zeta in Hrun.
  destruct (command_arguments line) as [args_dict positional_args]. rewrite Hrun. clear Hrun.
  fold command_name_raw.
  destruct (session_command_refuses command_name_raw Hkey) as (h & -> & Hh).
  rewrite bool_decide_eq_false_2 by (by apply session_commands_not_exempt).
  cbn [negb call_handler].
  set (w1 := with_os_state _ (next_uuid w)).
  destruct (mandate_allows "STANDARD" w1 Hverdict)
    as (wm & em & Hm & Hstate & Hin & _ & _ & Hkeys & Hprompts & Hprinted & Herror & Hcmd).
  assert (is_authenticated (os_state wm) = false) as Hauthm by (by rewrite Hstate).
  eassert (prepend _ _ = _) as ->
    by exec_with ltac:(first [exact Hm | by apply Hh]).
  cbn [outcome world emitted]. observe_each; world_all; done.
Qed.

Lemma X21_kls_witness :
  let w := world_of initial_os_state [] 0 (mkWallTime 2 30 0) (1 # 2) in
  let r := dispatch "kls /tmp --view-mode=audit -p FS-READ-7731" w in
  outcome r = Returned tt
  /\ logged ERROR (emitted r) = ["Operation requires authentication. Use 'klogin'."]
  /\ forward_keys (emitted r) = [].
Proof.
  destruct (X21_commands_need_a_session "kls /tmp --view-mode=audit -p FS-READ-7731"
              (world_of initial_os_state [] 0 (mkWallTime 2 30 0) (1 # 2)))
    as (Hout & Herror & _ & Hkeys & _).
  - reflexivity.
  - apply (bool_decide_unpack _). vm_compute. exact I.
  - reflexivity.
  - vm_compute. reflexivity.
  - repeat split; assumption.
Defined.

(** ** The halt commands *)

Lemma halt_handler tok :
  tok ∈ ["khalt"; "shutdown"; "exit"] ->
  command_handler_of tok
  = Some (Handler (fun ad pa gif =>
                     kos_shutdown.handle_shutdown call_check_time_limit ad pa (Some gif) false)).
Proof.
  intros Htok.
  repeat (apply elem_of_cons in Htok; destruct Htok as [Htok|Htok]);
    [..|by apply elem_of_nil in Htok].
  all: rewrite Htok; reflexivity.
Qed.

Lemma halt_is_exempt tok : tok ∈ ["khalt"; "shutdown"; "exit"] -> tok ∈ MANDATE_EXEMPT.
Proof.
  revert tok. change (["khalt"; "shutdown"; "exit"] ⊆ MANDATE_EXEMPT).
  apply (bool_decide_unpack _). vm_compute. exact I.
Qed.

(** X22.  The commands [khalt], [shutdown] and [exit], typed in lower case
    on a line of ASCII characters, are run without a mandate check.  With
    [--force] or [-f] the process exits with status 0, whether a session is
    open or not, after one [SHUTDOWN] event whose reference shows the value
    of the flag; nothing is asked.  Without the flag and without a session
    the handler returns after an error line and the loop goes on. *)
Theorem X22_halt_without_session line w :
  let command_name_raw := hd EmptyString (PyStr.split_ws line) in
  let args_dict := (command_arguments line).1 in
  let is_forced := py_or (dict_get args_dict "force") (dict_get args_dict "f") in
  PyStr.isascii line = true ->
  command_name_raw ∈ ["khalt"; "shutdown"; "exit"] ->
  truthy is_forced = true \/ is_authenticated (os_state w) = false ->
  let r := dispatch line w in
  prompts (emitted r) = []
  /\ stdin (world r) = stdin w
  /\ if truthy is_forced then
       outcome r = Exited 0
       /\ forward_keys (emitted r) = ["SHUTDOWN"]
       /\ forward_refs (emitted r) = ["Forced=" +:+ kos_shutdown.render_val is_forced]
       /\ os_state (world r)
          = set_is_authenticated false
              (forwarded (set_last_command_ref (Some (command_ref w)) (os_state w)))
     else
       outcome r = Returned tt
       /\ forward_keys (emitted r) = []
       /\ logged ERROR (emitted r)
          = ["Shutdown requires authentication ('klogin') or '--force' / '-f' flag."]
       /\ printed (emitted r) = []
       /\ os_state (world r) = set_last_command_ref (Some (command_ref w)) (os_state w).
Proof.
  intros command_name_raw args_dict is_forced _ Htok Hcase r. subst r.
  pose proof (dispatch_run line w) as Hrun. cbv zeta in Hrun.
  subst is_forced args_dict.
  destruct (command_arguments line) as [args_dict positional_args]. rewrite Hrun. clear Hrun.
  fold command_name_raw. cbn [fst] in *.
  rewrite (halt_handler _ Htok).
  rewrite (bool_decide_eq_true_2 _ (halt_is_exempt _ Htok)).
  cbn [negb call_handler].
  set (w1 := with_os_state _ (next_uuid w)).
  unfold kos_shutdown.handle_shutdown. cbv zeta.
  destruct (truthy (py_or (dict_get args_dict "force") (dict_get args_dict "f"))) eqn:Hforce.
  - assert (negb (is_authenticated (os_state w1)) && negb true = false) as Hguard
      by apply andb_false_r.
    eassert (prepend _ _ = _) as -> by exec.
    cbn [outcome world emitted]. observe_each; world_all; done.
  - destruct Hcase as [?|Hauth]; [done|].
    assert (negb (is_authenticated (os_state w1)) && negb false = true) as Hguard
      by (subst w1; cbn; by rewrite Hauth).
    eassert (prepend _ _ = _) as -> by exec.
    cbn [outcome world emitted]. observe_each; world_all; done.
Qed.

Lemma X22_forced_and_refused_witness :
  let w := world_of initial_os_state [] 0 (mkWallTime 2 30 0) (1 # 2) in
  (outcome (dispatch "exit -f" w) = Exited 0
   /\ forward_refs (emitted (dispatch "exit -f" w)) = ["Forced=True"])
  /\ outcome (dispatch "exit" w) = Returned tt.
Proof.
  split.
  - destruct (X22_halt_without_session "exit -f"
                (world_of initial_os_state [] 0 (mkWallTime 2 30 0) (1 # 2)))
      as (_ & _ & Hforced).
    + reflexivity.
    + apply (bool_decide_unpack _). vm_compute. exact I.
    + left. reflexivity.
    + destruct Hforced as (Hout & _ & Hrefs & _). split; assumption.
  - destruct (X22_halt_without_session "exit"
                (world_of initial_os_state [] 0 (mkWallTime 2 30 0) (1 # 2)))
      as (_ & _ & Hrefused).
    + reflexivity.
    + apply (bool_decide_unpack _). vm_compute. exact I.
    + right. reflexivity.
    + destruct Hrefused as (Hout & _). assumption.
Defined.

(** ** The logout *)

(** X23.  [klogout] in an open session asks once for a confirmation, at a
    prompt that wraps the question of the handler, and compares what was
    typed (ASCII characters), stripped, with [TERMINATE_SESSION] exactly.  On
    a match it forwards one [AUTH] event whose reference is the user, and
    clears the user, the flag and the timer together; otherwise it logs that
    the logout was aborted and leaves the state as it was.  The handler does
    not call the timer. *)
Theorem X23_logout_in_a_session args_dict positional_args w confirm rest :
  is_authenticated (os_state w) = true ->
  stdin w = Line confirm :: rest ->
  PyStr.isascii confirm = true ->
  let r := kos_auth.handle_logout args_dict positional_args input_func w in
  let user := default "None" (user_id (os_state w)) in
  outcome r = Returned tt
  /\ stdin (world r) = rest
  /\ prompts (emitted r) = [" > Confirm logout? Type 'TERMINATE_SESSION': : "]
  /\ printed (emitted r) = []
  /\ if String.eqb (PyStr.strip confirm) "TERMINATE_SESSION" then
       forward_keys (emitted r) = ["AUTH"]
       /\ forward_refs (emitted r) = [user]
       /\ os_state (world r)
          = set_session_start_time 0%Q
              (set_is_authenticated false (set_user_id None (forwarded (os_state w))))
     else
       forward_keys (emitted r) = []
       /\ logged WARN (emitted r) = ["Logout aborted by user."]
       /\ os_state (world r) = os_state w.
Proof.
  intros Hauth Hin _ r user. subst r user.
  assert (negb (is_authenticated (os_state w)) = false) as Hguard by (by rewrite Hauth).
  unfold kos_auth.handle_logout. cbv zeta.
  destruct (String.eqb (PyStr.strip confirm) "TERMINATE_SESSION") eqn:Hconfirm.
  - assert (negb (String.eqb (PyStr.strip confirm) "TERMINATE_SESSION") = false) as Htest
      by (by rewrite Hconfirm).
    eassert (bind _ _ _ = _) as -> by exec.
    cbn [outcome world emitted]. observe_each; world_all; done.
  - assert (negb (String.eqb (PyStr.strip confirm) "TERMINATE_SESSION") = true) as Htest
      by (by rewrite Hconfirm).
    eassert (bind _ _ _ = _) as -> by exec.
    cbn [outcome world emitted]. observe_each; world_all; done.
Qed.

Lemma X23_alice_logs_out_witness :
  let w := world_of alice_session [Line "  TERMINATE_SESSION "] 2 (mkWallTime 2 30 0) (1 # 2) in
  let r := kos_auth.handle_logout ∅ [] input_func w in
  outcome r = Returned tt
  /\ forward_refs (emitted r) = ["alice"]
  /\ user_id (os_state (world r)) = None
  /\ is_authenticated (os_state (world r)) = false.
Proof.
  destruct (X23_logout_in_a_session ∅ []
              (world_of alice_session [Line "  TERMINATE_SESSION "] 2 (mkWallTime 2 30 0) (1 # 2))
              "  TERMINATE_SESSION " [] eq_refl eq_refl eq_refl)
    as (Hout & _ & _ & _ & Hmatch).
  change (String.eqb (PyStr.strip "  TERMINATE_SESSION ") "TERMINATE_SESSION") with true in Hmatch.
  destruct Hmatch as (_ & Hrefs & Hstate).
  split; [exact Hout|]. split; [exact Hrefs|]. by rewrite Hstate.
Defined.

